(** * MainRecommender: a shallow embedding of [src/src/recommenders.py]

    The class [MainRecommender] wires two collaborative-filtering models of
    the [implicit] library around a user-item matrix built with pandas.  The
    embedding keeps the Python structure: the object [self] is a record, a
    method is a computation in a state-and-exception monad over that record
    (a Python exception leaves the mutations made so far in place), and the
    fitted models are records of functions, since their arithmetic is done
    by the library.

    Conventions.
    - User ids, item ids and matrix indices are Python/numpy integers: [Z].
    - Counts such as [N] and [N_PREDICT] are [nat]; a negative [N] (which
      Python would accept and slice from the end) is outside the model.
    - Floating-point columns ([quantity], [sales_value], the scores) are
      rationals [Q]: exact arithmetic, no rounding, no NaN inside a column.
    - The interaction table [data] carries the columns user_id, item_id,
      quantity and sales_value; a table that lacks one of them (pandas
      then raises KeyError) is outside the model.
    - pandas' [sort_values] is modelled by a stable insertion sort; pandas
      leaves the order of rows with equal keys open, so statements about
      sorted output are phrased for any sorted permutation. *)

From Stdlib Require Import ZArith QArith List String Sorted Permutation Lia.
From stdpp Require Import base option list gmap strings pretty.

Local Open Scope string_scope.
Local Open Scope list_scope.
Local Open Scope nat_scope.
Local Abbreviation length := List.length.

(** ** Python values, exceptions and the method monad *)

Inductive PyError : Type :=
| KeyError | IndexError | ValueError | AssertionError | AttributeError | TypeError.

Inductive result (A : Type) : Type :=
| Ok (a : A)
| Raise (e : PyError).
Arguments Ok {A} a.
Arguments Raise {A} e.

(** What [evalMetrics] can hand back: a float, NaN (the mean of no rows),
    [None], or a message string (legacy variant). *)
Inductive PyVal : Type :=
| VFloat (q : Q)
| VNaN
| VNone
| VStr (s : string).

(** ** Tables *)

(** A row of the interaction table [data]. *)
Record Interaction : Type := mkInteraction {
  user_id : Z;
  item_id : Z;
  quantity : Q;
  sales_value : Q
}.

(** A row of [self.top_purchases]: columns user_id, item_id, quantity
    (the latter holding the group count). *)
Record PurchaseRow : Type := mkPurchaseRow {
  tp_user_id : Z;
  tp_item_id : Z;
  tp_quantity : Z
}.

(** A row of the external score table [df_predict]. *)
Record ScoreRow : Type := mkScoreRow {
  sr_user_id : Z;
  sr_item_id : Z;
  proba_item_purchase : Q
}.

(** A labelled matrix, as [pd.pivot_table] returns it. *)
Record DataFrame : Type := mkDataFrame {
  index : list Z;
  columns : list Z;
  values : list (list Q)
}.

(** ** Fitted models (external capability) *)

Record Model : Type := mkModel {
  recommend : Z -> DataFrame -> nat -> list Z -> list (Z * Q);
  similar_items : Z -> nat -> list (Z * Q);
  similar_users : Z -> nat -> list (Z * Q)
}.

(** ** The object *)

Record MainRecommender : Type := mkMainRecommender {
  top_purchases : list PurchaseRow;
  overall_top_purchases : list Z;
  user_item_matrix : DataFrame;
  id_to_itemid : gmap Z Z;
  id_to_userid : gmap Z Z;
  itemid_to_id : gmap Z Z;
  userid_to_id : gmap Z Z;
  model : option Model;        (* [fit] returns None for an unknown model_type *)
  own_recommender : Model
}.

Definition set_userid_to_id (m : gmap Z Z) (self : MainRecommender) : MainRecommender :=
  {| top_purchases := top_purchases self;
     overall_top_purchases := overall_top_purchases self;
     user_item_matrix := user_item_matrix self;
     id_to_itemid := id_to_itemid self;
     id_to_userid := id_to_userid self;
     itemid_to_id := itemid_to_id self;
     userid_to_id := m;
     model := model self;
     own_recommender := own_recommender self |}.

Definition set_id_to_userid (m : gmap Z Z) (self : MainRecommender) : MainRecommender :=
  {| top_purchases := top_purchases self;
     overall_top_purchases := overall_top_purchases self;
     user_item_matrix := user_item_matrix self;
     id_to_itemid := id_to_itemid self;
     id_to_userid := m;
     itemid_to_id := itemid_to_id self;
     userid_to_id := userid_to_id self;
     model := model self;
     own_recommender := own_recommender self |}.

(** A method body: it reads and mutates [self], and returns or raises. *)
Definition M (A : Type) : Type := MainRecommender -> MainRecommender * result A.

Definition ret {A : Type} (a : A) : M A := fun self => (self, Ok a).

Definition raise {A : Type} (e : PyError) : M A := fun self => (self, Raise e).

Definition bind {A B : Type} (m : M A) (f : A -> M B) : M B :=
  fun self =>
    match m self with
    | (self', Ok a) => f a self'
    | (self', Raise e) => (self', Raise e)
    end.

Definition get_self : M MainRecommender := fun self => (self, Ok self).

Definition modify (f : MainRecommender -> MainRecommender) : M unit :=
  fun self => (f self, Ok tt).

Declare Scope py_scope.
Delimit Scope py_scope with py.
Notation "x <- c1 ;; c2" := (bind c1 (fun x => c2))
  (at level 100, c1 at next level, right associativity) : py_scope.
Notation "c1 ;; c2" := (bind c1 (fun _ => c2))
  (at level 100, right associativity) : py_scope.
Local Open Scope py_scope.

(** [d[k]] on a dict. *)
Definition getitem (d : gmap Z Z) (k : Z) : M Z :=
  match d !! k with
  | Some v => ret v
  | None => raise KeyError
  end.

(** [l[i]] on a list, for [i >= 0]. *)
Definition list_getitem {A : Type} (l : list A) (i : nat) : M A :=
  match nth_error l i with
  | Some v => ret v
  | None => raise IndexError
  end.

(** [assert cond]. *)
Definition py_assert (cond : bool) : M unit :=
  if cond then ret tt else raise AssertionError.

(** [max(l)] of a list of integers. *)
Definition py_max (l : list Z) : M Z :=
  match l with
  | [] => raise ValueError
  | x :: l' => ret (fold_left Z.max l' x)
  end.

(** [list(d.values())]. *)
Definition dict_values (d : gmap Z Z) : list Z := (map_to_list d).*2.

(** [[f(x) for x in l]] and [Series.apply(f)] with an effectful [f]. *)
Fixpoint mapM {A B : Type} (f : A -> M B) (l : list A) : M (list B) :=
  match l with
  | [] => ret []
  | x :: l' =>
      y <- f x ;;
      ys <- mapM f l' ;;
      ret (y :: ys)
  end.

(** ** Index management *)

(** [_update_dict]: register a user id that the maps do not know yet. *)
Definition _update_dict (user_id : Z) : M unit :=
  self <- get_self ;;
  if decide (is_Some (userid_to_id self !! user_id)) then ret tt
  else
    max_id <- py_max (dict_values (userid_to_id self)) ;;
    let max_id := (max_id + 1)%Z in
    modify (fun self => set_userid_to_id (<[user_id := max_id]> (userid_to_id self)) self) ;;
    modify (fun self => set_id_to_userid (<[max_id := user_id]> (id_to_userid self)) self).

(** ** The fallback *)

(** [_extend_with_top_popular]: the argument list is extended in place and
    the name rebound to a slice; every caller rebinds its own [res] to the
    returned list, so only the returned list is observable. *)
Definition _extend_with_top_popular (recommendations : list Z) (N : nat) : M (list Z) :=
  self <- get_self ;;
  if length recommendations <? N then
    let recommendations := recommendations ++ firstn N (overall_top_purchases self) in
    ret (firstn N recommendations)
  else ret recommendations.

(** ** The four strategies *)

(** Attribute access on [self.model], which is [None] when [fit] did not
    recognise the model type. *)
Definition getattr_model (m : option Model) : M Model :=
  match m with
  | Some mdl => ret mdl
  | None => raise AttributeError
  end.

(** [_get_similar_item]: the second row of [similar_items(.., N=2)]. *)
Definition _get_similar_item (item_id : Z) : M Z :=
  self <- get_self ;;
  mdl <- getattr_model (model self) ;;
  idx <- getitem (itemid_to_id self) item_id ;;
  let recs := similar_items mdl idx 2 in
  rec <- list_getitem recs 1 ;;
  let top_rec := fst rec in
  getitem (id_to_itemid self) top_rec.

(** [_get_recommendations]: Python evaluates the callee [model.recommend]
    first, then the keyword arguments left to right, then the
    comprehension over the returned rows. *)
Definition _get_recommendations (user : Z) (model : option Model) (N : nat) : M (list Z) :=
  _update_dict user ;;
  self <- get_self ;;
  mdl <- getattr_model model ;;
  userid <- getitem (userid_to_id self) user ;;
  let user_items := user_item_matrix self in
  placeholder <- getitem (itemid_to_id self) 999999%Z ;;
  let recs := recommend mdl userid user_items N [placeholder] in
  res <- mapM (fun rec => getitem (id_to_itemid self) (fst rec)) recs ;;
  res <- _extend_with_top_popular res N ;;
  py_assert (length res =? N) ;;
  ret res.

Definition get_recommendations (user : Z) (N : nat) : M (list Z) :=
  _update_dict user ;;
  self <- get_self ;;
  _get_recommendations user (model self) N.

Definition get_own_recommendations (user : Z) (N : nat) : M (list Z) :=
  _update_dict user ;;
  self <- get_self ;;
  _get_recommendations user (Some (own_recommender self)) N.

Definition get_similar_items_recommendation (user_id : Z) (N : nat) : M (list Z) :=
  self <- get_self ;;
  let top_users_purchases :=
    firstn N (List.filter (fun row => (tp_user_id row =? user_id)%Z) (top_purchases self)) in
  res <- mapM (fun row => _get_similar_item (tp_item_id row)) top_users_purchases ;;
  res <- _extend_with_top_popular res N ;;
  py_assert (length res =? N) ;;
  ret res.

(** The [for] loop of [get_similar_users_recommendation]:
    [res.extend(self.get_own_recommendations(_user_id, N=1))]. *)
Fixpoint extend_own_recommendations (res : list Z) (similar_users : list Z) : M (list Z) :=
  match similar_users with
  | [] => ret res
  | _user_id :: rest =>
      own <- get_own_recommendations _user_id 1 ;;
      extend_own_recommendations (res ++ own) rest
  end.

Definition get_similar_users_recommendation (user_id : Z) (N : nat) : M (list Z) :=
  let res := [] in
  self <- get_self ;;
  mdl <- getattr_model (model self) ;;
  userid <- getitem (userid_to_id self) user_id ;;
  let similar_users := similar_users mdl userid (N + 1) in
  similar_users <- mapM (fun rec => getitem (id_to_userid self) (fst rec)) similar_users ;;
  let similar_users := tail similar_users in
  res <- extend_own_recommendations res similar_users ;;
  res <- _extend_with_top_popular res N ;;
  py_assert (length res =? N) ;;
  ret res.

(** ** Sorting and grouping helpers (pandas) *)

Section InsertionSort.
Context {A : Type} (leb : A -> A -> bool).

Fixpoint insert_sorted (x : A) (l : list A) : list A :=
  match l with
  | [] => [x]
  | y :: l' => if leb x y then x :: l else y :: insert_sorted x l'
  end.

(** [fold_right] keeps the earlier of two rows with equal keys first. *)
Definition sort_by (l : list A) : list A := fold_right insert_sorted [] l.
End InsertionSort.

(** Sorted, duplicate-free list of the keys that occur: the group keys of
    [groupby] and the labels of [pivot_table]. *)
Fixpoint insert_unique (x : Z) (l : list Z) : list Z :=
  match l with
  | [] => [x]
  | y :: l' =>
      match (x ?= y)%Z with
      | Lt => x :: l
      | Eq => l
      | Gt => y :: insert_unique x l'
      end
  end.

Definition sorted_unique (l : list Z) : list Z := fold_right insert_unique [] l.

(** [Series.unique()]: first occurrences, in order of appearance. *)
Fixpoint unique (l : list Z) : list Z :=
  match l with
  | [] => []
  | x :: l' => x :: List.filter (fun y => negb (y =? x)%Z) (unique l')
  end.

(** ** Evaluation *)

(** A row of [result_eval]; the last two columns, which the source names
    [result_col_name] and [reranked_col_name], exist only once they have
    been assigned. *)
Record EvalRow : Type := mkEvalRow {
  ev_user_id : Z;
  actual : list Z;
  result_col : option (list Z);
  reranked_col : option (list Z)
}.

(** [_get_result]: one row per user of the test table, with the distinct
    items the user interacted with. *)
Definition _get_result (df_result : list Interaction) : list EvalRow :=
  map (fun u =>
         {| ev_user_id := u;
            actual := unique (map item_id
                        (List.filter (fun r => (user_id r =? u)%Z) df_result));
            result_col := None;
            reranked_col := None |})
      (sorted_unique (map user_id df_result)).

(** [result_eval[target_col_name]], as the strategies consume it.  Only
    the column 'user_id' holds user ids; 'actual' holds arrays, which no
    strategy takes as a user id (covered here by TypeError), and any other
    name is not a column at that point. *)
Definition eval_column (result_eval : list EvalRow) (target_col_name : string) : M (list Z) :=
  if String.eqb target_col_name "user_id" then ret (map ev_user_id result_eval)
  else if String.eqb target_col_name "actual" then raise TypeError
  else raise KeyError.

Definition set_result_col (result_eval : list EvalRow) (col : list (list Z)) : list EvalRow :=
  map (fun '(row, v) =>
         {| ev_user_id := ev_user_id row; actual := actual row;
            result_col := Some v; reranked_col := reranked_col row |})
      (combine result_eval col).

Definition set_reranked_col (result_eval : list EvalRow) (col : list (list Z)) : list EvalRow :=
  map (fun '(row, v) =>
         {| ev_user_id := ev_user_id row; actual := actual row;
            result_col := result_col row; reranked_col := Some v |})
      (combine result_eval col).

(** [row[name]] for one of the two late columns. *)
Definition row_getitem (col : EvalRow -> option (list Z)) (row : EvalRow) : M (list Z) :=
  match col row with
  | Some v => ret v
  | None => raise KeyError
  end.

(** [_get_recommend_eval]; [None] is Python's None of the bare [return]. *)
Definition _get_recommend_eval (result_eval : list EvalRow) (target_col_name : string)
    (recommend_model_type : string) (N_PREDICT : nat) : M (option (list EvalRow)) :=
  if String.eqb recommend_model_type "own" then
    users <- eval_column result_eval target_col_name ;;
    col <- mapM (fun x => get_own_recommendations x N_PREDICT) users ;;
    ret (Some (set_result_col result_eval col))
  else if String.eqb recommend_model_type "rec" then
    users <- eval_column result_eval target_col_name ;;
    col <- mapM (fun x => get_recommendations x N_PREDICT) users ;;
    ret (Some (set_result_col result_eval col))
  else if String.eqb recommend_model_type "itm" then
    users <- eval_column result_eval target_col_name ;;
    col <- mapM (fun x => get_similar_items_recommendation x N_PREDICT) users ;;
    ret (Some (set_result_col result_eval col))
  else if String.eqb recommend_model_type "usr" then
    users <- eval_column result_eval target_col_name ;;
    col <- mapM (fun x => get_similar_users_recommendation x N_PREDICT) users ;;
    ret (Some (set_result_col result_eval col))
  else ret None.

(** [Series.mean()]: NaN when there is no row. *)
Definition mean (l : list Q) : PyVal :=
  match l with
  | [] => VNaN
  | _ => VFloat (fold_right Qplus 0%Q l / inject_Z (Z.of_nat (length l)))
  end.

(** The comparison [df_predict[target_col_name] == user_id], row by row;
    [None] when the table has no such column. *)
Definition score_col_eq (target_col_name : string) : option (ScoreRow -> Z -> bool) :=
  if String.eqb target_col_name "user_id" then Some (fun row v => (sr_user_id row =? v)%Z)
  else if String.eqb target_col_name "item_id" then Some (fun row v => (sr_item_id row =? v)%Z)
  else if String.eqb target_col_name "proba_item_purchase"
       then Some (fun row v => Qeq_bool (proba_item_purchase row) (inject_Z v))
  else None.

(** Descending order on the score column. *)
Definition proba_geb (r1 r2 : ScoreRow) : bool :=
  Qle_bool (proba_item_purchase r2) (proba_item_purchase r1).

(** [_rerank] (static): the user's rows of [df_predict], best score first,
    [head(5)]. *)
Definition _rerank (user_id : Z) (df_predict : list ScoreRow) (target_col_name : string)
    : result (list Z) :=
  match score_col_eq target_col_name with
  | None => Raise KeyError
  | Some col_eq =>
      let rows := List.filter (fun row => col_eq row user_id) df_predict in
      Ok (map sr_item_id (firstn 5 (sort_by proba_geb rows)))
  end.

Definition lift_result {A : Type} (r : result A) : M A :=
  match r with
  | Ok a => ret a
  | Raise e => raise e
  end.

Section Evaluator.
(** [recall_at_k] and [precision_at_k] come from [src.metrics]; the
    evaluator only calls them. *)
Variables recall_at_k precision_at_k : list Z -> list Z -> nat -> Q.

Definition metric_column (metric : list Z -> list Z -> nat -> Q)
    (col : EvalRow -> option (list Z)) (result_eval : list EvalRow) (k : nat) : M PyVal :=
  scores <- mapM (fun row => recommended <- row_getitem col row ;;
                             ret (metric recommended (actual row) k)) result_eval ;;
  ret (mean scores).

(** [evalMetrics]: [result_eval.apply] on None is an AttributeError; an
    unmatched [metric_type] falls off the end of the method. *)
Definition evalMetrics (metric_type : string) (df_result : list Interaction)
    (target_col_name recommend_model_type : string) (N_PREDICT : nat) : M PyVal :=
  let result_eval := _get_result df_result in
  result_eval <- _get_recommend_eval result_eval target_col_name
                   recommend_model_type N_PREDICT ;;
  if String.eqb metric_type "recall" then
    match result_eval with
    | None => raise AttributeError
    | Some result_eval => metric_column recall_at_k result_col result_eval N_PREDICT
    end
  else if String.eqb metric_type "precision" then
    match result_eval with
    | None => raise AttributeError
    | Some result_eval => metric_column precision_at_k result_col result_eval N_PREDICT
    end
  else ret VNone.

(** [reranked_metrics]: subscripting None is a TypeError.  The second
    component is the table [(user_id, reranked list)], or [None] when
    [return_reranked_data] is false. *)
Definition reranked_metrics (metric_type : string) (df_result : list Interaction)
    (df_predict : list ScoreRow) (target_col_name recommend_model_type : string)
    (N_PREDICT : nat) (return_reranked_data : bool)
    : M (PyVal * option (list (Z * list Z))) :=
  let result_eval := _get_result df_result in
  result_eval <- _get_recommend_eval result_eval target_col_name
                   recommend_model_type N_PREDICT ;;
  match result_eval with
  | None => raise TypeError
  | Some result_eval =>
      users <- eval_column result_eval target_col_name ;;
      col <- mapM (fun user_id => lift_result (_rerank user_id df_predict target_col_name))
               users ;;
      let result_eval := set_reranked_col result_eval col in
      metric_result <-
        (if String.eqb metric_type "recall" then
           metric_column recall_at_k reranked_col result_eval N_PREDICT
         else if String.eqb metric_type "precision" then
           metric_column precision_at_k reranked_col result_eval N_PREDICT
         else ret VNone) ;;
      if return_reranked_data then
        table <- mapM (fun row => rr <- row_getitem reranked_col row ;;
                                  ret (ev_user_id row, rr)) result_eval ;;
        ret (metric_result, Some table)
      else ret (metric_result, None)
  end.
End Evaluator.

(** ** Construction *)

Inductive AggFunc : Type := agg_count | agg_mean.

Definition Qsum (l : list Q) : Q := fold_right Qplus 0%Q l.

Definition aggregate (aggfunc : AggFunc) (group : list Q) : Q :=
  match aggfunc with
  | agg_count => inject_Z (Z.of_nat (length group))
  | agg_mean => (Qsum group / inject_Z (Z.of_nat (length group)))%Q
  end.

(** The records of one (user, item) pair. *)
Definition pair_rows (data : list Interaction) (u i : Z) : list Interaction :=
  List.filter (fun r => (user_id r =? u)%Z && (item_id r =? i)%Z) data.

(** [pd.pivot_table(data, index='user_id', columns='item_id', values=..,
    aggfunc=.., fill_value=..)]: labels are the sorted distinct ids, a
    cell aggregates the records of its pair, a pair without records gets
    [fill_value]. *)
Definition pivot_table (data : list Interaction) (values_col : Interaction -> Q)
    (aggfunc : AggFunc) (fill_value : Q) : DataFrame :=
  let userids := sorted_unique (map user_id data) in
  let itemids := sorted_unique (map item_id data) in
  {| index := userids;
     columns := itemids;
     values :=
       map (fun u =>
              map (fun i =>
                     match map values_col (pair_rows data u i) with
                     | [] => fill_value
                     | group => aggregate aggfunc group
                     end) itemids) userids |}.

(** [_prepare_matrix] (static).  pandas aggregates with
    [aggfunc='mean'] when none is given; an unknown mode leaves
    [user_item_matrix = None], and [None.astype] raises. *)
Definition _prepare_matrix (data : list Interaction) (user_item_matrix_values : string)
    : result DataFrame :=
  if String.eqb user_item_matrix_values "binary" then
    Ok (pivot_table data quantity agg_count 0%Q)
  else if String.eqb user_item_matrix_values "quantity" then
    Ok (pivot_table data quantity agg_mean 0%Q)
  else if String.eqb user_item_matrix_values "purchase_sum" then
    Ok (pivot_table data sales_value agg_mean 0%Q)
  else Raise AttributeError.

(** [df.loc[u, i]] on a labelled matrix. *)
Fixpoint lookup_label {A : Type} (labels : list Z) (xs : list A) (k : Z) : option A :=
  match labels, xs with
  | l :: labels', x :: xs' => if (l =? k)%Z then Some x else lookup_label labels' xs' k
  | _, _ => None
  end.

Definition loc (df : DataFrame) (u i : Z) : option Q :=
  match lookup_label (index df) (values df) u with
  | Some row => lookup_label (columns df) row i
  | None => None
  end.

(** [dict(zip(keys, vals))]: a later pair overrides an earlier one. *)
Definition py_dict (items : list (Z * Z)) : gmap Z Z :=
  fold_left (fun d kv => <[kv.1 := kv.2]> d) items ∅.

(** [np.arange(n)]. *)
Definition arange (n : nat) : list Z := map Z.of_nat (seq 0 n).

(** [_prepare_dicts] (static). *)
Definition _prepare_dicts (user_item_matrix : DataFrame)
    : gmap Z Z * gmap Z Z * gmap Z Z * gmap Z Z :=
  let userids := index user_item_matrix in
  let itemids := columns user_item_matrix in
  let matrix_userids := arange (length userids) in
  let matrix_itemids := arange (length itemids) in
  let id_to_itemid := py_dict (combine matrix_itemids itemids) in
  let id_to_userid := py_dict (combine matrix_userids userids) in
  let itemid_to_id := py_dict (combine itemids matrix_itemids) in
  let userid_to_id := py_dict (combine userids matrix_userids) in
  (id_to_itemid, id_to_userid, itemid_to_id, userid_to_id).

(** [data.groupby(['user_id', 'item_id'])['quantity'].count().reset_index()],
    keys in lexicographic order. *)
Definition count_by_user_item (data : list Interaction) : list PurchaseRow :=
  flat_map (fun u =>
              let rows := List.filter (fun r => (user_id r =? u)%Z) data in
              map (fun i => mkPurchaseRow u i
                              (Z.of_nat (length (List.filter (fun r => (item_id r =? i)%Z) rows))))
                  (sorted_unique (map item_id rows)))
           (sorted_unique (map user_id data)).

(** [data.groupby('item_id')['quantity'].count().reset_index()]. *)
Definition count_by_item (data : list Interaction) : list (Z * Z) :=
  map (fun i => (i, Z.of_nat (length (List.filter (fun r => (item_id r =? i)%Z) data))))
      (sorted_unique (map item_id data)).

Definition Params : Type := list (string * Q).

Section Construction.
(** The library's trainers: the constructor call with the keywords of
    [params], followed by [.fit] on the transposed sparse matrix.  Either step can raise (the
    constructor, for one, a TypeError on a keyword it does not know), so a
    trainer returns a model or raises.  The weightings are [w(X.T).T]. *)
Variables AlternatingLeastSquares BayesianPersonalizedRanking :
  Params -> DataFrame -> result Model.
Variables ItemItemRecommender CosineRecommender TFIDFRecommender :
  Params -> DataFrame -> result Model.
Variables bm25_weight tfidf_weight : DataFrame -> DataFrame.

(** [fit_own_recommender] (static): [None.fit] raises for an unknown type. *)
Definition fit_own_recommender (user_item_matrix : DataFrame) (own_recommender_type : string)
    (params : option Params) : result Model :=
  let params := default [("K", 1%Q); ("num_threads", 4%Q)] params in
  if String.eqb own_recommender_type "item-item" then
    ItemItemRecommender params user_item_matrix
  else if String.eqb own_recommender_type "cosine" then
    CosineRecommender params user_item_matrix
  else if String.eqb own_recommender_type "tfidf" then
    TFIDFRecommender params user_item_matrix
  else Raise AttributeError.

(** [fit] (static): None for an unknown model type, without any trainer
    being called. *)
Definition fit (user_item_matrix : DataFrame) (model_type : string) (params : option Params)
    : result (option Model) :=
  let params := default [("factors", 20%Q); ("regularization", (1 # 1000)%Q);
                         ("iterations", 15%Q); ("num_threads", 4%Q);
                         ("random_state", 0%Q)] params in
  if String.eqb model_type "als" then
    match AlternatingLeastSquares params user_item_matrix with
    | Ok model => Ok (Some model)
    | Raise e => Raise e
    end
  else if String.eqb model_type "bpr" then
    match BayesianPersonalizedRanking params user_item_matrix with
    | Ok model => Ok (Some model)
    | Raise e => Raise e
    end
  else Ok None.

(** [__init__]. *)
Definition __init__ (data : list Interaction) (weighting model_type own_recommender_type : string)
    (recommender_params own_recommender_params : option Params)
    (user_item_matrix_values : string) : result MainRecommender :=
  let top_purchases := count_by_user_item data in
  let top_purchases :=
    sort_by (fun r1 r2 => (tp_quantity r2 <=? tp_quantity r1)%Z) top_purchases in
  let top_purchases :=
    List.filter (fun r => negb (tp_item_id r =? 999999)%Z) top_purchases in
  let overall_top_purchases := count_by_item data in
  let overall_top_purchases :=
    sort_by (fun r1 r2 => (r2.2 <=? r1.2)%Z) overall_top_purchases in
  let overall_top_purchases :=
    List.filter (fun r => negb (r.1 =? 999999)%Z) overall_top_purchases in
  let overall_top_purchases := map fst overall_top_purchases in
  match _prepare_matrix data user_item_matrix_values with
  | Raise e => Raise e
  | Ok user_item_matrix =>
      let '(id_to_itemid, id_to_userid, itemid_to_id, userid_to_id) :=
        _prepare_dicts user_item_matrix in
      let user_item_matrix :=
        if String.eqb weighting "bm25" then bm25_weight user_item_matrix
        else if String.eqb weighting "tfidf" then tfidf_weight user_item_matrix
        else user_item_matrix in
      match fit user_item_matrix model_type recommender_params with
      | Raise e => Raise e
      | Ok model =>
          match fit_own_recommender user_item_matrix own_recommender_type
                  own_recommender_params with
          | Raise e => Raise e
          | Ok own_recommender =>
              Ok {| top_purchases := top_purchases;
                    overall_top_purchases := overall_top_purchases;
                    user_item_matrix := user_item_matrix;
                    id_to_itemid := id_to_itemid;
                    id_to_userid := id_to_userid;
                    itemid_to_id := itemid_to_id;
                    userid_to_id := userid_to_id;
                    model := model;
                    own_recommender := own_recommender |}
          end
      end
  end.
End Construction.

(** ** The legacy variant, [src/recommenders.py]

    Its strategies are line for line those above; its evaluator differs. *)
Module Legacy.
Section Evaluator.
Variables recall_at_k precision_at_k : list Z -> list Z -> nat -> Q.

Definition not_empty_message : string := "recommend_model_type must not be empty!".

(** [_get_result_matcher] is [_get_result] under another name. *)
Definition _get_result_matcher := _get_result.

(** The unknown-strategy branch returns the message at once; the other
  branches fall through to the metric dispatch [metrics]. *)
Definition evalMetrics (metric_type : string) (df_result : list Interaction)
  (target_col_name recommend_model_type : string) (N_PREDICT : nat) : M PyVal :=
let result_eval_matcher := _get_result_matcher df_result in
let metrics (result_eval_matcher : list EvalRow) : M PyVal :=
  if String.eqb metric_type "recall" then
    metric_column recall_at_k result_col result_eval_matcher N_PREDICT
  else if String.eqb metric_type "precision" then
    metric_column precision_at_k result_col result_eval_matcher N_PREDICT
  else ret (VStr not_empty_message) in
if String.eqb recommend_model_type "own" then
  users <- eval_column result_eval_matcher target_col_name ;;
  col <- mapM (fun x => get_own_recommendations x N_PREDICT) users ;;
  metrics (set_result_col result_eval_matcher col)
else if String.eqb recommend_model_type "rec" then
  users <- eval_column result_eval_matcher target_col_name ;;
  col <- mapM (fun x => get_recommendations x N_PREDICT) users ;;
  metrics (set_result_col result_eval_matcher col)
else if String.eqb recommend_model_type "itm" then
  users <- eval_column result_eval_matcher target_col_name ;;
  col <- mapM (fun x => get_similar_items_recommendation x N_PREDICT) users ;;
  metrics (set_result_col result_eval_matcher col)
else if String.eqb recommend_model_type "usr" then
  users <- eval_column result_eval_matcher target_col_name ;;
  col <- mapM (fun x => get_similar_users_recommendation x N_PREDICT) users ;;
  metrics (set_result_col result_eval_matcher col)
else ret (VStr not_empty_message).
End Evaluator.
End Legacy.

(** * Specification vocabulary *)

(** [m] is the largest index the user map assigns. *)
Definition is_max_index (d : gmap Z Z) (m : Z) : Prop :=
  (exists k, d !! k = Some m) /\ (forall k v, d !! k = Some v -> (v <= m)%Z).

(** [self] after registering [user_id] at index [i]. *)
Definition registered (self : MainRecommender) (user_id i : Z) : MainRecommender :=
  {| top_purchases := top_purchases self;
     overall_top_purchases := overall_top_purchases self;
     user_item_matrix := user_item_matrix self;
     id_to_itemid := id_to_itemid self;
     id_to_userid := <[i := user_id]> (id_to_userid self);
     itemid_to_id := itemid_to_id self;
     userid_to_id := <[user_id := i]> (userid_to_id self);
     model := model self;
     own_recommender := own_recommender self |}.

(** Everything of the object except the two user maps. *)
Definition same_frame (s s' : MainRecommender) : Prop :=
  user_item_matrix s' = user_item_matrix s /\
  id_to_itemid s' = id_to_itemid s /\
  itemid_to_id s' = itemid_to_id s /\
  top_purchases s' = top_purchases s /\
  overall_top_purchases s' = overall_top_purchases s /\
  model s' = model s /\
  own_recommender s' = own_recommender s.

(** A method keeps the frame, whether it returns or raises. *)
Definition keeps_frame {A : Type} (m : M A) : Prop :=
  forall s, same_frame s (m s).1.

(** The strategies by their evaluator tags. *)
Inductive Strategy : Type := Rec | Own | Itm | Usr.

Definition run_strategy (st : Strategy) : Z -> nat -> M (list Z) :=
  match st with
  | Rec => get_recommendations
  | Own => get_own_recommendations
  | Itm => get_similar_items_recommendation
  | Usr => get_similar_users_recommendation
  end.

(** The raw output of a strategy: its body up to the fallback. *)
Definition raw_recommendations (user : Z) (model : option Model) (N : nat) : M (list Z) :=
  _update_dict user ;;
  self <- get_self ;;
  mdl <- getattr_model model ;;
  userid <- getitem (userid_to_id self) user ;;
  placeholder <- getitem (itemid_to_id self) 999999%Z ;;
  mapM (fun rec => getitem (id_to_itemid self) (fst rec))
       (recommend mdl userid (user_item_matrix self) N [placeholder]).

Definition raw_output (st : Strategy) (user_id : Z) (N : nat) : M (list Z) :=
  match st with
  | Rec =>
      _update_dict user_id ;;
      self <- get_self ;;
      raw_recommendations user_id (model self) N
  | Own =>
      _update_dict user_id ;;
      self <- get_self ;;
      raw_recommendations user_id (Some (own_recommender self)) N
  | Itm =>
      self <- get_self ;;
      mapM (fun row => _get_similar_item (tp_item_id row))
           (firstn N (List.filter (fun row => (tp_user_id row =? user_id)%Z)
                                  (top_purchases self)))
  | Usr =>
      self <- get_self ;;
      mdl <- getattr_model (model self) ;;
      userid <- getitem (userid_to_id self) user_id ;;
      similar_users <- mapM (fun rec => getitem (id_to_userid self) (fst rec))
                         (similar_users mdl userid (N + 1)) ;;
      extend_own_recommendations [] (tail similar_users)
  end.

(** The list a raw output becomes under the fallback. *)
Definition with_fallback (self : MainRecommender) (raw : list Z) (N : nat) : list Z :=
  if length raw <? N
  then raw ++ firstn (N - length raw) (overall_top_purchases self)
  else raw.



(** The item maps invert each other on what [id_to_itemid] holds. *)
Definition item_maps_consistent (self : MainRecommender) : Prop :=
  forall i x, id_to_itemid self !! i = Some x -> itemid_to_id self !! x = Some i.

(** Descending order of scores. *)
Definition proba_ge (r1 r2 : ScoreRow) : Prop :=
  (proba_item_purchase r2 <= proba_item_purchase r1)%Q.

(** The value of a matrix cell under the default aggregation: the mean of
    the pair's values, 0 for a pair without records. *)
Definition mean_or_zero (group : list Q) : Q :=
  match group with
  | [] => 0%Q
  | _ => (Qsum group / inject_Z (Z.of_nat (length group)))%Q
  end.

(** A method that never mutates [self]. *)
Definition read_only {A : Type} (m : M A) : Prop := forall s, (m s).1 = s.

(** Adapter contract of [recommend]: no returned row carries an index
    listed in [filter_items]. *)
Definition honours_filter (mdl : Model) : Prop :=
  forall userid user_items N filter_items row,
    In row (recommend mdl userid user_items N filter_items) -> ~ In row.1 filter_items.

(** What the model-based strategies rely on to keep the placeholder out. *)
Definition placeholder_safe (self : MainRecommender) : Prop :=
  item_maps_consistent self /\
  ~ In 999999%Z (overall_top_purchases self) /\
  (forall mdl, model self = Some mdl -> honours_filter mdl) /\
  honours_filter (own_recommender self).

(** The tags the evaluator dispatches on. *)
Definition known_strategy (tag : string) : Prop :=
  tag = "own" \/ tag = "rec" \/ tag = "itm" \/ tag = "usr".

Definition known_metric (tag : string) : Prop :=
  tag = "recall" \/ tag = "precision".

(** * A small instance *)

Module Example.
Definition data : list Interaction :=
  [ mkInteraction 1 10 2 5; mkInteraction 1 10 4 7; mkInteraction 1 30 1 3;
    mkInteraction 2 20 1 2; mkInteraction 2 999999 1 1; mkInteraction 1 999999 3 1;
    mkInteraction 2 10 1 4 ].

(** A toy model over [n_items] item indices and [n_users] user indices:
    [recommend] ranks the indices in order and honours [filter_items];
    a similarity query answers the query index, then its successor. *)
Definition toy_model (n_items n_users : Z) (width : nat) : Model :=
  {| recommend := fun _ _ N filter_items =>
       firstn (Nat.min N width)
         (List.filter (fun r => negb (existsb (Z.eqb r.1) filter_items))
            (map (fun i => (i, 1 # 2)%Q) (arange (Z.to_nat n_items))));
     similar_items := fun idx N =>
       firstn N [(idx, 1%Q); (((idx + 1) mod n_items)%Z, (1 # 2)%Q)];
     similar_users := fun idx N =>
       firstn N [(idx, 1%Q); (((idx + 1) mod n_users)%Z, (1 # 2)%Q)] |}.

Definition trainer (width : nat) (_ : Params) (m : DataFrame) : result Model :=
  Ok (toy_model (Z.of_nat (length (columns m))) (Z.of_nat (length (index m))) width).

Definition build (user_item_matrix_values : string) : result MainRecommender :=
  __init__ (trainer 5) (trainer 5) (trainer 1) (trainer 1) (trainer 1)
           (fun m => m) (fun m => m)
           data "none" "als" "item-item" None None user_item_matrix_values.

Definition self0 : MainRecommender :=
  match build "binary" with
  | Ok self => self
  | Raise _ =>
      mkMainRecommender [] [] (mkDataFrame [] [] []) ∅ ∅ ∅ ∅ None (toy_model 0 0 0)
  end.

(** The same interactions without the placeholder rows, and the object
    built from them. *)
Definition data_plain : list Interaction :=
List.filter (fun r => negb (item_id r =? 999999)%Z) data.

Definition self_plain : MainRecommender :=
match __init__ (trainer 5) (trainer 5) (trainer 1) (trainer 1) (trainer 1)
               (fun m => m) (fun m => m)
               data_plain "none" "als" "item-item" None None "binary" with
| Ok self => self
| Raise _ =>
    mkMainRecommender [] [] (mkDataFrame [] [] []) ∅ ∅ ∅ ∅ None (toy_model 0 0 0)
end.

(** An object whose user maps are empty. *)
Definition self_empty : MainRecommender :=
  mkMainRecommender [] [] (mkDataFrame [] [] []) ∅ ∅ ∅ ∅ None (toy_model 0 0 0).

(** An object whose popularity ranking is [1,2,3,4,5]. *)
Definition self_top5 : MainRecommender :=
mkMainRecommender [] [1; 2; 3; 4; 5]%Z (mkDataFrame [] [] []) ∅ ∅ ∅ ∅ None (toy_model 0 0 0).

Definition df_predict : list ScoreRow :=
  [ mkScoreRow 1 10 (1 # 4); mkScoreRow 1 30 (3 # 4); mkScoreRow 2 20 (1 # 2) ].

Definition recall0 (_ _ : list Z) (_ : nat) : Q := 0%Q.

(** [result_eval] after the 'own' strategy has run for the users of
    [data] with N = 3. *)
Definition rows_own : list EvalRow :=
  set_result_col (_get_result data) [[10; 10; 20]; [10; 10; 20]]%Z.
End Example.

(** * Further methods *)

(** The table [get_item_factors] / [get_user_factors] returns: the id
    column first, then one column per latent factor. *)
Record FactorFrame : Type := mkFactorFrame {
  ff_columns : list string;
  ff_rows : list (Z * list Q)
}.

(** [[f'{prefix}{i}' for i in range(n)]]. *)
Definition factor_columns (prefix : string) (n : nat) : list string :=
  map (fun i => prefix +:+ pretty i) (seq 0 n).

Section Factors.
(** The arrays [model.item_factors] and [model.user_factors], row by row.
    An array without rows (whose column count a list of rows cannot
    carry, and for which pandas builds no id column) is outside the
    model. *)
Variables item_factors user_factors : Model -> list (list Q).

(** [get_item_factors]: [pd.concat(.., axis=1)] joins the two frames on
    their common index [0 .. n-1]. *)
Definition get_item_factors : M FactorFrame :=
  self <- get_self ;;
  mdl <- getattr_model (model self) ;;
  let item_factors := item_factors mdl in
  let columns := factor_columns "item_factor_" (length (hd [] item_factors)) in
  item_ids <- mapM (fun itm_id => getitem (id_to_itemid self) itm_id)
                (arange (length item_factors)) ;;
  ret {| ff_columns := "item_id" :: columns;
         ff_rows := combine item_ids item_factors |}.

(** [get_user_factors]. *)
Definition get_user_factors : M FactorFrame :=
  self <- get_self ;;
  mdl <- getattr_model (model self) ;;
  let user_factors := user_factors mdl in
  let columns := factor_columns "user_factor_" (length (hd [] user_factors)) in
  user_ids <- mapM (fun usr_id => getitem (id_to_userid self) usr_id)
                (arange (length user_factors)) ;;
  ret {| ff_columns := "user_id" :: columns;
         ff_rows := combine user_ids user_factors |}.
End Factors.

(** * Further vocabulary *)

(** Number of records of an item, of a (user, item) pair. *)
Definition item_count (data : list Interaction) (i : Z) : Z :=
  Z.of_nat (length (List.filter (fun r => (item_id r =? i)%Z) data)).

Definition pair_count (data : list Interaction) (u i : Z) : Z :=
  Z.of_nat (length (pair_rows data u i)).

(** The two user maps invert each other. *)
Definition user_maps_inverse (self : MainRecommender) : Prop :=
  forall u i, userid_to_id self !! u = Some i <-> id_to_userid self !! i = Some u.

(** The ids a strategy can draw from: the values of [id_to_itemid] and the
    popularity ranking. *)
Definition known_item (self : MainRecommender) (x : Z) : Prop :=
  (exists i, id_to_itemid self !! i = Some x) \/ In x (overall_top_purchases self).

(** What a call may do to the user maps: [userid_to_id] is only
    extended, and maps that invert each other stay so, [id_to_userid]
    being only extended too. *)
Definition user_step (s s' : MainRecommender) : Prop :=
  userid_to_id s ⊆ userid_to_id s' /\
  (user_maps_inverse s -> user_maps_inverse s' /\ id_to_userid s ⊆ id_to_userid s').

(** A method relates the object before and after it by [R], whether it
    returns or raises. *)
Definition respects (R : MainRecommender -> MainRecommender -> Prop) {A : Type} (m : M A)
    : Prop :=
  forall s, R s (m s).1.

(** The items the loop of the similar-users strategy collects: one per
    neighbour, in order, each the single entry of
    [get_own_recommendations(neighbour, N=1)] called on the object the
    previous call left; [s'] is the object after the last call. *)
Fixpoint neighbour_items (neighbours : list Z) (s : MainRecommender) (items : list Z)
    (s' : MainRecommender) : Prop :=
  match neighbours, items with
  | [], [] => s' = s
  | u :: neighbours', x :: items' =>
      exists s1, get_own_recommendations u 1 s = (s1, Ok [x]) /\
                 neighbour_items neighbours' s1 items' s'
  | _, _ => False
  end.

(** The strategy an evaluator tag selects. *)
Definition strategy_of_tag (tag : string) : option Strategy :=
  if String.eqb tag "own" then Some Own
  else if String.eqb tag "rec" then Some Rec
  else if String.eqb tag "itm" then Some Itm
  else if String.eqb tag "usr" then Some Usr
  else None.

Module Example2.
(** Factor arrays for the toy model: one row per item, per user. *)
Definition item_factors (_ : Model) : list (list Q) := [[1; 2]; [3; 4]; [5; 6]; [7; 8]]%Q.
Definition user_factors (_ : Model) : list (list Q) := [[1; 0]; [0; 1]]%Q.

(** A trainer whose constructor rejects its keywords. *)
Definition failing_trainer (_ : Params) (_ : DataFrame) : result Model := Raise TypeError.

(** The object of [Example] built with an unknown model type. *)
Definition self_nomodel : MainRecommender :=
match __init__ (Example.trainer 5) (Example.trainer 5) (Example.trainer 1)
               (Example.trainer 1) (Example.trainer 1) (fun m => m) (fun m => m)
               Example.data "none" "lightfm" "item-item" None None "binary" with
| Ok self => self
| Raise _ => Example.self_empty
end.
End Example2.

(** * Properties *)

(** ** Reasoning about method bodies *)

Lemma bind_ok {A B : Type} (m : M A) (f : A -> M B) (s s' : MainRecommender) (a : A) :
  m s = (s', Ok a) -> bind m f s = f a s'.
Proof. intros H. unfold bind. now rewrite H. Qed.

Lemma bind_raise {A B : Type} (m : M A) (f : A -> M B) (s s' : MainRecommender) (e : PyError) :
  m s = (s', Raise e) -> bind m f s = (s', Raise e).
Proof. intros H. unfold bind. now rewrite H. Qed.

Lemma bind_inv_ok {A B : Type} (m : M A) (f : A -> M B) (s s' : MainRecommender) (b : B) :
  bind m f s = (s', Ok b) ->
  exists s1 a, m s = (s1, Ok a) /\ f a s1 = (s', Ok b).
Proof.
  unfold bind. destruct (m s) as [s1 [a | e]]; intros H.
  - exists s1, a. split; [reflexivity | exact H].
  - discriminate H.
Qed.

(** ** The fallback law *)

Lemma extend_with_top_popular_eq (self : MainRecommender) (raw : list Z) (N : nat) :
  _extend_with_top_popular raw N self =
  (self, Ok (if length raw <? N
             then raw ++ firstn (N - length raw) (overall_top_purchases self)
             else raw)).
Proof.
  unfold _extend_with_top_popular, bind, get_self, ret.
  destruct (length raw <? N) eqn:E; [| reflexivity].
  apply Nat.ltb_lt in E.
  rewrite firstn_app, firstn_all2 by lia.
  rewrite firstn_firstn. replace (Init.Nat.min (N - length raw) N) with (N - length raw) by lia.
  reflexivity.
Qed.

(** C2. Fallback law: a raw output of length L < N comes back with its L
    entries first, in order, followed by the first N - L entries of
    [overall_top_purchases] (concatenate, then truncate; no deduplication);
    a raw output of length >= N comes back unchanged; with the ranking
    [1,2,3,4,5], raw output [7,8] and N = 5 the result is [7,8,1,2,3]. *)
Theorem fallback_law (self : MainRecommender) (raw : list Z) (N : nat) :
  (length raw < N ->
   exists res, _extend_with_top_popular raw N self = (self, Ok res) /\
               firstn (length raw) res = raw /\
               skipn (length raw) res
               = firstn (N - length raw) (overall_top_purchases self)) /\
  (N <= length raw -> _extend_with_top_popular raw N self = (self, Ok raw)) /\
  (overall_top_purchases self = [1; 2; 3; 4; 5]%Z ->
   _extend_with_top_popular [7; 8]%Z 5 self = (self, Ok [7; 8; 1; 2; 3]%Z)).
Proof.
  repeat split.
  - intros HL. eexists. split; [apply extend_with_top_popular_eq |].
    apply Nat.ltb_lt in HL. rewrite HL. split.
    + rewrite firstn_app, Nat.sub_diag, firstn_all. cbn. apply app_nil_r.
    + rewrite skipn_app, Nat.sub_diag, skipn_all. reflexivity.
  - intros HL. rewrite extend_with_top_popular_eq.
    apply Nat.ltb_ge in HL. now rewrite HL.
  - intros Htop. rewrite extend_with_top_popular_eq, Htop. reflexivity.
Qed.

Lemma fallback_law_witness :
  (exists res, _extend_with_top_popular [30]%Z 3 Example.self0 = (Example.self0, Ok res) /\
               firstn 1 res = [30]%Z /\
               skipn 1 res = firstn 2 (overall_top_purchases Example.self0)) /\
  _extend_with_top_popular [7; 8; 9]%Z 3 Example.self0 = (Example.self0, Ok [7; 8; 9]%Z) /\
  _extend_with_top_popular [7; 8]%Z 5 Example.self_top5
  = (Example.self_top5, Ok [7; 8; 1; 2; 3]%Z).
Proof.
  split; [| split].
  - apply (proj1 (fallback_law Example.self0 [30]%Z 3)). cbn. lia.
  - apply (proj1 (proj2 (fallback_law Example.self0 [7; 8; 9]%Z 3))). cbn. lia.
  - apply (proj2 (proj2 (fallback_law Example.self_top5 [] 0))). reflexivity.
Defined.

(** ** Registration of users *)

Lemma fold_left_max_spec (l : list Z) (x : Z) :
  (fold_left Z.max l x = x \/ In (fold_left Z.max l x) l) /\
  (x <= fold_left Z.max l x)%Z /\
  (forall v, In v l -> (v <= fold_left Z.max l x)%Z).
Proof.
  revert x. induction l as [| y l IH]; intros x; cbn.
  - repeat split; [now left | lia | intros v []].
  - destruct (IH (Z.max x y)) as (Hin & Hle & Hall). repeat split.
    + destruct Hin as [Heq | Hin]; [| now right; right].
      rewrite Heq. destruct (Z.max_spec x y) as [[_ ->] | [_ ->]]; auto.
    + lia.
    + intros v [<- | Hv]; [lia | now apply Hall].
Qed.

Lemma dict_values_elem (d : gmap Z Z) (v : Z) :
  In v (dict_values d) <-> exists k, d !! k = Some v.
Proof.
  unfold dict_values. rewrite <- list_elem_of_In, list_elem_of_fmap. split.
  - intros [[k v'] [-> Hkv]]. exists k. now apply elem_of_map_to_list.
  - intros [k Hk]. exists (k, v). split; [reflexivity | now apply elem_of_map_to_list].
Qed.

Lemma py_max_dict_values (d : gmap Z Z) (s : MainRecommender) :
  d <> ∅ ->
  exists m, is_max_index d m /\ py_max (dict_values d) s = (s, Ok m).
Proof.
  intros Hne. destruct (dict_values d) as [| x l] eqn:E.
  - exfalso. apply Hne. apply map_to_list_empty_iff.
    unfold dict_values in E. now apply fmap_nil_inv in E.
  - exists (fold_left Z.max l x). split; [| reflexivity].
    destruct (fold_left_max_spec l x) as (Hin & Hle & Hall). split.
    + apply dict_values_elem. rewrite E. cbn.
      destruct Hin as [H | H]; [left; symmetry; exact H | right; exact H].
    + intros k v Hk. assert (Hv : In v (x :: l)).
      { rewrite <- E. apply dict_values_elem. eauto. }
      destruct Hv as [<- | Hv]; [exact Hle | now apply Hall].
Qed.

Lemma update_dict_known (self : MainRecommender) (u : Z) :
  is_Some (userid_to_id self !! u) -> _update_dict u self = (self, Ok tt).
Proof.
  intros H. unfold _update_dict, bind, get_self.
  destruct (decide (is_Some (userid_to_id self !! u))); [reflexivity | contradiction].
Qed.

Lemma update_dict_new (self : MainRecommender) (u : Z) :
  userid_to_id self !! u = None -> userid_to_id self <> ∅ ->
  exists m, is_max_index (userid_to_id self) m /\
            _update_dict u self = (registered self u (m + 1), Ok tt).
Proof.
  intros Hu Hne.
  destruct (py_max_dict_values (userid_to_id self) self Hne) as (m & Hm & Hmax).
  exists m. split; [exact Hm |].
  unfold _update_dict, bind, get_self.
  destruct (decide (is_Some (userid_to_id self !! u))) as [[v Hv] | _]; [congruence |].
  rewrite Hmax. reflexivity.
Qed.

Lemma update_dict_empty (self : MainRecommender) (u : Z) :
  userid_to_id self = ∅ -> _update_dict u self = (self, Raise ValueError).
Proof.
  intros He. unfold _update_dict, bind, get_self.
  destruct (decide (is_Some (userid_to_id self !! u))) as [[v Hv] | _].
  - rewrite He, lookup_empty in Hv. discriminate.
  - unfold dict_values. rewrite He, map_to_list_empty. reflexivity.
Qed.

Lemma update_dict_cases (self : MainRecommender) (u : Z) :
  _update_dict u self = (self, Ok tt) \/
  _update_dict u self = (self, Raise ValueError) \/
  exists i, userid_to_id self !! u = None /\
            _update_dict u self = (registered self u i, Ok tt).
Proof.
  destruct (userid_to_id self !! u) as [v |] eqn:Hu.
  - left. apply update_dict_known. rewrite Hu. eauto.
  - destruct (decide (userid_to_id self = ∅)) as [He | Hne].
    + right; left. now apply update_dict_empty.
    + right; right. destruct (update_dict_new self u Hu Hne) as (m & _ & Hm). eauto.
Qed.

(** C6 (amended). [_update_dict] on a known id changes nothing; on an
    unknown id, when the user map is not empty, it assigns the largest
    existing index plus one and inserts the pair into both maps; when the
    user map is empty it raises ValueError and registers nothing.  In every
    case a second call with the same id changes nothing more. *)
Theorem update_dict_registers (self : MainRecommender) (u : Z) :
  (is_Some (userid_to_id self !! u) -> _update_dict u self = (self, Ok tt)) /\
  (userid_to_id self !! u = None -> userid_to_id self <> ∅ ->
   exists m, is_max_index (userid_to_id self) m /\
             _update_dict u self = (registered self u (m + 1), Ok tt)) /\
  (userid_to_id self = ∅ -> _update_dict u self = (self, Raise ValueError)) /\
  (_update_dict u ;; _update_dict u) self = _update_dict u self.
Proof.
  split; [apply update_dict_known |].
  split; [apply update_dict_new |].
  split; [apply update_dict_empty |].
  destruct (update_dict_cases self u) as [H | [H | (i & Hu & H)]].
  - rewrite (bind_ok _ _ _ _ _ H). reflexivity.
  - rewrite (bind_raise _ _ _ _ _ H). now rewrite H.
  - rewrite (bind_ok _ _ _ _ _ H), H. apply update_dict_known.
    cbn. rewrite lookup_insert_eq. eauto.
Qed.

Lemma update_dict_registers_witness :
  _update_dict 1 Example.self0 = (Example.self0, Ok tt) /\
  (exists m, is_max_index (userid_to_id Example.self0) m /\
             _update_dict 42 Example.self0 = (registered Example.self0 42 (m + 1), Ok tt)) /\
  _update_dict 7 Example.self_empty = (Example.self_empty, Raise ValueError).
Proof.
  split; [| split].
  - apply (proj1 (update_dict_registers Example.self0 1)). vm_compute. eauto.
  - apply (proj1 (proj2 (update_dict_registers Example.self0 42))).
    + vm_compute. reflexivity.
    + intros H. apply (f_equal (fun d => d !! 1%Z)) in H. vm_compute in H. discriminate H.
  - apply (proj1 (proj2 (proj2 (update_dict_registers Example.self_empty 7)))).
    reflexivity.
Defined.

(** With no index assigned yet, registration does not hand out index 0:
    [max] of the empty list of values raises. *)
Lemma update_dict_empty_counterexample :
  userid_to_id Example.self_empty = ∅ /\
  _update_dict 7 Example.self_empty = (Example.self_empty, Raise ValueError) /\
  userid_to_id (_update_dict 7 Example.self_empty).1 !! 7%Z <> Some 0%Z.
Proof.
  split; [reflexivity |]. split; [reflexivity |].
  vm_compute. discriminate.
Qed.

(** ** What a call may change *)

Lemma same_frame_refl (s : MainRecommender) : same_frame s s.
Proof. repeat split. Qed.

Lemma same_frame_trans (s1 s2 s3 : MainRecommender) :
  same_frame s1 s2 -> same_frame s2 s3 -> same_frame s1 s3.
Proof.
  unfold same_frame. intros (a1 & a2 & a3 & a4 & a5 & a6 & a7) (b1 & b2 & b3 & b4 & b5 & b6 & b7).
  repeat split; congruence.
Qed.

Lemma same_frame_registered (s : MainRecommender) (u i : Z) : same_frame s (registered s u i).
Proof. repeat split. Qed.

Lemma keeps_frame_ret {A : Type} (a : A) : keeps_frame (ret a).
Proof. intros s. apply same_frame_refl. Qed.

Lemma keeps_frame_raise {A : Type} (e : PyError) : keeps_frame (@raise A e).
Proof. intros s. apply same_frame_refl. Qed.

Lemma keeps_frame_get_self : keeps_frame get_self.
Proof. intros s. apply same_frame_refl. Qed.

Lemma keeps_frame_bind {A B : Type} (m : M A) (f : A -> M B) :
  keeps_frame m -> (forall a, keeps_frame (f a)) -> keeps_frame (bind m f).
Proof.
  intros Hm Hf s. unfold bind. specialize (Hm s).
  destruct (m s) as [s1 [a | e]]; cbn in *.
  - eapply same_frame_trans; [exact Hm | apply Hf].
  - exact Hm.
Qed.

Lemma keeps_frame_mapM {A B : Type} (f : A -> M B) (l : list A) :
  (forall a, keeps_frame (f a)) -> keeps_frame (mapM f l).
Proof.
  intros Hf. induction l as [| x l IH]; cbn.
  - apply keeps_frame_ret.
  - apply keeps_frame_bind; [apply Hf | intros y].
    apply keeps_frame_bind; [exact IH | intros ys; apply keeps_frame_ret].
Qed.

Lemma keeps_frame_getitem (d : gmap Z Z) (k : Z) : keeps_frame (getitem d k).
Proof. unfold getitem. destruct (d !! k); [apply keeps_frame_ret | apply keeps_frame_raise]. Qed.

Lemma keeps_frame_list_getitem {A : Type} (l : list A) (i : nat) : keeps_frame (list_getitem l i).
Proof.
  unfold list_getitem. destruct (nth_error l i); [apply keeps_frame_ret | apply keeps_frame_raise].
Qed.

Lemma keeps_frame_py_assert (b : bool) : keeps_frame (py_assert b).
Proof. destruct b; [apply keeps_frame_ret | apply keeps_frame_raise]. Qed.

Lemma keeps_frame_getattr_model (m : option Model) : keeps_frame (getattr_model m).
Proof. destruct m; [apply keeps_frame_ret | apply keeps_frame_raise]. Qed.

Lemma keeps_frame_lift_result {A : Type} (r : result A) : keeps_frame (lift_result r).
Proof. destruct r; [apply keeps_frame_ret | apply keeps_frame_raise]. Qed.

Lemma keeps_frame_row_getitem (col : EvalRow -> option (list Z)) (row : EvalRow) :
  keeps_frame (row_getitem col row).
Proof. unfold row_getitem. destruct (col row); [apply keeps_frame_ret | apply keeps_frame_raise]. Qed.

Lemma keeps_frame_update_dict (u : Z) : keeps_frame (_update_dict u).
Proof.
  intros s. destruct (update_dict_cases s u) as [H | [H | (i & _ & H)]]; rewrite H; cbn.
  - apply same_frame_refl.
  - apply same_frame_refl.
  - apply same_frame_registered.
Qed.

Lemma keeps_frame_extend (raw : list Z) (N : nat) : keeps_frame (_extend_with_top_popular raw N).
Proof. intros s. rewrite extend_with_top_popular_eq. apply same_frame_refl. Qed.

Create HintDb frame.
#[local] Hint Resolve keeps_frame_ret keeps_frame_raise keeps_frame_get_self
  keeps_frame_getitem keeps_frame_list_getitem keeps_frame_py_assert
  keeps_frame_getattr_model keeps_frame_lift_result keeps_frame_row_getitem
  keeps_frame_update_dict keeps_frame_extend : frame.

(** Walk down a method body, one statement at a time. *)
Ltac frame_step :=
  match goal with
  | |- keeps_frame (bind _ _) => apply keeps_frame_bind; [| intros ?]
  | |- keeps_frame (mapM _ _) => apply keeps_frame_mapM; intros ?
  | |- keeps_frame (if ?b then _ else _) => destruct b
  | |- keeps_frame (match ?o with Some _ => _ | None => _ end) => destruct o
  | |- keeps_frame _ => solve [auto with frame]
  end.

Lemma keeps_frame_get_recommendations_aux (user : Z) (mdl : option Model) (N : nat) :
  keeps_frame (_get_recommendations user mdl N).
Proof. unfold _get_recommendations. repeat frame_step. Qed.

Lemma keeps_frame_get_own_recommendations (user : Z) (N : nat) :
  keeps_frame (get_own_recommendations user N).
Proof.
  unfold get_own_recommendations. repeat frame_step.
  apply keeps_frame_get_recommendations_aux.
Qed.

Lemma keeps_frame_get_recommendations (user : Z) (N : nat) :
  keeps_frame (get_recommendations user N).
Proof.
  unfold get_recommendations. repeat frame_step.
  apply keeps_frame_get_recommendations_aux.
Qed.

Lemma keeps_frame_get_similar_item (item : Z) : keeps_frame (_get_similar_item item).
Proof. unfold _get_similar_item. repeat frame_step. Qed.

Lemma keeps_frame_get_similar_items_recommendation (user : Z) (N : nat) :
  keeps_frame (get_similar_items_recommendation user N).
Proof.
  unfold get_similar_items_recommendation. repeat frame_step.
  apply keeps_frame_get_similar_item.
Qed.

Lemma keeps_frame_extend_own_recommendations (users res : list Z) :
  keeps_frame (extend_own_recommendations res users).
Proof.
  revert res. induction users as [| u users IH]; intros res; cbn.
  - apply keeps_frame_ret.
  - apply keeps_frame_bind; [apply keeps_frame_get_own_recommendations | intros own; apply IH].
Qed.

Lemma keeps_frame_get_similar_users_recommendation (user : Z) (N : nat) :
  keeps_frame (get_similar_users_recommendation user N).
Proof.
  unfold get_similar_users_recommendation. repeat frame_step.
  apply keeps_frame_extend_own_recommendations.
Qed.

Lemma keeps_frame_run_strategy (st : Strategy) (user : Z) (N : nat) :
  keeps_frame (run_strategy st user N).
Proof.
  destruct st; cbn.
  - apply keeps_frame_get_recommendations.
  - apply keeps_frame_get_own_recommendations.
  - apply keeps_frame_get_similar_items_recommendation.
  - apply keeps_frame_get_similar_users_recommendation.
Qed.

#[local] Hint Resolve keeps_frame_get_recommendations keeps_frame_get_own_recommendations
  keeps_frame_get_similar_items_recommendation
  keeps_frame_get_similar_users_recommendation : frame.

Lemma keeps_frame_eval_column (rows : list EvalRow) (name : string) :
  keeps_frame (eval_column rows name).
Proof. unfold eval_column. repeat frame_step. Qed.

#[local] Hint Resolve keeps_frame_eval_column : frame.

Lemma keeps_frame_get_recommend_eval (rows : list EvalRow) (target tag : string) (N : nat) :
  keeps_frame (_get_recommend_eval rows target tag N).
Proof. unfold _get_recommend_eval. repeat frame_step. Qed.

Lemma keeps_frame_metric_column (metric : list Z -> list Z -> nat -> Q)
    (col : EvalRow -> option (list Z)) (rows : list EvalRow) (k : nat) :
  keeps_frame (metric_column metric col rows k).
Proof. unfold metric_column. repeat frame_step. Qed.

#[local] Hint Resolve keeps_frame_get_recommend_eval keeps_frame_metric_column : frame.

Lemma keeps_frame_evalMetrics (recall precision : list Z -> list Z -> nat -> Q)
    (metric : string) (df : list Interaction) (target tag : string) (N : nat) :
  keeps_frame (evalMetrics recall precision metric df target tag N).
Proof. unfold evalMetrics. repeat frame_step. Qed.

Lemma keeps_frame_reranked_metrics (recall precision : list Z -> list Z -> nat -> Q)
    (metric : string) (df : list Interaction) (scores : list ScoreRow)
    (target tag : string) (N : nat) (b : bool) :
  keeps_frame (reranked_metrics recall precision metric df scores target tag N b).
Proof. unfold reranked_metrics. repeat frame_step. Qed.

(** C9. A strategy or evaluation call, whether it returns or raises, leaves
    the interaction matrix, both item maps, the per-user top-purchases
    table and the popularity ranking as they were (and the two fitted
    models as well): only the two user maps can differ afterwards. *)
Theorem calls_keep_frame :
  (forall st user N self, same_frame self (run_strategy st user N self).1) /\
  (forall recall precision metric df target tag N self,
      same_frame self (evalMetrics recall precision metric df target tag N self).1) /\
  (forall recall precision metric df scores target tag N b self,
      same_frame self
        (reranked_metrics recall precision metric df scores target tag N b self).1).
Proof.
  split; [| split].
  - intros st user N. apply keeps_frame_run_strategy.
  - intros recall precision metric df target tag N. apply keeps_frame_evalMetrics.
  - intros recall precision metric df scores target tag N b. apply keeps_frame_reranked_metrics.
Qed.

(** ** Length of the output *)

(** The tail shared by the strategies: fallback, then the assertion. *)
Lemma fallback_then_assert (raw : list Z) (N : nat) (s : MainRecommender) :
  (res <- _extend_with_top_popular raw N ;; py_assert (length res =? N) ;; ret res) s
  = (s, if length (with_fallback s raw N) =? N
        then Ok (with_fallback s raw N) else Raise AssertionError).
Proof.
  unfold bind at 1. rewrite extend_with_top_popular_eq. fold (with_fallback s raw N).
  unfold bind, py_assert. destruct (length (with_fallback s raw N) =? N); reflexivity.
Qed.

Lemma bind_assoc {A B C : Type} (m : M A) (f : A -> M B) (g : B -> M C) (s : MainRecommender) :
  bind (bind m f) g s = bind m (fun a => bind (f a) g) s.
Proof. unfold bind. destruct (m s) as [s1 [a | e]]; reflexivity. Qed.

Lemma bind_ext {A B : Type} (m : M A) (f g : A -> M B) (s : MainRecommender) :
  (forall a s1, f a s1 = g a s1) -> bind m f s = bind m g s.
Proof. intros H. unfold bind. destruct (m s) as [s1 [a | e]]; [apply H | reflexivity]. Qed.

(** Every strategy is its raw output followed by that tail. *)
Lemma run_strategy_split (st : Strategy) (user : Z) (N : nat) (s : MainRecommender) :
  run_strategy st user N s
  = (raw <- raw_output st user N ;;
     res <- _extend_with_top_popular raw N ;; py_assert (length res =? N) ;; ret res) s.
Proof.
  destruct st; cbn [run_strategy raw_output].
  - unfold get_recommendations, _get_recommendations, raw_recommendations.
    repeat (rewrite bind_assoc; apply bind_ext; intros ? ?). reflexivity.
  - unfold get_own_recommendations, _get_recommendations, raw_recommendations.
    repeat (rewrite bind_assoc; apply bind_ext; intros ? ?). reflexivity.
  - unfold get_similar_items_recommendation.
    repeat (rewrite bind_assoc; apply bind_ext; intros ? ?). reflexivity.
  - unfold get_similar_users_recommendation.
    repeat (rewrite bind_assoc; apply bind_ext; intros ? ?). reflexivity.
Qed.

Lemma keeps_frame_raw_recommendations (user : Z) (mdl : option Model) (N : nat) :
  keeps_frame (raw_recommendations user mdl N).
Proof. unfold raw_recommendations. repeat frame_step. Qed.

Lemma keeps_frame_raw_output (st : Strategy) (user : Z) (N : nat) :
  keeps_frame (raw_output st user N).
Proof.
  destruct st; cbn [raw_output]; repeat frame_step;
    first [ apply keeps_frame_raw_recommendations
          | apply keeps_frame_get_similar_item
          | apply keeps_frame_extend_own_recommendations ].
Qed.

Lemma with_fallback_length (s : MainRecommender) (raw : list Z) (N : nat) :
  length raw <= N -> N <= length (overall_top_purchases s) ->
  length (with_fallback s raw N) = N.
Proof.
  intros HL HN. unfold with_fallback. destruct (length raw <? N) eqn:E.
  - rewrite length_app, length_firstn. lia.
  - apply Nat.ltb_ge in E. lia.
Qed.

Lemma mapM_length {A B : Type} (f : A -> M B) (l : list A) (s s' : MainRecommender)
    (r : list B) :
  mapM f l s = (s', Ok r) -> length r = length l.
Proof.
  revert s s' r. induction l as [| x l IH]; intros s s' r; cbn.
  - intros [= _ <-]. reflexivity.
  - intros H. apply bind_inv_ok in H as (s1 & y & _ & H).
    apply bind_inv_ok in H as (s2 & ys & Hys & H).
    injection H as _ <-. cbn. f_equal. eapply IH, Hys.
Qed.

(** The similar-items strategy maps at most N source rows, so its raw
    output never exceeds N. *)
Lemma raw_similar_items_length (user : Z) (N : nat) (s s' : MainRecommender) (raw : list Z) :
  raw_output Itm user N s = (s', Ok raw) -> length raw <= N.
Proof.
  cbn [raw_output]. unfold bind, get_self. intros H.
  apply mapM_length in H. rewrite H, length_firstn. lia.
Qed.

(** C1 (amended). Whatever list a strategy returns has exactly N entries.
    When the raw phase of a strategy (registration, id lookups, model
    queries) completes with at most N ids and the popularity ranking has
    at least N entries, the strategy returns the raw ids padded to exactly
    N; when the list after fallback has another length, the call raises
    the assertion error; when the raw phase raises, so does the call. *)
Theorem strategy_output_length (st : Strategy) (user : Z) (N : nat) (self : MainRecommender) :
  (forall s' res, run_strategy st user N self = (s', Ok res) -> length res = N) /\
  (forall s' raw, raw_output st user N self = (s', Ok raw) ->
     (length raw <= N -> N <= length (overall_top_purchases self) ->
      run_strategy st user N self = (s', Ok (with_fallback s' raw N)) /\
      length (with_fallback s' raw N) = N) /\
     (length (with_fallback s' raw N) <> N ->
      run_strategy st user N self = (s', Raise AssertionError))) /\
  (forall s' e, raw_output st user N self = (s', Raise e) ->
     run_strategy st user N self = (s', Raise e)).
Proof.
  split; [| split].
  - intros s' res. rewrite run_strategy_split. intros H.
    apply bind_inv_ok in H as (s1 & raw & _ & H).
    rewrite fallback_then_assert in H.
    destruct (length (with_fallback s1 raw N) =? N) eqn:E; [| discriminate H].
    injection H as _ <-. now apply Nat.eqb_eq.
  - intros s' raw Hraw. split.
    + intros HL HN.
      assert (Hlen : length (with_fallback s' raw N) = N).
      { apply with_fallback_length; [exact HL |].
        pose proof (keeps_frame_raw_output st user N self) as F.
        rewrite Hraw in F. cbn in F. destruct F as (_ & _ & _ & _ & -> & _). exact HN. }
      split; [| exact Hlen].
      rewrite run_strategy_split, (bind_ok _ _ _ _ _ Hraw), fallback_then_assert.
      apply Nat.eqb_eq in Hlen. now rewrite Hlen.
    + intros Hne.
      rewrite run_strategy_split, (bind_ok _ _ _ _ _ Hraw), fallback_then_assert.
      apply Nat.eqb_neq in Hne. now rewrite Hne.
  - intros s' e Hraw. rewrite run_strategy_split. now apply bind_raise.
Qed.

Lemma strategy_output_length_witness :
  (run_strategy Own 1 3 Example.self0
   = (Example.self0, Ok (with_fallback Example.self0 [10]%Z 3)) /\
   length (with_fallback Example.self0 [10]%Z 3) = 3) /\
  run_strategy Own 1 5 Example.self0 = (Example.self0, Raise AssertionError) /\
  run_strategy Usr 42 3 Example.self0 = (Example.self0, Raise KeyError).
Proof.
  split; [| split].
  - apply (proj1 (proj1 (proj2 (strategy_output_length Own 1 3 Example.self0))
                    Example.self0 [10]%Z ltac:(vm_compute; reflexivity))).
    + cbn. lia.
    + vm_compute. lia.
  - apply (proj2 (proj1 (proj2 (strategy_output_length Own 1 5 Example.self0))
                    Example.self0 [10]%Z ltac:(vm_compute; reflexivity))).
    vm_compute. lia.
  - apply (proj2 (proj2 (strategy_output_length Usr 42 3 Example.self0))).
    vm_compute. reflexivity.
Defined.

(** Two calls that raise although the popularity ranking has N entries:
    the similar-users strategy for a user the maps do not know, and the
    factorization strategy for a known user of a table that has no
    placeholder rows (no key 999999 in [itemid_to_id]). *)
Lemma strategy_raises_counterexample :
  (3 <= length (overall_top_purchases Example.self0) /\
   userid_to_id Example.self0 !! 42%Z = None /\
   run_strategy Usr 42 3 Example.self0 = (Example.self0, Raise KeyError)) /\
  (3 <= length (overall_top_purchases Example.self_plain) /\
   In 1%Z (map user_id Example.data_plain) /\
   run_strategy Rec 1 3 Example.self_plain = (Example.self_plain, Raise KeyError)).
Proof.
  split; (split; [vm_compute; lia |]); split; try (vm_compute; reflexivity).
  cbn. tauto.
Qed.

(** ** Matrix construction *)

Lemma insert_unique_In (x y : Z) (l : list Z) :
  In y (insert_unique x l) <-> y = x \/ In y l.
Proof.
  induction l as [| z l IH]; cbn.
  - intuition.
  - destruct (Z.compare_spec x z) as [-> | Hlt | Hgt]; cbn.
    + intuition.
    + intuition.
    + rewrite IH. intuition.
Qed.

Lemma sorted_unique_In (y : Z) (l : list Z) : In y (sorted_unique l) <-> In y l.
Proof.
  induction l as [| x l IH]; cbn.
  - reflexivity.
  - rewrite insert_unique_In, IH. intuition.
Qed.

Lemma lookup_label_map {A : Type} (f : Z -> A) (labels : list Z) (k : Z) :
  In k labels -> lookup_label labels (map f labels) k = Some (f k).
Proof.
  induction labels as [| l labels IH]; cbn; [intros [] |].
  intros H. destruct (Z.eqb_spec l k) as [-> | Hne]; [reflexivity |].
  apply IH. destruct H as [H | H]; [contradiction | exact H].
Qed.

Lemma pivot_table_loc (data : list Interaction) (col : Interaction -> Q) (agg : AggFunc)
    (fill : Q) (u i : Z) :
  In u (map user_id data) -> In i (map item_id data) ->
  loc (pivot_table data col agg fill) u i
  = Some (match map col (pair_rows data u i) with
          | [] => fill
          | group => aggregate agg group
          end).
Proof.
  intros Hu Hi. unfold loc, pivot_table. cbn [index values columns].
  rewrite (lookup_label_map _ _ u) by now apply sorted_unique_In.
  rewrite (lookup_label_map _ _ i) by now apply sorted_unique_In.
  reflexivity.
Qed.

(** C4 (amended). In modes 'quantity' and 'purchase_sum' the cell of a
    (user, item) pair that has records holds the mean of the pair's
    [quantity], respectively [sales_value], values (pandas' default
    aggregation), and the cell of a pair without records holds 0. *)
Theorem prepare_matrix_cell_mean (data : list Interaction) (u i : Z) :
  In u (map user_id data) -> In i (map item_id data) ->
  (exists df, _prepare_matrix data "quantity" = Ok df /\
              loc df u i = Some (mean_or_zero (map quantity (pair_rows data u i)))) /\
  (exists df, _prepare_matrix data "purchase_sum" = Ok df /\
              loc df u i = Some (mean_or_zero (map sales_value (pair_rows data u i)))).
Proof.
  intros Hu Hi. split; eexists; (split; [reflexivity |]);
    rewrite pivot_table_loc by assumption; unfold mean_or_zero, aggregate;
    match goal with |- context [map ?c ?l] => destruct (map c l) end; reflexivity.
Qed.

Lemma prepare_matrix_cell_mean_witness :
  (exists df, _prepare_matrix Example.data "quantity" = Ok df /\
              loc df 1 10
              = Some (mean_or_zero (map quantity (pair_rows Example.data 1 10)))) /\
  (exists df, _prepare_matrix Example.data "purchase_sum" = Ok df /\
              loc df 1 10
              = Some (mean_or_zero (map sales_value (pair_rows Example.data 1 10)))).
Proof.
  apply (prepare_matrix_cell_mean Example.data 1 10); cbn; tauto.
Defined.

(** User 1 bought item 10 twice, with quantities 2 and 4: the 'quantity'
    cell is 3, their mean, and not 6, their sum; in 'purchase_sum' mode
    the sales values 5 and 7 give 6, not 12. *)
Lemma quantity_cell_counterexample :
  map quantity (pair_rows Example.data 1 10) = [2; 4]%Q /\
  map sales_value (pair_rows Example.data 1 10) = [5; 7]%Q /\
  (exists df q, _prepare_matrix Example.data "quantity" = Ok df /\
                loc df 1 10 = Some q /\ (q == 3)%Q /\ ~ (q == 2 + 4)%Q) /\
  (exists df q, _prepare_matrix Example.data "purchase_sum" = Ok df /\
                loc df 1 10 = Some q /\ (q == 6)%Q /\ ~ (q == 5 + 7)%Q).
Proof.
  split; [reflexivity |]. split; [reflexivity |]. split.
  - eexists. eexists. split; [reflexivity |]. split; [vm_compute; reflexivity |].
    split; [reflexivity | intros H; discriminate H].
  - eexists. eexists. split; [reflexivity |]. split; [vm_compute; reflexivity |].
    split; [reflexivity | intros H; discriminate H].
Qed.

(** ** Sorting *)

Section SortBy.
Context {A : Type} (leb : A -> A -> bool).
Hypothesis leb_total : forall x y, leb x y = false -> leb y x = true.

Lemma insert_sorted_perm (x : A) (l : list A) : Permutation (insert_sorted leb x l) (x :: l).
Proof.
  induction l as [| y l IH]; cbn; [reflexivity |].
  destruct (leb x y); [reflexivity |].
  rewrite IH. apply perm_swap.
Qed.

Lemma sort_by_perm (l : list A) : Permutation (sort_by leb l) l.
Proof.
  induction l as [| x l IH]; cbn; [reflexivity |].
  rewrite insert_sorted_perm. now apply perm_skip.
Qed.

Lemma insert_sorted_hd (x y : A) (l : list A) :
  leb y x = true -> HdRel (fun a b => leb a b = true) y l ->
  HdRel (fun a b => leb a b = true) y (insert_sorted leb x l).
Proof.
  intros Hyx Hhd. destruct l as [| z l]; cbn.
  - now constructor.
  - destruct (leb x z); constructor; [exact Hyx | now inversion Hhd].
Qed.

Lemma insert_sorted_sorted (x : A) (l : list A) :
  Sorted (fun a b => leb a b = true) l ->
  Sorted (fun a b => leb a b = true) (insert_sorted leb x l).
Proof.
  induction 1 as [| y l Hs IH Hhd]; cbn.
  - repeat constructor.
  - destruct (leb x y) eqn:E.
    + constructor; [now constructor | now constructor].
    + constructor; [exact IH |]. apply insert_sorted_hd; [now apply leb_total | exact Hhd].
Qed.

Lemma sort_by_sorted (l : list A) : Sorted (fun a b => leb a b = true) (sort_by leb l).
Proof.
  induction l as [| x l IH]; cbn; [constructor |].
  now apply insert_sorted_sorted.
Qed.
End SortBy.

Lemma proba_geb_total (x y : ScoreRow) : proba_geb x y = false -> proba_geb y x = true.
Proof.
  unfold proba_geb. intros H. apply Qle_bool_iff.
  destruct (Qlt_le_dec (proba_item_purchase x) (proba_item_purchase y)) as [Hlt | Hle].
  - now apply Qlt_le_weak.
  - apply Qle_bool_iff in Hle. congruence.
Qed.

Lemma sort_by_proba_sorted (l : list ScoreRow) : Sorted proba_ge (sort_by proba_geb l).
Proof.
  pose proof (sort_by_sorted proba_geb proba_geb_total l) as H.
  induction H as [| x l' Hs IH Hhd]; constructor; [exact IH |].
  destruct Hhd as [| y l'' Hxy]; constructor.
  unfold proba_ge. now apply Qle_bool_iff.
Qed.

(** ** Re-ranking *)

(** [_rerank] on the user column: a sorted permutation of the user's
    rows, cut after five, projected on the item column. *)
Lemma rerank_user_id (user : Z) (df_predict : list ScoreRow) :
  _rerank user df_predict "user_id"
  = Ok (map sr_item_id
          (firstn 5 (sort_by proba_geb
                       (List.filter (fun row => (sr_user_id row =? user)%Z) df_predict)))).
Proof. reflexivity. Qed.

Lemma mapM_pure_in {A B : Type} (f : A -> M B) (g : A -> B) (l : list A) (s : MainRecommender) :
  (forall x, In x l -> forall s1, f x s1 = (s1, Ok (g x))) -> mapM f l s = (s, Ok (map g l)).
Proof.
  intros Hf. induction l as [| x l IH]; cbn; [reflexivity |].
  unfold bind. rewrite Hf by now left. rewrite IH; [reflexivity |].
  intros y Hy. apply Hf. now right.
Qed.

Lemma mapM_pure {A B : Type} (f : A -> M B) (g : A -> B) (l : list A) (s : MainRecommender) :
  (forall x s1, f x s1 = (s1, Ok (g x))) -> mapM f l s = (s, Ok (map g l)).
Proof. intros Hf. apply mapM_pure_in. intros x _. apply Hf. Qed.

Lemma set_result_col_user_ids (rows : list EvalRow) (col : list (list Z)) :
  length col = length rows ->
  map ev_user_id (set_result_col rows col) = map ev_user_id rows.
Proof.
  revert col. induction rows as [| r rows IH]; intros [| c col]; cbn; try discriminate.
  - reflexivity.
  - intros [= H]. f_equal. now apply IH.
Qed.

Lemma set_reranked_col_map (rows : list EvalRow) (rr : Z -> list Z) :
  set_reranked_col rows (map rr (map ev_user_id rows))
  = map (fun row => {| ev_user_id := ev_user_id row; actual := actual row;
                       result_col := result_col row;
                       reranked_col := Some (rr (ev_user_id row)) |}) rows.
Proof.
  unfold set_reranked_col. induction rows as [| r rows IH]; cbn; [reflexivity |].
  f_equal. exact IH.
Qed.

Lemma get_result_user_ids (df_result : list Interaction) :
  map ev_user_id (_get_result df_result) = sorted_unique (map user_id df_result).
Proof. unfold _get_result. rewrite map_map. cbn. apply map_id. Qed.

(** The rows a completed base run hands on keep the users of the test
    table, in order. *)
Lemma get_recommend_eval_user_ids (rows0 rows : list EvalRow) (target tag : string) (N : nat)
    (s s' : MainRecommender) :
  _get_recommend_eval rows0 target tag N s = (s', Ok (Some rows)) ->
  target = "user_id" /\ map ev_user_id rows = map ev_user_id rows0.
Proof.
  assert (Hrun : forall strategy : Z -> nat -> M (list Z),
             (users <- eval_column rows0 target ;;
              col <- mapM (fun x => strategy x N) users ;;
              ret (Some (set_result_col rows0 col))) s = (s', Ok (Some rows)) ->
             target = "user_id" /\ map ev_user_id rows = map ev_user_id rows0).
  { intros strategy H. apply bind_inv_ok in H as (s1 & users & Hcol & H).
    apply bind_inv_ok in H as (s2 & col & Hmap & H).
    injection H as _ <-. apply mapM_length in Hmap.
    unfold eval_column in Hcol.
    destruct (String.eqb_spec target "user_id") as [-> | _].
    - injection Hcol as _ <-. split; [reflexivity |].
      apply set_result_col_user_ids. now rewrite Hmap, length_map.
    - destruct (String.eqb target "actual"); discriminate Hcol. }
  unfold _get_recommend_eval.
  repeat (match goal with |- context [if ?b then _ else _] => destruct b end;
          [apply Hrun |]).
  discriminate.
Qed.

Lemma metric_column_reranked (metric : list Z -> list Z -> nat -> Q) (rows : list EvalRow)
    (rr : Z -> list Z) (k : nat) (s : MainRecommender) :
  exists v,
    metric_column metric reranked_col
      (map (fun row => {| ev_user_id := ev_user_id row; actual := actual row;
                          result_col := result_col row;
                          reranked_col := Some (rr (ev_user_id row)) |}) rows) k s
    = (s, Ok v).
Proof.
  unfold metric_column. eexists. unfold bind at 1.
  rewrite (mapM_pure_in _ (fun row => metric (default [] (reranked_col row)) (actual row) k));
    [reflexivity |].
  intros row Hrow s1. apply in_map_iff in Hrow as (row0 & <- & _). reflexivity.
Qed.

(** The table [reranked_metrics] returns once the base strategy has run. *)
Lemma reranked_metrics_table (recall precision : list Z -> list Z -> nat -> Q)
    (metric : string) (df_result : list Interaction) (df_predict : list ScoreRow)
    (target tag : string) (N : nat) (s s' : MainRecommender) (rows : list EvalRow) :
  _get_recommend_eval (_get_result df_result) target tag N s = (s', Ok (Some rows)) ->
  exists m,
    reranked_metrics recall precision metric df_result df_predict target tag N true s
    = (s', Ok (m, Some (map (fun u =>
                 (u, map sr_item_id
                       (firstn 5 (sort_by proba_geb
                          (List.filter (fun row => (sr_user_id row =? u)%Z) df_predict)))))
               (sorted_unique (map user_id df_result))))).
Proof.
  intros Hbase. destruct (get_recommend_eval_user_ids _ _ _ _ _ _ _ Hbase) as [-> Hids].
  set (rr := fun u => map sr_item_id
                        (firstn 5 (sort_by proba_geb
                           (List.filter (fun row => (sr_user_id row =? u)%Z) df_predict)))).
  unfold reranked_metrics. rewrite (bind_ok _ _ _ _ _ Hbase).
  unfold eval_column. cbn [String.eqb Ascii.eqb Bool.eqb]. unfold bind at 1. cbn [ret].
  unfold bind at 1.
  rewrite (mapM_pure _ rr) by (intros x s1; reflexivity).
  rewrite set_reranked_col_map.
  assert (Hm : exists m,
    (if String.eqb metric "recall"
     then metric_column recall reranked_col
            (map (fun row => {| ev_user_id := ev_user_id row; actual := actual row;
                                result_col := result_col row;
                                reranked_col := Some (rr (ev_user_id row)) |}) rows) N
     else if String.eqb metric "precision"
     then metric_column precision reranked_col
            (map (fun row => {| ev_user_id := ev_user_id row; actual := actual row;
                                result_col := result_col row;
                                reranked_col := Some (rr (ev_user_id row)) |}) rows) N
     else ret VNone) s' = (s', Ok m)).
  { destruct (String.eqb metric "recall"); [apply metric_column_reranked |].
    destruct (String.eqb metric "precision"); [apply metric_column_reranked |].
    eexists; reflexivity. }
  destruct Hm as [m Hm]. exists m.
  rewrite (bind_ok _ _ _ _ _ Hm). unfold bind at 1.
  rewrite (mapM_pure_in _ (fun row => (ev_user_id row, default [] (reranked_col row))))
    by (intros x Hx s1; apply in_map_iff in Hx as (row0 & <- & _); reflexivity).
  cbn [ret]. rewrite map_map. cbn [ev_user_id reranked_col default].
  rewrite <- get_result_user_ids, <- Hids, map_map. reflexivity.
Qed.

(** C5. Whatever [N_PREDICT] is requested, the list the re-ranking path
    emits for a user is made of that user's rows of the score table,
    sorted by score descending and cut after five, projected on the item
    column: so for [_rerank] itself, and so for every row of the table
    [reranked_metrics] returns once the base strategy has run. *)
Theorem rerank_emits_top5 (recall precision : list Z -> list Z -> nat -> Q)
    (metric : string) (df_result : list Interaction) (df_predict : list ScoreRow)
    (target tag : string) (N_PREDICT : nat) (s s' : MainRecommender) (rows : list EvalRow) :
  _get_recommend_eval (_get_result df_result) target tag N_PREDICT s = (s', Ok (Some rows)) ->
  (forall u, exists sorted,
      Permutation sorted (List.filter (fun row => (sr_user_id row =? u)%Z) df_predict) /\
      Sorted proba_ge sorted /\
      _rerank u df_predict "user_id" = Ok (map sr_item_id (firstn 5 sorted))) /\
  exists m table,
    reranked_metrics recall precision metric df_result df_predict target tag N_PREDICT true s
    = (s', Ok (m, Some table)) /\
    map fst table = sorted_unique (map user_id df_result) /\
    forall u l, In (u, l) table ->
      exists sorted,
        Permutation sorted (List.filter (fun row => (sr_user_id row =? u)%Z) df_predict) /\
        Sorted proba_ge sorted /\
        l = map sr_item_id (firstn 5 sorted).
Proof.
  intros Hbase. split.
  - intros u. eexists. split; [apply sort_by_perm |]. split; [apply sort_by_proba_sorted |].
    apply rerank_user_id.
  - destruct (reranked_metrics_table recall precision metric df_result df_predict
                target tag N_PREDICT s s' rows Hbase) as [m Hm].
    eexists m, _. split; [exact Hm |]. split.
    + rewrite map_map. cbn. apply map_id.
    + intros u l Hin. apply in_map_iff in Hin as (u' & [= <- <-] & _).
      eexists. split; [apply sort_by_perm |]. split; [apply sort_by_proba_sorted |].
      reflexivity.
Qed.

Lemma rerank_emits_top5_witness :
  exists m table,
    reranked_metrics Example.recall0 Example.recall0 "recall" Example.data
      Example.df_predict "user_id" "own" 3 true Example.self0
    = (Example.self0, Ok (m, Some table)) /\
    map fst table = sorted_unique (map user_id Example.data) /\
    forall u l, In (u, l) table ->
      exists sorted,
        Permutation sorted
          (List.filter (fun row => (sr_user_id row =? u)%Z) Example.df_predict) /\
        Sorted proba_ge sorted /\
        l = map sr_item_id (firstn 5 sorted).
Proof.
  apply (rerank_emits_top5 Example.recall0 Example.recall0 "recall" Example.data
           Example.df_predict "user_id" "own" 3 Example.self0 Example.self0
           Example.rows_own).
  vm_compute. reflexivity.
Defined.

Lemma firstn_In {A : Type} (n : nat) (l : list A) (x : A) : In x (firstn n l) -> In x l.
Proof.
  revert l. induction n as [| n IH]; intros [| y l]; cbn; try tauto.
  intros [H | H]; [now left | right; now apply IH].
Qed.

(** C10. Once the base strategy has run, [reranked_metrics] emits one
    list for every user of the test table; that list has length
    min(5, number of score rows of the user), whatever [N_PREDICT] is,
    and holds only items of that user's score rows: the popularity
    fallback is not applied to it, so it can be shorter than 5 and than
    [N_PREDICT]. *)
Theorem rerank_length (recall precision : list Z -> list Z -> nat -> Q)
    (metric : string) (df_result : list Interaction) (df_predict : list ScoreRow)
    (target tag : string) (N_PREDICT : nat) (s s' : MainRecommender) (rows : list EvalRow) :
  _get_recommend_eval (_get_result df_result) target tag N_PREDICT s = (s', Ok (Some rows)) ->
  exists m table,
    reranked_metrics recall precision metric df_result df_predict target tag N_PREDICT true s
    = (s', Ok (m, Some table)) /\
    map fst table = sorted_unique (map user_id df_result) /\
    (forall u, In u (map user_id df_result) -> exists l, In (u, l) table) /\
    forall u l, In (u, l) table ->
      _rerank u df_predict "user_id" = Ok l /\
      length l
      = Nat.min 5 (length (List.filter (fun row => (sr_user_id row =? u)%Z) df_predict)) /\
      forall x, In x l ->
        exists row, In row df_predict /\ sr_user_id row = u /\ sr_item_id row = x.
Proof.
  intros Hbase.
  destruct (reranked_metrics_table recall precision metric df_result df_predict
              target tag N_PREDICT s s' rows Hbase) as [m Hm].
  eexists m, _. split; [exact Hm |]. split; [| split].
  - rewrite map_map. cbn. apply map_id.
  - intros u Hu. eexists. apply in_map_iff. exists u. split; [reflexivity |].
    now apply sorted_unique_In.
  - intros u l Hin. apply in_map_iff in Hin as (u' & [= <- <-] & _).
    split; [reflexivity |]. split.
    + rewrite length_map, length_firstn.
      now rewrite (Permutation_length (sort_by_perm proba_geb _)).
    + intros x Hx. apply in_map_iff in Hx as (row & <- & Hrow).
      apply firstn_In in Hrow.
      apply (Permutation_in _ (sort_by_perm proba_geb _)) in Hrow.
      apply filter_In in Hrow as [Hrow Hu]. exists row.
      split; [exact Hrow |]. split; [now apply Z.eqb_eq | reflexivity].
Qed.

(** User 1 has two score rows and N_PREDICT is 3: the list emitted for
    user 1 has two entries, although the popularity ranking has three. *)
Lemma rerank_length_witness :
  exists m table,
    reranked_metrics Example.recall0 Example.recall0 "precision" Example.data
      Example.df_predict "user_id" "own" 3 true Example.self0
    = (Example.self0, Ok (m, Some table)) /\
    map fst table = [1; 2]%Z /\
    exists l, In (1%Z, l) table /\
              _rerank 1 Example.df_predict "user_id" = Ok l /\
              length l = 2 /\ length l < 3 /\ length l < 5 /\
              3 <= length (overall_top_purchases Example.self0).
Proof.
  destruct (rerank_length Example.recall0 Example.recall0 "precision" Example.data
              Example.df_predict "user_id" "own" 3 Example.self0 Example.self0
              Example.rows_own ltac:(vm_compute; reflexivity))
    as (m & table & Heq & Hfst & Hall & Hrows).
  exists m, table. split; [exact Heq |]. split; [exact Hfst |].
  destruct (Hall 1%Z ltac:(cbn; tauto)) as [l Hl]. exists l.
  destruct (Hrows 1%Z l Hl) as (Hrr & Hlen & _).
  split; [exact Hl |]. split; [exact Hrr |].
  assert (Hl2 : length l = 2) by (rewrite Hlen; reflexivity).
  rewrite Hl2. repeat split; try lia. vm_compute. lia.
Defined.

(** ** The similar-items strategy *)

Lemma read_only_bind {A B : Type} (m : M A) (f : A -> M B) :
  read_only m -> (forall a, read_only (f a)) -> read_only (bind m f).
Proof.
  intros Hm Hf s. unfold bind. specialize (Hm s).
  destruct (m s) as [s1 [a | e]]; cbn in *; subst; [apply Hf | reflexivity].
Qed.

Lemma read_only_get_similar_item (item : Z) : read_only (_get_similar_item item).
Proof.
  unfold _get_similar_item.
  repeat (apply read_only_bind; [| intros ?]); intros s;
    unfold get_self, getattr_model, getitem, list_getitem;
    repeat match goal with |- context [match ?x with _ => _ end] => destruct x end;
    reflexivity.
Qed.

Lemma mapM_read_only {A B : Type} (f : A -> M B) (l : list A) (s s' : MainRecommender)
    (r : list B) :
  (forall a, read_only (f a)) ->
  mapM f l s = (s', Ok r) ->
  s' = s /\ Forall2 (fun x y => f x s = (s, Ok y)) l r.
Proof.
  intros Hro. revert r. induction l as [| x l IH]; intros r; cbn.
  - intros [= <- <-]. split; [reflexivity | constructor].
  - intros H. apply bind_inv_ok in H as (s1 & y & Hy & H).
    apply bind_inv_ok in H as (s2 & ys & Hys & H).
    injection H as <- <-.
    pose proof (Hro x s) as E. rewrite Hy in E. cbn in E. subst s1.
    destruct (IH ys Hys) as [-> HF]. split; [reflexivity |].
    constructor; assumption.
Qed.





(** ** What construction establishes *)

Lemma insert_unique_sorted (x : Z) (l : list Z) :
  StronglySorted Z.lt l -> StronglySorted Z.lt (insert_unique x l).
Proof.
  induction 1 as [| y l Hs IH Hall]; cbn.
  - repeat constructor.
  - destruct (Z.compare_spec x y) as [-> | Hlt | Hgt].
    + now constructor.
    + constructor; [now constructor |]. constructor; [exact Hlt |].
      apply Forall_forall. intros z Hz. rewrite Forall_forall in Hall.
      specialize (Hall z Hz). lia.
    + constructor; [exact IH |]. apply Forall_forall. intros z Hz.
      apply list_elem_of_In, insert_unique_In in Hz as [-> | Hz]; [exact Hgt |].
      rewrite Forall_forall in Hall. now apply Hall, list_elem_of_In.
Qed.

Lemma sorted_unique_sorted (l : list Z) : StronglySorted Z.lt (sorted_unique l).
Proof.
  induction l as [| x l IH]; cbn; [constructor | now apply insert_unique_sorted].
Qed.

Lemma sorted_unique_NoDup (l : list Z) : NoDup (sorted_unique l).
Proof.
  pose proof (sorted_unique_sorted l) as H.
  induction H as [| y l' Hs IH Hall]; constructor; [| exact IH].
  intros Hy. rewrite Forall_forall in Hall. specialize (Hall y Hy). lia.
Qed.

Lemma py_dict_list_to_map (items : list (Z * Z)) :
  py_dict items = list_to_map (rev items).
Proof.
  unfold py_dict, list_to_map. rewrite <- fold_left_rev_right. reflexivity.
Qed.

Lemma py_dict_lookup_In (items : list (Z * Z)) (k v : Z) :
  py_dict items !! k = Some v -> In (k, v) items.
Proof.
  rewrite py_dict_list_to_map. intros H. apply elem_of_list_to_map_2 in H.
  apply in_rev. now apply list_elem_of_In.
Qed.

Lemma py_dict_In_lookup (items : list (Z * Z)) (k v : Z) :
  NoDup (map fst items) -> In (k, v) items -> py_dict items !! k = Some v.
Proof.
  intros Hnd Hin. rewrite py_dict_list_to_map. apply elem_of_list_to_map_1.
  - change (NoDup (map fst (rev items))). rewrite map_rev.
    now rewrite <- (Permutation_rev (map fst items)).
  - apply list_elem_of_In. now apply in_rev in Hin.
Qed.

Lemma combine_swap_In {A B : Type} (l : list A) (k : list B) (a : A) (b : B) :
  In (a, b) (combine l k) -> In (b, a) (combine k l).
Proof.
  revert k. induction l as [| x l IH]; intros [| y k]; cbn; try tauto.
  intros [[= -> ->] | H]; [now left | right; now apply IH].
Qed.

Lemma combine_fst_arange (l : list Z) : map fst (combine l (arange (length l))) = l.
Proof.
  unfold arange. generalize 0. induction l as [| x l IH]; intros n; cbn; [reflexivity |].
  f_equal. apply IH.
Qed.

Lemma prepare_dicts_consistent (df : DataFrame) (i x : Z) :
  NoDup (columns df) ->
  (_prepare_dicts df).1.1.1 !! i = Some x -> (_prepare_dicts df).1.2 !! x = Some i.
Proof.
  intros Hnd. cbn. intros H. apply py_dict_lookup_In, combine_swap_In in H.
  apply py_dict_In_lookup; [| exact H]. now rewrite combine_fst_arange.
Qed.

Lemma prepare_matrix_labels (data : list Interaction) (mode : string) (df : DataFrame) :
  _prepare_matrix data mode = Ok df ->
  index df = sorted_unique (map user_id data) /\
  columns df = sorted_unique (map item_id data).
Proof.
  unfold _prepare_matrix.
  repeat match goal with |- context [if ?b then _ else _] => destruct b end;
    intros [= <-]; try (split; reflexivity).
Qed.

(** An object built by [__init__] has consistent item maps, and neither
    its popularity ranking nor its top-purchases table holds the
    placeholder item. *)
Lemma init_invariants
    (als bpr ii cosine tfidf_rec : Params -> DataFrame -> result Model)
    (bm25 tfidf : DataFrame -> DataFrame) (data : list Interaction)
    (weighting model_type own_type : string) (params own_params : option Params)
    (mode : string) (self : MainRecommender) :
  __init__ als bpr ii cosine tfidf_rec bm25 tfidf data weighting model_type own_type
           params own_params mode = Ok self ->
  item_maps_consistent self /\
  ~ In 999999%Z (overall_top_purchases self) /\
  (forall row, In row (top_purchases self) -> tp_item_id row <> 999999%Z).
Proof.
  unfold __init__. destruct (_prepare_matrix data mode) as [df | e] eqn:Hdf; [| discriminate].
  destruct (_prepare_dicts df) as [[[d1 d2] d3] d4] eqn:Hd.
  destruct (fit _ _ _ _ _) as [mdl | e]; [| discriminate].
  destruct (fit_own_recommender _ _ _ _ _ _) as [own | e]; [| discriminate].
  intros [= <-]. cbn. split; [| split].
  - intros i x Hix. pose proof (prepare_dicts_consistent df i x) as H.
    rewrite Hd in H. cbn in H. apply H; [| exact Hix].
    destruct (prepare_matrix_labels _ _ _ Hdf) as [_ ->]. apply sorted_unique_NoDup.
  - intros Hin. apply in_map_iff in Hin as ([i c] & Hi & Hin). cbn in Hi. subst i.
    apply filter_In in Hin as [_ Hin]. cbn in Hin. discriminate Hin.
  - intros row Hin. apply filter_In in Hin as [_ Hin].
    intros Heq. rewrite Heq in Hin. discriminate Hin.
Qed.



(** ** The placeholder item *)

Lemma placeholder_safe_frame (s s' : MainRecommender) :
  same_frame s s' -> placeholder_safe s -> placeholder_safe s'.
Proof.
  intros (_ & E1 & E2 & _ & E3 & E4 & E5) (H1 & H2 & H3 & H4).
  unfold placeholder_safe, item_maps_consistent. rewrite E1, E2, E3, E4, E5. auto.
Qed.

Lemma Forall2_In_right {A B : Type} (P : A -> B -> Prop) (l : list A) (r : list B) (y : B) :
  Forall2 P l r -> In y r -> exists x, In x l /\ P x y.
Proof.
  induction 1 as [| a b l r Hab HF IH]; cbn; [intros [] |].
  intros [<- | Hy]; [eauto |]. destruct (IH Hy) as (x & Hx & Hp). eauto.
Qed.

Lemma read_only_getitem (d : gmap Z Z) (k : Z) : read_only (getitem d k).
Proof. intros s. unfold getitem. destruct (d !! k); reflexivity. Qed.

Lemma with_fallback_In (s : MainRecommender) (raw : list Z) (N : nat) (x : Z) :
  In x (with_fallback s raw N) -> In x raw \/ In x (overall_top_purchases s).
Proof.
  unfold with_fallback. destruct (length raw <? N); [| tauto].
  intros H. apply in_app_or in H as [H | H]; [now left | right].
  eapply firstn_In, H.
Qed.

(** The model-based body keeps the placeholder out when the model honours
    [filter_items]. *)
Lemma get_recommendations_aux_no_placeholder (user : Z) (mdl : option Model) (N : nat)
    (self s' : MainRecommender) (res : list Z) :
  item_maps_consistent self -> ~ In 999999%Z (overall_top_purchases self) ->
  (forall mdl', mdl = Some mdl' -> honours_filter mdl') ->
  _get_recommendations user mdl N self = (s', Ok res) ->
  ~ In 999999%Z res.
Proof.
  intros Hmaps Htop Hflt Hrun. unfold _get_recommendations in Hrun.
  apply bind_inv_ok in Hrun as (s1 & [] & Hupd & Hrun).
  pose proof (keeps_frame_update_dict user self) as F. rewrite Hupd in F. cbn in F.
  destruct F as (_ & E1 & E2 & _ & E3 & _).
  apply bind_inv_ok in Hrun as (? & self1 & [= <- <-] & Hrun).
  apply bind_inv_ok in Hrun as (? & mdl' & Hmdl & Hrun).
  destruct mdl as [m |]; [| discriminate Hmdl]. injection Hmdl as <- <-.
  apply bind_inv_ok in Hrun as (s2 & userid & Hu & Hrun).
  pose proof (read_only_getitem (userid_to_id s1) user s1) as R. rewrite Hu in R.
  cbn in R. subst s2.
  apply bind_inv_ok in Hrun as (s2 & ph & Hph & Hrun).
  pose proof (read_only_getitem (itemid_to_id s1) 999999%Z s1) as R. rewrite Hph in R.
  cbn in R. subst s2.
  unfold getitem in Hph. destruct (itemid_to_id s1 !! 999999%Z) as [ph' |] eqn:Eph;
    [| discriminate Hph]. injection Hph as ->.
  apply bind_inv_ok in Hrun as (s2 & raw & Hraw & Hrun).
  apply mapM_read_only in Hraw as [-> HF]; [| intros a; apply read_only_getitem].
  rewrite fallback_then_assert in Hrun.
  destruct (length (with_fallback s1 raw N) =? N); [| discriminate Hrun].
  injection Hrun as _ <-. intros Hin.
  apply with_fallback_In in Hin as [Hin | Hin]; [| rewrite E3 in Hin; contradiction].
  destruct (Forall2_In_right _ _ _ _ HF Hin) as (row & Hrow & Hget).
  unfold getitem in Hget. destruct (id_to_itemid s1 !! row.1) as [x |] eqn:Ex;
    [| discriminate Hget]. injection Hget as ->.
  rewrite E1 in Ex. apply Hmaps in Ex. rewrite <- E2, Eph in Ex. injection Ex as ->.
  eapply (Hflt m eq_refl); [exact Hrow |]. now left.
Qed.

Lemma get_own_recommendations_no_placeholder (user : Z) (N : nat)
    (self s' : MainRecommender) (res : list Z) :
  placeholder_safe self ->
  get_own_recommendations user N self = (s', Ok res) -> ~ In 999999%Z res.
Proof.
  intros Hsafe Hrun. unfold get_own_recommendations in Hrun.
  apply bind_inv_ok in Hrun as (s1 & [] & Hupd & Hrun).
  pose proof (keeps_frame_update_dict user self) as F. rewrite Hupd in F. cbn in F.
  destruct (placeholder_safe_frame _ _ F Hsafe) as (H1 & H2 & H3 & H4).
  apply bind_inv_ok in Hrun as (? & self1 & [= <- <-] & Hrun).
  eapply get_recommendations_aux_no_placeholder; [exact H1 | exact H2 | | exact Hrun].
  intros mdl' [= <-]. exact H4.
Qed.

Lemma get_recommendations_no_placeholder (user : Z) (N : nat)
    (self s' : MainRecommender) (res : list Z) :
  placeholder_safe self ->
  get_recommendations user N self = (s', Ok res) -> ~ In 999999%Z res.
Proof.
  intros Hsafe Hrun. unfold get_recommendations in Hrun.
  apply bind_inv_ok in Hrun as (s1 & [] & Hupd & Hrun).
  pose proof (keeps_frame_update_dict user self) as F. rewrite Hupd in F. cbn in F.
  destruct (placeholder_safe_frame _ _ F Hsafe) as (H1 & H2 & H3 & H4).
  apply bind_inv_ok in Hrun as (? & self1 & [= <- <-] & Hrun).
  eapply get_recommendations_aux_no_placeholder; [exact H1 | exact H2 | | exact Hrun].
  exact H3.
Qed.

Lemma extend_own_recommendations_no_placeholder (users acc : list Z)
    (self s' : MainRecommender) (res : list Z) :
  placeholder_safe self -> ~ In 999999%Z acc ->
  extend_own_recommendations acc users self = (s', Ok res) ->
  placeholder_safe s' /\ ~ In 999999%Z res.
Proof.
  revert acc self. induction users as [| u users IH]; intros acc self Hsafe Hacc; cbn.
  - intros [= <- <-]. split; assumption.
  - intros Hrun. apply bind_inv_ok in Hrun as (s1 & own & Hown & Hrun).
    pose proof (keeps_frame_get_own_recommendations u 1 self) as F.
    rewrite Hown in F. cbn in F.
    apply (IH (acc ++ own) s1); [eapply placeholder_safe_frame; eassumption | | exact Hrun].
    intros Hin. apply in_app_or in Hin as [Hin | Hin]; [contradiction |].
    eapply get_own_recommendations_no_placeholder; eassumption.
Qed.

(** The three model-based strategies keep the placeholder out of their
    output when both models honour [filter_items]; the similar-items
    strategy has no such filter. *)
Lemma model_strategies_exclude_placeholder (st : Strategy) (user : Z) (N : nat)
    (self s' : MainRecommender) (res : list Z) :
  st <> Itm -> placeholder_safe self ->
  run_strategy st user N self = (s', Ok res) -> ~ In 999999%Z res.
Proof.
  intros Hst Hsafe. destruct st; cbn [run_strategy]; [| | contradiction |].
  - now apply get_recommendations_no_placeholder.
  - now apply get_own_recommendations_no_placeholder.
  - intros Hrun. unfold get_similar_users_recommendation in Hrun.
    apply bind_inv_ok in Hrun as (? & self1 & [= <- <-] & Hrun).
    apply bind_inv_ok in Hrun as (s1 & mdl & Hmdl & Hrun).
    destruct (model self) as [m |]; [| discriminate Hmdl]. injection Hmdl as <- <-.
    apply bind_inv_ok in Hrun as (s2 & userid & Hu & Hrun).
    pose proof (read_only_getitem (userid_to_id self) user self) as R. rewrite Hu in R.
    cbn in R. subst s2.
    apply bind_inv_ok in Hrun as (s2 & users & Hus & Hrun).
    apply mapM_read_only in Hus as [-> _]; [| intros a; apply read_only_getitem].
    apply bind_inv_ok in Hrun as (s2 & raw & Hraw & Hrun).
    apply extend_own_recommendations_no_placeholder in Hraw as [Hsafe2 Hraw];
      [| exact Hsafe | intros []].
    rewrite fallback_then_assert in Hrun.
    destruct (length (with_fallback s2 raw N) =? N); [| discriminate Hrun].
    injection Hrun as _ <-. intros Hin.
    apply with_fallback_In in Hin as [Hin | Hin]; [contradiction |].
    destruct Hsafe2 as (_ & Htop & _). contradiction.
Qed.

(** C3 (the code at a failing input). In the object built from
    [Example.data], item 30 sits next to the placeholder's column, and the
    model ranks the placeholder second for it: the similar-items strategy
    for user 1, who bought item 30, returns the placeholder id, although
    neither the popularity ranking nor the top-purchases table holds it. *)
Theorem similar_items_emits_placeholder :
  Example.build "binary" = Ok Example.self0 /\
  ~ In 999999%Z (overall_top_purchases Example.self0) /\
  (forall row, In row (top_purchases Example.self0) -> tp_item_id row <> 999999%Z) /\
  _get_similar_item 30 Example.self0 = (Example.self0, Ok 999999%Z) /\
  get_similar_items_recommendation 1 3 Example.self0
  = (Example.self0, Ok [20; 999999; 10]%Z) /\
  In 999999%Z [20; 999999; 10]%Z.
Proof.
  assert (Hb : Example.build "binary" = Ok Example.self0) by (vm_compute; reflexivity).
  split; [exact Hb |].
  destruct (init_invariants _ _ _ _ _ _ _ _ _ _ _ _ _ _ _ Hb) as (_ & Htop & Hrows).
  split; [exact Htop |]. split; [exact Hrows |].
  split; [vm_compute; reflexivity |]. split; [vm_compute; reflexivity |].
  cbn. tauto.
Qed.

(** ** Unrecognised tags in the evaluator *)

Lemma get_recommend_eval_unknown (rows : list EvalRow) (target tag : string) (N : nat)
    (self : MainRecommender) :
  ~ known_strategy tag -> _get_recommend_eval rows target tag N self = (self, Ok None).
Proof.
  unfold known_strategy, _get_recommend_eval. intros Hn.
  repeat match goal with
         | |- context [String.eqb tag ?t] =>
             destruct (String.eqb_spec tag t); [exfalso; tauto |]
         end.
  reflexivity.
Qed.

(** Any unknown strategy tag with a known metric: the current evaluator
    raises, the legacy one answers with its message. *)
Lemma evalMetrics_unknown_strategy (recall precision : list Z -> list Z -> nat -> Q)
    (metric : string) (df_result : list Interaction) (target tag : string) (N : nat)
    (self : MainRecommender) :
  ~ known_strategy tag -> known_metric metric ->
  evalMetrics recall precision metric df_result target tag N self
  = (self, Raise AttributeError) /\
  Legacy.evalMetrics recall precision metric df_result target tag N self
  = (self, Ok (VStr Legacy.not_empty_message)).
Proof.
  intros Hn Hm. split.
  - unfold evalMetrics. rewrite (bind_ok _ _ _ _ _ (get_recommend_eval_unknown _ _ _ _ _ Hn)).
    destruct Hm as [-> | ->]; reflexivity.
  - unfold Legacy.evalMetrics, known_strategy in *.
    repeat match goal with
           | |- context [String.eqb tag ?t] =>
               destruct (String.eqb_spec tag t); [exfalso; tauto |]
           end.
    reflexivity.
Qed.

(** C8 (the code at failing inputs). With an unknown strategy tag and a
    known metric, [evalMetrics] raises AttributeError; with a known
    strategy and an unknown metric it returns None; the legacy variant
    returns its message string in the first case. *)
Theorem evalMetrics_unknown_tags (recall precision : list Z -> list Z -> nat -> Q)
    (df_result : list Interaction) (target : string) (N_PREDICT : nat)
    (self : MainRecommender) :
  evalMetrics recall precision "recall" df_result target "xyz" N_PREDICT self
  = (self, Raise AttributeError) /\
  evalMetrics recall precision "precision" df_result target "xyz" N_PREDICT self
  = (self, Raise AttributeError) /\
  evalMetrics recall precision "f1" Example.data "user_id" "own" 3 Example.self0
  = (Example.self0, Ok VNone) /\
  Legacy.evalMetrics recall precision "recall" df_result target "xyz" N_PREDICT self
  = (self, Ok (VStr "recommend_model_type must not be empty!")).
Proof.
  split; [reflexivity |]. split; [reflexivity |]. split; [| reflexivity].
  vm_compute. reflexivity.
Qed.

(** ** When the user maps change *)

Lemma read_only_ret {A : Type} (a : A) : read_only (ret a).
Proof. intros s. reflexivity. Qed.

Lemma read_only_raise {A : Type} (e : PyError) : read_only (@raise A e).
Proof. intros s. reflexivity. Qed.

Lemma read_only_mapM {A B : Type} (f : A -> M B) (l : list A) :
  (forall a, read_only (f a)) -> read_only (mapM f l).
Proof.
  intros Hf. induction l as [| x l IH]; cbn; [apply read_only_ret |].
  apply read_only_bind; [apply Hf | intros y].
  apply read_only_bind; [exact IH | intros ys; apply read_only_ret].
Qed.

Lemma read_only_fallback_then_assert (raw : list Z) (N : nat) :
  read_only (res <- _extend_with_top_popular raw N ;; py_assert (length res =? N) ;; ret res).
Proof. intros s. now rewrite fallback_then_assert. Qed.

(** The similar-items strategy never writes to the object. *)
Lemma similar_items_read_only (user : Z) (N : nat) :
  read_only (get_similar_items_recommendation user N).
Proof.
  unfold get_similar_items_recommendation.
  apply read_only_bind; [intros s; reflexivity | intros self].
  apply read_only_bind; [| intros raw; apply read_only_fallback_then_assert].
  apply read_only_mapM. intros row. apply read_only_get_similar_item.
Qed.

(** For a user the maps know, the two model-based strategies leave the
    object as it is: registration is their only write. *)
Lemma known_user_leaves_self (st : Strategy) (user : Z) (N : nat) (self : MainRecommender) :
  st = Rec \/ st = Own ->
  is_Some (userid_to_id self !! user) ->
  (run_strategy st user N self).1 = self.
Proof.
  intros Hst Hknown.
  assert (Haux : forall mdl, (_get_recommendations user mdl N self).1 = self).
  { intros mdl. unfold _get_recommendations.
    rewrite (bind_ok _ _ _ _ _ (update_dict_known self user Hknown)).
    cbv beta.
    apply read_only_bind; [intros s; reflexivity | intros self0].
    apply read_only_bind; [destruct mdl; [apply read_only_ret | apply read_only_raise] |].
    intros mdl0.
    apply read_only_bind; [apply read_only_getitem | intros userid].
    apply read_only_bind; [apply read_only_getitem | intros placeholder].
    apply read_only_bind; [apply read_only_mapM; intros a; apply read_only_getitem |].
    intros res. apply read_only_fallback_then_assert. }
  destruct Hst as [-> | ->]; cbn [run_strategy];
    unfold get_recommendations, get_own_recommendations;
    rewrite (bind_ok _ _ _ _ _ (update_dict_known self user Hknown));
    unfold bind at 1, get_self; apply Haux.
Qed.

(** * Further properties *)

(** ** Index maps after construction *)

Lemma combine_arange_In (l : list Z) (a : nat) (i x : Z) :
  In (i, x) (combine (map Z.of_nat (seq a (length l))) l)
  <-> exists k, i = Z.of_nat (a + k) /\ nth_error l k = Some x.
Proof.
  revert a. induction l as [| y l IH]; intros a; cbn.
  - split; [intros [] | intros (k & _ & H); destruct k; discriminate H].
  - rewrite IH. split.
    + intros [[= <- <-] | (k & -> & Hk)].
      * exists 0. split; [f_equal; lia | reflexivity].
      * exists (S k). split; [f_equal; lia | exact Hk].
    + intros ([| k] & -> & Hk); cbn in Hk.
      * left. injection Hk as ->. repeat f_equal. lia.
      * right. exists k. split; [f_equal; lia | exact Hk].
Qed.

Lemma arange_NoDup (n : nat) : NoDup (arange n).
Proof.
  unfold arange. change (NoDup (Z.of_nat <$> seq 0 n)).
  apply NoDup_fmap_2; [intros a b H; lia | apply NoDup_seq].
Qed.

Lemma combine_fst_length {A B : Type} (l : list A) (k : list B) :
  length l = length k -> map fst (combine l k) = l.
Proof.
  revert k. induction l as [| x l IH]; intros [| y k]; cbn; try discriminate; [reflexivity |].
  intros [= H]. f_equal. now apply IH.
Qed.

Lemma arange_length (n : nat) : length (arange n) = n.
Proof. unfold arange. now rewrite length_map, length_seq. Qed.

(** [dict(zip(arange(len(l)), l))] reads [l] by position. *)
Lemma py_dict_arange_lookup (l : list Z) (i x : Z) :
  py_dict (combine (arange (length l)) l) !! i = Some x
  <-> exists k, i = Z.of_nat k /\ nth_error l k = Some x.
Proof.
  rewrite <- (combine_arange_In l 0 i x). fold (arange (length l)). split.
  - apply py_dict_lookup_In.
  - apply py_dict_In_lookup. rewrite combine_fst_length by apply arange_length.
    apply arange_NoDup.
Qed.

(** [dict(zip(l, arange(len(l))))] gives each element of a duplicate-free
    [l] its position. *)
Lemma py_dict_positions_lookup (l : list Z) (i x : Z) :
  NoDup l ->
  py_dict (combine l (arange (length l))) !! x = Some i
  <-> exists k, i = Z.of_nat k /\ nth_error l k = Some x.
Proof.
  intros Hnd. rewrite <- (combine_arange_In l 0 i x). fold (arange (length l)). split.
  - intros H. now apply combine_swap_In, py_dict_lookup_In.
  - intros H. apply py_dict_In_lookup; [now rewrite combine_fst_arange |].
    now apply combine_swap_In.
Qed.

(** The parts of an object that [__init__] has built. *)
Lemma init_fields
    (als bpr ii cosine tfidf_rec : Params -> DataFrame -> result Model)
    (bm25 tfidf : DataFrame -> DataFrame) (data : list Interaction)
    (weighting model_type own_type : string) (params own_params : option Params)
    (mode : string) (self : MainRecommender) :
  __init__ als bpr ii cosine tfidf_rec bm25 tfidf data weighting model_type own_type
           params own_params mode = Ok self ->
  exists df,
    _prepare_matrix data mode = Ok df /\
    (id_to_itemid self, id_to_userid self, itemid_to_id self, userid_to_id self)
    = _prepare_dicts df /\
    top_purchases self
    = List.filter (fun r => negb (tp_item_id r =? 999999)%Z)
        (sort_by (fun r1 r2 => (tp_quantity r2 <=? tp_quantity r1)%Z)
           (count_by_user_item data)) /\
    overall_top_purchases self
    = map fst (List.filter (fun r => negb (r.1 =? 999999)%Z)
                 (sort_by (fun r1 r2 => (r2.2 <=? r1.2)%Z) (count_by_item data))) /\
    fit als bpr
      (if String.eqb weighting "bm25" then bm25 df
       else if String.eqb weighting "tfidf" then tfidf df else df)
      model_type params
    = Ok (model self).
Proof.
  unfold __init__. destruct (_prepare_matrix data mode) as [df | e] eqn:Hdf; [| discriminate].
  destruct (_prepare_dicts df) as [[[d1 d2] d3] d4] eqn:Hd.
  destruct (fit _ _ _ _ _) as [mdl | e] eqn:Hfit; [| discriminate].
  destruct (fit_own_recommender _ _ _ _ _ _) as [own | e]; [| discriminate].
  intros [= <-]. exists df. split; [reflexivity |]. split; [now rewrite Hd |].
  repeat split; try reflexivity. exact Hfit.
Qed.

(** X1. For an object built by [__init__], the two item maps invert each
    other, so do the two user maps, and the index of an id is its position
    among the sorted distinct ids of the data (0, 1, 2, ...). *)
Theorem init_index_maps
    (als bpr ii cosine tfidf_rec : Params -> DataFrame -> result Model)
    (bm25 tfidf : DataFrame -> DataFrame) (data : list Interaction)
    (weighting model_type own_type : string) (params own_params : option Params)
    (mode : string) (self : MainRecommender) :
  __init__ als bpr ii cosine tfidf_rec bm25 tfidf data weighting model_type own_type
           params own_params mode = Ok self ->
  (forall i x, id_to_itemid self !! i = Some x <-> itemid_to_id self !! x = Some i) /\
  (forall i u, id_to_userid self !! i = Some u <-> userid_to_id self !! u = Some i) /\
  (forall i x, id_to_itemid self !! i = Some x
               <-> exists k, i = Z.of_nat k /\
                             nth_error (sorted_unique (map item_id data)) k = Some x) /\
  (forall i u, id_to_userid self !! i = Some u
               <-> exists k, i = Z.of_nat k /\
                             nth_error (sorted_unique (map user_id data)) k = Some u).
Proof.
  intros Hinit. destruct (init_fields _ _ _ _ _ _ _ _ _ _ _ _ _ _ _ Hinit)
    as (df & Hdf & Hd & _).
  destruct (prepare_matrix_labels _ _ _ Hdf) as [Hidx Hcol].
  unfold _prepare_dicts in Hd. rewrite Hidx, Hcol in Hd.
  injection Hd as -> -> -> ->.
  pose proof (sorted_unique_NoDup (map item_id data)) as Hni.
  pose proof (sorted_unique_NoDup (map user_id data)) as Hnu.
  split; [| split; [| split]].
  - intros i x. now rewrite py_dict_arange_lookup, py_dict_positions_lookup.
  - intros i u. now rewrite py_dict_arange_lookup, py_dict_positions_lookup.
  - intros i x. apply py_dict_arange_lookup.
  - intros i u. apply py_dict_arange_lookup.
Qed.

Lemma init_index_maps_witness :
  (forall i x, id_to_itemid Example.self0 !! i = Some x
               <-> itemid_to_id Example.self0 !! x = Some i) /\
  (forall i u, id_to_userid Example.self0 !! i = Some u
               <-> userid_to_id Example.self0 !! u = Some i) /\
  (forall i x, id_to_itemid Example.self0 !! i = Some x
               <-> exists k, i = Z.of_nat k /\
                             nth_error (sorted_unique (map item_id Example.data)) k = Some x) /\
  (forall i u, id_to_userid Example.self0 !! i = Some u
               <-> exists k, i = Z.of_nat k /\
                             nth_error (sorted_unique (map user_id Example.data)) k = Some u).
Proof.
  apply (init_index_maps (Example.trainer 5) (Example.trainer 5) (Example.trainer 1)
           (Example.trainer 1) (Example.trainer 1) (fun m => m) (fun m => m)
           Example.data "none" "als" "item-item" None None "binary").
  vm_compute. reflexivity.
Defined.

(** ** The matrix *)

Lemma lookup_label_None {A : Type} (labels : list Z) (xs : list A) (k : Z) :
  ~ In k labels -> lookup_label labels xs k = None.
Proof.
  revert xs. induction labels as [| l labels IH]; intros [| x xs] Hk; cbn; try reflexivity.
  destruct (Z.eqb_spec l k) as [-> | Hne]; [exfalso; apply Hk; now left |].
  apply IH. intros H. apply Hk. now right.
Qed.

Lemma lookup_label_In {A : Type} (labels : list Z) (xs : list A) (k : Z) (x : A) :
  lookup_label labels xs k = Some x -> In k labels.
Proof.
  intros H. destruct (in_dec Z.eq_dec k labels) as [Hin | Hn]; [exact Hin |].
  rewrite lookup_label_None in H by exact Hn. discriminate H.
Qed.

(** X2. In mode 'binary' a cell holds the number of records of its
    (user, item) pair, which can exceed 1, and 0 for a pair without
    records; a label that does not occur in the data has no cell. *)
Theorem prepare_matrix_binary_count (data : list Interaction) (u i : Z) :
  exists df, _prepare_matrix data "binary" = Ok df /\
    (In u (map user_id data) -> In i (map item_id data) ->
     loc df u i = Some (inject_Z (pair_count data u i))) /\
    (forall q, loc df u i = Some q ->
               In u (map user_id data) /\ In i (map item_id data)).
Proof.
  eexists. split; [reflexivity |]. split.
  - intros Hu Hi. rewrite pivot_table_loc by assumption.
    unfold pair_count, aggregate. rewrite <- (length_map quantity).
    destruct (map quantity (pair_rows data u i)); reflexivity.
  - intros q. unfold loc, pivot_table. cbn [index columns values].
    destruct (lookup_label _ _ u) as [row |] eqn:Hrow; [| discriminate].
    intros Hcell. pose proof (lookup_label_In _ _ _ _ Hrow) as Hu. split.
    + now rewrite sorted_unique_In in Hu.
    + rewrite lookup_label_map in Hrow by exact Hu.
      injection Hrow as <-. apply lookup_label_In in Hcell.
      now rewrite sorted_unique_In in Hcell.
Qed.

Lemma prepare_matrix_binary_count_witness :
  exists df, _prepare_matrix Example.data "binary" = Ok df /\
             loc df 1 10 = Some (inject_Z (pair_count Example.data 1 10)) /\
             pair_count Example.data 1 10 = 2%Z.
Proof.
  destruct (prepare_matrix_binary_count Example.data 1 10) as (df & Hdf & Hcell & _).
  exists df. split; [exact Hdf |]. split; [| reflexivity].
  apply Hcell; cbn; tauto.
Defined.

(** X3. Whatever the value mode, the matrix [_prepare_matrix] returns is
    labelled by the distinct user ids and the distinct item ids of the
    data in strictly ascending order, and is rectangular: one row per user
    label, one cell per item label in every row.  It raises
    (AttributeError, from [None.astype]) exactly for a mode other than
    'binary', 'quantity' and 'purchase_sum'. *)
Theorem prepare_matrix_shape (data : list Interaction) (mode : string) :
  (forall df, _prepare_matrix data mode = Ok df ->
     StronglySorted Z.lt (index df) /\ StronglySorted Z.lt (columns df) /\
     (forall u, In u (index df) <-> In u (map user_id data)) /\
     (forall i, In i (columns df) <-> In i (map item_id data)) /\
     length (values df) = length (index df) /\
     (forall row, In row (values df) -> length row = length (columns df))) /\
  (_prepare_matrix data mode = Raise AttributeError
   <-> mode <> "binary" /\ mode <> "quantity" /\ mode <> "purchase_sum").
Proof.
  split.
  - intros df Hdf.
    assert (Hshape : forall col agg fill,
               length (values (pivot_table data col agg fill))
               = length (index (pivot_table data col agg fill)) /\
               (forall row, In row (values (pivot_table data col agg fill)) ->
                  length row = length (columns (pivot_table data col agg fill)))).
    { intros col agg fill. cbn. split; [apply length_map |].
      intros row Hrow. apply in_map_iff in Hrow as (u & <- & _). apply length_map. }
    destruct (prepare_matrix_labels _ _ _ Hdf) as [Hidx Hcol].
    rewrite Hidx, Hcol.
    split; [apply sorted_unique_sorted |]. split; [apply sorted_unique_sorted |].
    split; [intros u; apply sorted_unique_In |].
    split; [intros i; apply sorted_unique_In |].
    rewrite <- Hidx, <- Hcol. unfold _prepare_matrix in Hdf.
    repeat match type of Hdf with
           | context [if ?b then _ else _] => destruct b
           end; try discriminate Hdf; injection Hdf as <-; apply Hshape.
  - unfold _prepare_matrix.
    destruct (String.eqb_spec mode "binary") as [-> | H1];
      [split; [discriminate | intros (H & _); now contradiction H] |].
    destruct (String.eqb_spec mode "quantity") as [-> | H2];
      [split; [discriminate | intros (_ & H & _); now contradiction H] |].
    destruct (String.eqb_spec mode "purchase_sum") as [-> | H3];
      [split; [discriminate | intros (_ & _ & H); now contradiction H] |].
    split; [intros _; auto | reflexivity].
Qed.

Lemma prepare_matrix_shape_witness :
  (exists df, _prepare_matrix Example.data "purchase_sum" = Ok df /\
              length (values df) = length (index df) /\
              StronglySorted Z.lt (columns df)) /\
  _prepare_matrix Example.data "sum" = Raise AttributeError.
Proof.
  split.
  - eexists. split; [reflexivity |].
    destruct (proj1 (prepare_matrix_shape Example.data "purchase_sum") _ eq_refl)
      as (_ & Hc & _ & _ & Hl & _).
    split; [exact Hl | exact Hc].
  - apply (proj2 (prepare_matrix_shape Example.data "sum")).
    repeat split; discriminate.
Defined.

(** ** The rankings built by [__init__] *)

Lemma StronglySorted_filter {A : Type} (R : A -> A -> Prop) (f : A -> bool) (l : list A) :
  StronglySorted R l -> StronglySorted R (List.filter f l).
Proof.
  induction 1 as [| x l Hs IH Hall]; cbn; [constructor |].
  destruct (f x); [| exact IH]. constructor; [exact IH |].
  apply Forall_forall. intros y Hy. apply list_elem_of_In, filter_In in Hy as [Hy _].
  rewrite Forall_forall in Hall. now apply Hall, list_elem_of_In.
Qed.

Lemma StronglySorted_map_In {A B : Type} (R : A -> A -> Prop) (R' : B -> B -> Prop)
    (g : A -> B) (l : list A) :
  (forall a b, In a l -> In b l -> R a b -> R' (g a) (g b)) ->
  StronglySorted R l -> StronglySorted R' (map g l).
Proof.
  intros Hg Hs. induction Hs as [| x l Hs IH Hall]; cbn; [constructor |].
  constructor.
  - apply IH. intros a b Ha Hb. apply Hg; now right.
  - apply Forall_forall. intros y Hy. apply list_elem_of_In, in_map_iff in Hy as (a & <- & Ha).
    apply Hg; [now left | now right |]. rewrite Forall_forall in Hall.
    now apply Hall, list_elem_of_In.
Qed.

Lemma NoDup_map_filter {A B : Type} (g : A -> B) (f : A -> bool) (l : list A) :
  NoDup (map g l) -> NoDup (map g (List.filter f l)).
Proof.
  induction l as [| x l IH]; cbn; [intros _; constructor |].
  intros H. apply NoDup_cons in H as [Hx Hl]. destruct (f x); cbn; [| now apply IH].
  apply NoDup_cons. split; [| now apply IH].
  intros Hin. apply Hx. apply list_elem_of_In, in_map_iff in Hin as (a & Ha & Hin).
  apply filter_In in Hin as [Hin _]. apply list_elem_of_In, in_map_iff. eauto.
Qed.

Lemma sort_by_strongly_sorted {A : Type} (leb : A -> A -> bool) (l : list A) :
  (forall x y, leb x y = false -> leb y x = true) ->
  (forall x y z, leb x y = true -> leb y z = true -> leb x z = true) ->
  StronglySorted (fun a b => leb a b = true) (sort_by leb l).
Proof.
  intros Htot Htrans. apply Sorted_StronglySorted.
  - intros x y z. apply Htrans.
  - now apply sort_by_sorted.
Qed.

(** X4. The popularity ranking of an object built by [__init__] lists
    every item of the data except the placeholder 999999, each once, in
    order of non-increasing number of records. *)
Theorem init_popularity_ranking
    (als bpr ii cosine tfidf_rec : Params -> DataFrame -> result Model)
    (bm25 tfidf : DataFrame -> DataFrame) (data : list Interaction)
    (weighting model_type own_type : string) (params own_params : option Params)
    (mode : string) (self : MainRecommender) :
  __init__ als bpr ii cosine tfidf_rec bm25 tfidf data weighting model_type own_type
           params own_params mode = Ok self ->
  NoDup (overall_top_purchases self) /\
  (forall x, In x (overall_top_purchases self)
             <-> In x (map item_id data) /\ x <> 999999%Z) /\
  StronglySorted (fun a b => (item_count data b <= item_count data a)%Z)
                 (overall_top_purchases self).
Proof.
  intros Hinit. destruct (init_fields _ _ _ _ _ _ _ _ _ _ _ _ _ _ _ Hinit)
    as (_ & _ & _ & _ & -> & _).
  set (leb := fun r1 r2 : Z * Z => (r2.2 <=? r1.2)%Z).
  pose proof (sort_by_perm leb (count_by_item data)) as Hperm.
  assert (Hel : forall p, In p (sort_by leb (count_by_item data))
                          <-> In p.1 (map item_id data) /\ p.2 = item_count data p.1).
  { intros p. rewrite (Permutation_in' eq_refl Hperm) by reflexivity.
    unfold count_by_item. rewrite in_map_iff. split.
    - intros (i & <- & Hi). rewrite sorted_unique_In in Hi. now split.
    - intros [Hi Hc]. exists p.1. rewrite sorted_unique_In. split; [| exact Hi].
      destruct p as [i c]. cbn in *. now subst c. }
  split; [| split].
  - apply NoDup_map_filter. rewrite Hperm. unfold count_by_item.
    rewrite map_map. cbn. rewrite map_id. apply sorted_unique_NoDup.
  - intros x. rewrite in_map_iff. split.
    + intros (p & <- & Hp). apply filter_In in Hp as [Hp Hf]. apply Hel in Hp as [Hp _].
      split; [exact Hp |]. intros E. rewrite E in Hf. discriminate Hf.
    + intros [Hx Hne]. exists (x, item_count data x). split; [reflexivity |].
      apply filter_In. split; [now apply Hel |]. cbn.
      destruct (Z.eqb_spec x 999999); [contradiction | reflexivity].
  - apply (StronglySorted_map_In (fun a b => leb a b = true)).
    + intros a b Ha Hb Hab. apply filter_In in Ha as [Ha _]. apply filter_In in Hb as [Hb _].
      apply Hel in Ha as [_ Ha]. apply Hel in Hb as [_ Hb].
      rewrite <- Ha, <- Hb. unfold leb in Hab. lia.
    + apply StronglySorted_filter, sort_by_strongly_sorted; unfold leb; intros; lia.
Qed.

Lemma init_popularity_ranking_witness :
  NoDup (overall_top_purchases Example.self0) /\
  (forall x, In x (overall_top_purchases Example.self0)
             <-> In x (map item_id Example.data) /\ x <> 999999%Z) /\
  StronglySorted (fun a b => (item_count Example.data b <= item_count Example.data a)%Z)
                 (overall_top_purchases Example.self0).
Proof.
  apply (init_popularity_ranking (Example.trainer 5) (Example.trainer 5) (Example.trainer 1)
           (Example.trainer 1) (Example.trainer 1) (fun m => m) (fun m => m)
           Example.data "none" "als" "item-item" None None "binary").
  vm_compute. reflexivity.
Defined.

Lemma filter_filter_andb {A : Type} (f g : A -> bool) (l : list A) :
  List.filter g (List.filter f l) = List.filter (fun x => f x && g x) l.
Proof.
  induction l as [| x l IH]; cbn; [reflexivity |].
  destruct (f x); cbn; [destruct (g x); now rewrite IH | exact IH].
Qed.

Lemma NoDup_list_filter {A : Type} (f : A -> bool) (l : list A) :
  NoDup l -> NoDup (List.filter f l).
Proof. intros H. rewrite <- (map_id (List.filter f l)). apply NoDup_map_filter. now rewrite map_id. Qed.

Lemma count_by_user_item_In (data : list Interaction) (row : PurchaseRow) :
  In row (count_by_user_item data)
  <-> (exists r, In r data /\ user_id r = tp_user_id row /\ item_id r = tp_item_id row) /\
      tp_quantity row = pair_count data (tp_user_id row) (tp_item_id row).
Proof.
  unfold count_by_user_item. rewrite in_flat_map. split.
  - intros (u & Hu & Hrow). apply in_map_iff in Hrow as (i & <- & Hi). cbn.
    rewrite sorted_unique_In in Hi. apply in_map_iff in Hi as (r & <- & Hr).
    apply filter_In in Hr as [Hr Hru]. apply Z.eqb_eq in Hru. split; [eauto |].
    unfold pair_count, pair_rows. now rewrite filter_filter_andb.
  - intros [(r & Hr & Hu & Hi) Hq]. exists (tp_user_id row). split.
    + rewrite sorted_unique_In, <- Hu. now apply in_map.
    + apply in_map_iff. exists (tp_item_id row). split.
      * destruct row as [u i q]. cbn in *. subst q. f_equal.
        unfold pair_count, pair_rows. now rewrite filter_filter_andb.
      * rewrite sorted_unique_In, <- Hi. apply in_map, filter_In. split; [exact Hr |].
        now apply Z.eqb_eq.
Qed.

Lemma count_by_user_item_NoDup (data : list Interaction) :
  NoDup (map (fun row => (tp_user_id row, tp_item_id row)) (count_by_user_item data)).
Proof.
  unfold count_by_user_item.
  pose proof (sorted_unique_NoDup (map user_id data)) as Hnd.
  induction Hnd as [| u us Hu Hnd IH]; cbn; [constructor |].
  rewrite map_app. apply NoDup_app. split; [| split].
  - rewrite map_map. cbn.
    match goal with |- NoDup (map ?f ?l) => change (NoDup (f <$> l)) end.
    apply NoDup_fmap_2; [intros a b [= H]; exact H | apply sorted_unique_NoDup].
  - intros p Hp Hp'. apply list_elem_of_In in Hp, Hp'. rewrite map_map in Hp. cbn in Hp.
    apply in_map_iff in Hp as (i & <- & _).
    apply in_map_iff in Hp' as (row & Hrow & Hin). apply in_flat_map in Hin as (u' & Hu' & Hin).
    apply in_map_iff in Hin as (i' & <- & _). cbn in Hrow. injection Hrow as -> _.
    apply Hu. now apply list_elem_of_In.
  - exact IH.
Qed.

(** X5. The top-purchases table of an object built by [__init__] has one
    row for every (user, item) pair that occurs in the data, the
    placeholder item apart, and no other row; the row's quantity is the
    number of records of the pair, and the rows come in order of
    non-increasing quantity. *)
Theorem init_top_purchases
    (als bpr ii cosine tfidf_rec : Params -> DataFrame -> result Model)
    (bm25 tfidf : DataFrame -> DataFrame) (data : list Interaction)
    (weighting model_type own_type : string) (params own_params : option Params)
    (mode : string) (self : MainRecommender) :
  __init__ als bpr ii cosine tfidf_rec bm25 tfidf data weighting model_type own_type
           params own_params mode = Ok self ->
  (forall row, In row (top_purchases self)
     <-> tp_item_id row <> 999999%Z /\
         (exists r, In r data /\ user_id r = tp_user_id row /\ item_id r = tp_item_id row) /\
         tp_quantity row = pair_count data (tp_user_id row) (tp_item_id row)) /\
  NoDup (map (fun row => (tp_user_id row, tp_item_id row)) (top_purchases self)) /\
  StronglySorted (fun a b => (tp_quantity b <= tp_quantity a)%Z) (top_purchases self).
Proof.
  intros Hinit. destruct (init_fields _ _ _ _ _ _ _ _ _ _ _ _ _ _ _ Hinit)
    as (_ & _ & _ & -> & _).
  set (leb := fun r1 r2 : PurchaseRow => (tp_quantity r2 <=? tp_quantity r1)%Z).
  pose proof (sort_by_perm leb (count_by_user_item data)) as Hperm.
  split; [| split].
  - intros row. rewrite filter_In, (Permutation_in' eq_refl Hperm), count_by_user_item_In
      by reflexivity.
    destruct (Z.eqb_spec (tp_item_id row) 999999); cbn; intuition congruence.
  - apply NoDup_map_filter. rewrite Hperm. apply count_by_user_item_NoDup.
  - apply StronglySorted_filter.
    pose proof (sort_by_strongly_sorted leb (count_by_user_item data)) as Hs.
    rewrite <- (map_id (sort_by leb _)).
    apply (StronglySorted_map_In (fun a b => leb a b = true)).
    + intros a b _ _ Hab. unfold leb in Hab. lia.
    + apply Hs; unfold leb; intros; lia.
Qed.

Lemma init_top_purchases_witness :
  (forall row, In row (top_purchases Example.self0)
     <-> tp_item_id row <> 999999%Z /\
         (exists r, In r Example.data /\ user_id r = tp_user_id row /\
                    item_id r = tp_item_id row) /\
         tp_quantity row = pair_count Example.data (tp_user_id row) (tp_item_id row)) /\
  NoDup (map (fun row => (tp_user_id row, tp_item_id row)) (top_purchases Example.self0)) /\
  StronglySorted (fun a b => (tp_quantity b <= tp_quantity a)%Z)
                 (top_purchases Example.self0).
Proof.
  apply (init_top_purchases (Example.trainer 5) (Example.trainer 5) (Example.trainer 1)
           (Example.trainer 1) (Example.trainer 1) (fun m => m) (fun m => m)
           Example.data "none" "als" "item-item" None None "binary").
  vm_compute. reflexivity.
Defined.

(** ** The user maps across calls *)

Section Respects.
Variable R : MainRecommender -> MainRecommender -> Prop.
Hypothesis R_refl : forall s, R s s.
Hypothesis R_trans : forall s1 s2 s3, R s1 s2 -> R s2 s3 -> R s1 s3.
Hypothesis R_update : forall u, respects R (_update_dict u).

Lemma respects_bind {A B : Type} (m : M A) (f : A -> M B) :
  respects R m -> (forall a, respects R (f a)) -> respects R (bind m f).
Proof.
  intros Hm Hf s. unfold bind. specialize (Hm s).
  destruct (m s) as [s1 [a | e]]; cbn in *; [| exact Hm].
  eapply R_trans; [exact Hm | apply Hf].
Qed.

Lemma respects_read_only {A : Type} (m : M A) : read_only m -> respects R m.
Proof. intros H s. rewrite H. apply R_refl. Qed.

Lemma respects_mapM {A B : Type} (f : A -> M B) (l : list A) :
  (forall a, respects R (f a)) -> respects R (mapM f l).
Proof.
  intros Hf. induction l as [| x l IH]; cbn.
  - apply respects_read_only, read_only_ret.
  - apply respects_bind; [apply Hf | intros y].
    apply respects_bind; [exact IH | intros ys; apply respects_read_only, read_only_ret].
Qed.

Lemma respects_get_recommendations_aux (user : Z) (mdl : option Model) (N : nat) :
  respects R (_get_recommendations user mdl N).
Proof.
  unfold _get_recommendations.
  apply respects_bind; [apply R_update | intros _].
  apply respects_read_only.
  apply read_only_bind; [intros s; reflexivity | intros self].
  apply read_only_bind; [destruct mdl; [apply read_only_ret | apply read_only_raise] |].
  intros mdl0.
  apply read_only_bind; [apply read_only_getitem | intros userid].
  apply read_only_bind; [apply read_only_getitem | intros placeholder].
  apply read_only_bind; [apply read_only_mapM; intros a; apply read_only_getitem |].
  intros res. apply read_only_fallback_then_assert.
Qed.

Lemma respects_get_own_recommendations (user : Z) (N : nat) :
  respects R (get_own_recommendations user N).
Proof.
  unfold get_own_recommendations.
  apply respects_bind; [apply R_update | intros _].
  apply respects_bind; [apply respects_read_only; intros s; reflexivity | intros self].
  apply respects_get_recommendations_aux.
Qed.

Lemma respects_get_recommendations (user : Z) (N : nat) :
  respects R (get_recommendations user N).
Proof.
  unfold get_recommendations.
  apply respects_bind; [apply R_update | intros _].
  apply respects_bind; [apply respects_read_only; intros s; reflexivity | intros self].
  apply respects_get_recommendations_aux.
Qed.

Lemma respects_extend_own_recommendations (users res : list Z) :
  respects R (extend_own_recommendations res users).
Proof.
  revert res. induction users as [| u users IH]; intros res; cbn.
  - apply respects_read_only, read_only_ret.
  - apply respects_bind; [apply respects_get_own_recommendations | intros own; apply IH].
Qed.

Lemma respects_get_similar_users_recommendation (user : Z) (N : nat) :
  respects R (get_similar_users_recommendation user N).
Proof.
  unfold get_similar_users_recommendation.
  apply respects_bind; [apply respects_read_only; intros s; reflexivity | intros self].
  apply respects_bind;
    [apply respects_read_only;
     destruct (model self); [apply read_only_ret | apply read_only_raise] | intros mdl].
  apply respects_bind; [apply respects_read_only, read_only_getitem | intros userid].
  apply respects_bind;
    [apply respects_read_only, read_only_mapM; intros a; apply read_only_getitem |].
  intros users.
  apply respects_bind; [apply respects_extend_own_recommendations | intros res].
  apply respects_read_only, read_only_fallback_then_assert.
Qed.

Lemma respects_run_strategy (st : Strategy) (user : Z) (N : nat) :
  respects R (run_strategy st user N).
Proof.
  destruct st; cbn [run_strategy].
  - apply respects_get_recommendations.
  - apply respects_get_own_recommendations.
  - apply respects_read_only, similar_items_read_only.
  - apply respects_get_similar_users_recommendation.
Qed.

Lemma respects_eval_column (rows : list EvalRow) (name : string) :
  respects R (eval_column rows name).
Proof.
  apply respects_read_only. unfold eval_column.
  repeat match goal with |- context [if ?b then _ else _] => destruct b end;
    first [apply read_only_ret | apply read_only_raise].
Qed.

Lemma respects_get_recommend_eval (rows : list EvalRow) (target tag : string) (N : nat) :
  respects R (_get_recommend_eval rows target tag N).
Proof.
  assert (Hrun : forall st,
             respects R (users <- eval_column rows target ;;
                         col <- mapM (fun x => run_strategy st x N) users ;;
                         ret (Some (set_result_col rows col)))).
  { intros st. apply respects_bind; [apply respects_eval_column | intros users].
    apply respects_bind; [apply respects_mapM; intros a; apply respects_run_strategy |].
    intros col. apply respects_read_only, read_only_ret. }
  unfold _get_recommend_eval.
  destruct (String.eqb tag "own"); [apply (Hrun Own) |].
  destruct (String.eqb tag "rec"); [apply (Hrun Rec) |].
  destruct (String.eqb tag "itm"); [apply (Hrun Itm) |].
  destruct (String.eqb tag "usr"); [apply (Hrun Usr) |].
  apply respects_read_only, read_only_ret.
Qed.

Lemma read_only_metric_column (metric : list Z -> list Z -> nat -> Q)
    (col : EvalRow -> option (list Z)) (rows : list EvalRow) (k : nat) :
  read_only (metric_column metric col rows k).
Proof.
  unfold metric_column. apply read_only_bind; [| intros scores; apply read_only_ret].
  apply read_only_mapM. intros row.
  apply read_only_bind; [| intros; apply read_only_ret].
  unfold row_getitem. destruct (col row); [apply read_only_ret | apply read_only_raise].
Qed.

Lemma respects_evalMetrics (recall precision : list Z -> list Z -> nat -> Q)
    (metric : string) (df : list Interaction) (target tag : string) (N : nat) :
  respects R (evalMetrics recall precision metric df target tag N).
Proof.
  unfold evalMetrics. apply respects_bind; [apply respects_get_recommend_eval | intros rows].
  apply respects_read_only.
  repeat match goal with
         | |- context [if ?b then _ else _] => destruct b
         | |- context [match ?o with Some _ => _ | None => _ end] => destruct o
         end;
    first [apply read_only_metric_column | apply read_only_raise | apply read_only_ret].
Qed.
End Respects.

Lemma user_step_refl (s : MainRecommender) : user_step s s.
Proof. split; [reflexivity |]. intros H. split; [exact H | reflexivity]. Qed.

Lemma user_step_trans (s1 s2 s3 : MainRecommender) :
  user_step s1 s2 -> user_step s2 s3 -> user_step s1 s3.
Proof.
  intros [H1 H1'] [H2 H2']. split; [now transitivity (userid_to_id s2) |].
  intros Hinv. destruct (H1' Hinv) as [Hinv2 Hsub]. destruct (H2' Hinv2) as [Hinv3 Hsub'].
  split; [exact Hinv3 | now transitivity (id_to_userid s2)].
Qed.

(** Registering an unknown user at the largest index plus one. *)
Lemma user_step_registered (s : MainRecommender) (u m : Z) :
  userid_to_id s !! u = None -> is_max_index (userid_to_id s) m ->
  user_step s (registered s u (m + 1)).
Proof.
  intros Hu [_ Hmax]. split; [now apply insert_subseteq |].
  intros Hinv. cbn.
  assert (Hfree : id_to_userid s !! (m + 1)%Z = None).
  { destruct (id_to_userid s !! (m + 1)%Z) as [w |] eqn:E; [| reflexivity].
    apply Hinv, Hmax in E. lia. }
  split; [| now apply insert_subseteq].
  intros u' i. cbn. rewrite !lookup_insert. repeat case_decide; subst.
  - tauto.
  - split; [intros [= E]; congruence |].
    intros E. apply Hinv in E. congruence.
  - split; [| intros [= E]; congruence].
    intros E. apply Hmax in E. lia.
  - apply Hinv.
Qed.

Lemma user_step_update_dict (u : Z) : respects user_step (_update_dict u).
Proof.
  intros s. destruct (userid_to_id s !! u) as [i |] eqn:Hu.
  - rewrite update_dict_known by (rewrite Hu; eauto). apply user_step_refl.
  - destruct (decide (userid_to_id s = ∅)) as [He | Hne].
    + rewrite update_dict_empty by exact He. apply user_step_refl.
    + destruct (update_dict_new s u Hu Hne) as (m & Hm & ->).
      now apply user_step_registered.
Qed.

(** X6. Across any strategy call and any [evalMetrics] call, returning
    or raising, [userid_to_id] is only extended: no user loses or changes
    an index.  If the two user maps invert each other before the call
    they still do afterwards, and [id_to_userid] is only extended too. *)
Theorem calls_extend_user_maps :
  (forall st user N s, user_step s (run_strategy st user N s).1) /\
  (forall recall precision metric df target tag N s,
      user_step s (evalMetrics recall precision metric df target tag N s).1).
Proof.
  split.
  - intros st user N.
    apply (respects_run_strategy user_step user_step_refl user_step_trans
             user_step_update_dict).
  - intros recall precision metric df target tag N.
    apply (respects_evalMetrics user_step user_step_refl user_step_trans
             user_step_update_dict).
Qed.

Lemma init_user_maps_inverse
    (als bpr ii cosine tfidf_rec : Params -> DataFrame -> result Model)
    (bm25 tfidf : DataFrame -> DataFrame) (data : list Interaction)
    (weighting model_type own_type : string) (params own_params : option Params)
    (mode : string) (self : MainRecommender) :
  __init__ als bpr ii cosine tfidf_rec bm25 tfidf data weighting model_type own_type
           params own_params mode = Ok self ->
  user_maps_inverse self.
Proof.
  intros Hinit. destruct (init_fields _ _ _ _ _ _ _ _ _ _ _ _ _ _ _ Hinit)
    as (df & Hdf & Hd & _).
  destruct (prepare_matrix_labels _ _ _ Hdf) as [Hidx _].
  unfold _prepare_dicts in Hd. rewrite Hidx in Hd. injection Hd as _ Hi _ Hu.
  intros u i. rewrite Hi, Hu, py_dict_arange_lookup, py_dict_positions_lookup;
    [reflexivity | apply sorted_unique_NoDup].
Qed.

Lemma calls_extend_user_maps_witness :
  user_maps_inverse Example.self0 /\
  user_maps_inverse (run_strategy Own 42 3 Example.self0).1 /\
  userid_to_id (run_strategy Own 42 3 Example.self0).1 !! 42%Z = Some 2%Z /\
  id_to_userid (run_strategy Own 42 3 Example.self0).1 !! 2%Z = Some 42%Z.
Proof.
  assert (Hinv : user_maps_inverse Example.self0).
  { apply (init_user_maps_inverse (Example.trainer 5) (Example.trainer 5)
             (Example.trainer 1) (Example.trainer 1) (Example.trainer 1)
             (fun m => m) (fun m => m) Example.data "none" "als" "item-item"
             None None "binary").
    vm_compute. reflexivity. }
  split; [exact Hinv |].
  destruct (proj1 calls_extend_user_maps Own 42%Z 3 Example.self0) as [_ Hstep].
  split; [apply (Hstep Hinv) |]. split; vm_compute; reflexivity.
Defined.

Lemma respects_after_registration (st : Strategy) (user : Z) (N : nat) :
  st = Rec \/ st = Own ->
  exists rest : unit -> M (list Z),
    (forall s, run_strategy st user N s = bind (_update_dict user) rest s) /\
    (forall x, respects user_step (rest x)).
Proof.
  intros [-> | ->].
  - exists (fun _ => self <- get_self ;; _get_recommendations user (model self) N).
    split; [reflexivity |]. intros _.
    apply respects_bind; try apply user_step_trans.
    + apply respects_read_only; [apply user_step_refl | intros s; reflexivity].
    + intros self. apply respects_get_recommendations_aux;
        [apply user_step_refl | apply user_step_trans | apply user_step_update_dict].
  - exists (fun _ => self <- get_self ;;
                     _get_recommendations user (Some (own_recommender self)) N).
    split; [reflexivity |]. intros _.
    apply respects_bind; try apply user_step_trans.
    + apply respects_read_only; [apply user_step_refl | intros s; reflexivity].
    + intros self. apply respects_get_recommendations_aux;
        [apply user_step_refl | apply user_step_trans | apply user_step_update_dict].
Qed.

(** X7. [get_recommendations] and [get_own_recommendations] register
    their user before anything else: when the user map is not empty, the
    user is in [userid_to_id] after the call, whether the call returns or
    raises, at the index the user had, or, for a new user, at the largest
    index plus one.  When the user map is empty and the user therefore
    unknown, the call raises ValueError and leaves the object as it was. *)
Theorem model_strategies_register_user (st : Strategy) (user : Z) (N : nat)
    (s : MainRecommender) :
  st = Rec \/ st = Own ->
  (userid_to_id s <> ∅ ->
   match userid_to_id s !! user with
   | Some i => userid_to_id (run_strategy st user N s).1 !! user = Some i
   | None => exists m, is_max_index (userid_to_id s) m /\
                       userid_to_id (run_strategy st user N s).1 !! user = Some (m + 1)%Z
   end) /\
  (userid_to_id s = ∅ -> run_strategy st user N s = (s, Raise ValueError)).
Proof.
  intros Hst. destruct (respects_after_registration st user N Hst) as (rest & Hrun & Hrest).
  split.
  - intros Hne. rewrite Hrun. destruct (userid_to_id s !! user) as [i |] eqn:Hu.
    + rewrite (bind_ok _ _ _ _ _ (update_dict_known s user ltac:(rewrite Hu; eauto))).
      destruct (Hrest tt s) as [Hsub _]. eapply lookup_weaken; [exact Hu | exact Hsub].
    + destruct (update_dict_new s user Hu Hne) as (m & Hm & Hupd).
      exists m. split; [exact Hm |]. rewrite (bind_ok _ _ _ _ _ Hupd).
      destruct (Hrest tt (registered s user (m + 1))) as [Hsub _].
      eapply lookup_weaken; [| exact Hsub]. cbn. apply lookup_insert_eq.
  - intros He. rewrite Hrun. apply bind_raise. now apply update_dict_empty.
Qed.

Lemma model_strategies_register_user_witness :
  userid_to_id (run_strategy Rec 1 5 Example.self0).1 !! 1%Z = Some 0%Z /\
  (exists m, is_max_index (userid_to_id Example.self0) m /\
             userid_to_id (run_strategy Own 42 5 Example.self0).1 !! 42%Z
             = Some (m + 1)%Z) /\
  run_strategy Own 42 5 Example.self0 = ((run_strategy Own 42 5 Example.self0).1,
                                         Raise AssertionError) /\
  run_strategy Rec 7 3 Example.self_empty = (Example.self_empty, Raise ValueError).
Proof.
  assert (Hne : userid_to_id Example.self0 <> ∅).
  { intros H. apply (f_equal (fun d => d !! 1%Z)) in H. vm_compute in H. discriminate H. }
  split; [| split; [| split]].
  - apply (proj1 (model_strategies_register_user Rec 1 5 Example.self0 (or_introl eq_refl))
             Hne).
  - apply (proj1 (model_strategies_register_user Own 42 5 Example.self0
                    (or_intror eq_refl)) Hne).
  - vm_compute. reflexivity.
  - apply (proj2 (model_strategies_register_user Rec 7 3 Example.self_empty
                    (or_introl eq_refl))).
    reflexivity.
Defined.

(** ** Edge cases of the strategies *)

Lemma run_strategy_ok (st : Strategy) (user : Z) (N : nat) (s s' : MainRecommender)
    (res : list Z) :
  run_strategy st user N s = (s', Ok res) ->
  exists raw, raw_output st user N s = (s', Ok raw) /\
              res = with_fallback s' raw N /\ length res = N.
Proof.
  rewrite run_strategy_split. intros H.
  apply bind_inv_ok in H as (s1 & raw & Hraw & H).
  rewrite fallback_then_assert in H.
  destruct (length (with_fallback s1 raw N) =? N) eqn:E; [| discriminate H].
  injection H as <- <-. exists raw. repeat split; [exact Hraw | now apply Nat.eqb_eq].
Qed.

Lemma filter_none {A : Type} (f : A -> bool) (l : list A) :
  (forall x, In x l -> f x = false) -> List.filter f l = [].
Proof.
  induction l as [| x l IH]; cbn; [reflexivity |]. intros H.
  rewrite (H x) by now left. apply IH. intros y Hy. apply H. now right.
Qed.

(** X8. For a user without a row in the top-purchases table (no
    purchases, or only the placeholder), the similar-items strategy asks
    the model nothing and leaves the object untouched: it returns the
    first N entries of the popularity ranking, or raises the assertion
    error when the ranking has fewer than N entries. *)
Theorem similar_items_cold_start (user : Z) (N : nat) (s : MainRecommender) :
  (forall row, In row (top_purchases s) -> tp_user_id row <> user) ->
  get_similar_items_recommendation user N s
  = (s, if N <=? length (overall_top_purchases s)
        then Ok (firstn N (overall_top_purchases s))
        else Raise AssertionError).
Proof.
  intros Hnone. change (get_similar_items_recommendation user N s)
    with (run_strategy Itm user N s).
  rewrite run_strategy_split.
  assert (Hraw : raw_output Itm user N s = (s, Ok [])).
  { cbn [raw_output]. unfold bind, get_self. rewrite filter_none.
    - now rewrite firstn_nil.
    - intros row Hrow. apply Z.eqb_neq. now apply Hnone. }
  rewrite (bind_ok _ _ _ _ _ Hraw), fallback_then_assert.
  unfold with_fallback. cbn [length app]. rewrite Nat.sub_0_r.
  destruct (Nat.ltb_spec 0 N) as [Hpos | Hzero].
  - rewrite length_firstn.
    destruct (Nat.leb_spec N (length (overall_top_purchases s))) as [Hle | Hlt].
    + replace (Nat.min N (length (overall_top_purchases s)) =? N) with true;
        [reflexivity |]. symmetry. apply Nat.eqb_eq. lia.
    + replace (Nat.min N (length (overall_top_purchases s)) =? N) with false;
        [reflexivity |]. symmetry. apply Nat.eqb_neq. lia.
  - assert (N = 0) as -> by lia. reflexivity.
Qed.

Lemma similar_items_cold_start_witness :
  get_similar_items_recommendation 42 2 Example.self0
  = (Example.self0, Ok (firstn 2 (overall_top_purchases Example.self0))) /\
  get_similar_items_recommendation 42 4 Example.self0
  = (Example.self0, Raise AssertionError).
Proof.
  assert (Hnone : forall row, In row (top_purchases Example.self0) -> tp_user_id row <> 42%Z).
  { intros row Hrow. vm_compute in Hrow.
    repeat (destruct Hrow as [<- | Hrow]; [discriminate |]). destruct Hrow. }
  split.
  - apply (similar_items_cold_start 42 2 Example.self0 Hnone).
  - apply (similar_items_cold_start 42 4 Example.self0 Hnone).
Defined.

Lemma extend_own_recommendations_length (users acc : list Z) (s s' : MainRecommender)
    (res : list Z) :
  extend_own_recommendations acc users s = (s', Ok res) ->
  length res = length acc + length users.
Proof.
  revert acc s. induction users as [| u users IH]; intros acc s; cbn.
  - intros [= _ <-]. lia.
  - intros H. apply bind_inv_ok in H as (s1 & own & Hown & H).
    apply (run_strategy_ok Own) in Hown as (_ & _ & _ & Hlen).
    apply IH in H. rewrite H, length_app, Hlen. lia.
Qed.

Lemma extend_own_recommendations_items (users acc : list Z) (s s' : MainRecommender)
    (res : list Z) :
  extend_own_recommendations acc users s = (s', Ok res) ->
  exists items, res = acc ++ items /\ neighbour_items users s items s'.
Proof.
  revert acc s. induction users as [| u users IH]; intros acc s; cbn.
  - intros [= <- <-]. exists []. split; [now rewrite app_nil_r | reflexivity].
  - intros H. apply bind_inv_ok in H as (s1 & own & Hown & H).
    destruct (run_strategy_ok Own _ _ _ _ _ Hown) as (_ & _ & _ & Hlen).
    destruct own as [| x [| y own]]; try discriminate Hlen.
    destruct (IH _ _ H) as (items & -> & Hitems).
    exists (x :: items). split; [now rewrite <- app_assoc |].
    cbn. exists s1. split; [exact Hown | exact Hitems].
Qed.

(** X9. When the similar-users strategy returns, the model had answered
    the query for the user's index with k <= N + 1 rows, every row index
    maps to a user id through [id_to_userid], and the first of these user
    ids (the query user itself) is dropped.  For the remaining k - 1
    neighbours, in the model's order, [get_own_recommendations(.., N=1)]
    was called, each call on the object the previous one left, and gave
    exactly one item; the output is these k - 1 items in that order,
    followed by the first N - (k - 1) entries of the popularity ranking. *)
Theorem similar_users_one_item_per_neighbour (user : Z) (N : nat)
    (s s' : MainRecommender) (res : list Z) :
  get_similar_users_recommendation user N s = (s', Ok res) ->
  exists mdl idx users items,
    model s = Some mdl /\ userid_to_id s !! user = Some idx /\
    Forall2 (fun rec u => id_to_userid s !! rec.1 = Some u)
            (similar_users mdl idx (N + 1)) users /\
    neighbour_items (skipn 1 users) s items s' /\
    res = items ++ firstn (N - length items) (overall_top_purchases s) /\
    length items = length (similar_users mdl idx (N + 1)) - 1 /\
    length (similar_users mdl idx (N + 1)) <= N + 1 /\
    skipn (length (similar_users mdl idx (N + 1)) - 1) res
    = firstn (N - (length (similar_users mdl idx (N + 1)) - 1)) (overall_top_purchases s).
Proof.
  intros Hrun. apply (run_strategy_ok Usr) in Hrun as (raw & Hraw & -> & Hlen).
  pose proof (keeps_frame_raw_output Usr user N s) as F. rewrite Hraw in F. cbn in F.
  destruct F as (_ & _ & _ & _ & Etop & _).
  cbn [raw_output] in Hraw.
  apply bind_inv_ok in Hraw as (? & self & [= <- <-] & Hraw).
  apply bind_inv_ok in Hraw as (s1 & mdl & Hmdl & Hraw).
  destruct (model s) as [m |] eqn:Em; [| discriminate Hmdl]. injection Hmdl as <- <-.
  apply bind_inv_ok in Hraw as (s2 & idx & Hidx & Hraw).
  unfold getitem in Hidx. destruct (userid_to_id s !! user) as [i |] eqn:Eu;
    [| discriminate Hidx]. injection Hidx as <- <-.
  apply bind_inv_ok in Hraw as (s3 & users & Hus & Hraw).
  pose proof (mapM_length _ _ _ _ _ Hus) as Hk.
  apply mapM_read_only in Hus as [-> HF]; [| intros a; apply read_only_getitem].
  apply extend_own_recommendations_items in Hraw as (items & Hitems & Hchain).
  cbn [app] in Hitems. subst raw.
  assert (Hcount : forall l it (a b : MainRecommender),
             neighbour_items l a it b -> length it = length l).
  { induction l as [| u l IH]; intros [| x it] a b; cbn; try tauto.
    intros (a1 & _ & H). f_equal. eapply IH, H. }
  assert (Hn : length items = length (similar_users m i (N + 1)) - 1).
  { rewrite (Hcount _ _ _ _ Hchain). destruct users; cbn in *; lia. }
  exists m, i, users, items. split; [reflexivity |]. split; [reflexivity |]. split.
  { clear -HF. induction HF as [| rec u l1 l2 Hget HF IH]; constructor; [| exact IH].
    unfold getitem in Hget. destruct (id_to_userid s !! rec.1); [| discriminate Hget].
    now injection Hget as ->. }
  split; [exact Hchain |]. rewrite <- Hn.
  unfold with_fallback in *. rewrite Etop in *.
  destruct (length items <? N) eqn:E.
  - apply Nat.ltb_lt in E. split; [reflexivity |]. split; [reflexivity |].
    split; [lia |]. now rewrite skipn_app, Nat.sub_diag, skipn_all.
  - apply Nat.ltb_ge in E. replace (N - length items) with 0 by lia.
    split; [now rewrite app_nil_r |]. split; [reflexivity |]. split; [lia |].
    now rewrite skipn_all.
Qed.

(** User 1 of the example: the model answers with its own index and that
    of user 2; user 2 contributes item 10, and 10, 20 follow from the
    popularity ranking. *)
Lemma similar_users_one_item_per_neighbour_witness :
  exists mdl idx users items,
    model Example.self0 = Some mdl /\ userid_to_id Example.self0 !! 1%Z = Some idx /\
    Forall2 (fun rec u => id_to_userid Example.self0 !! rec.1 = Some u)
            (similar_users mdl idx (3 + 1)) users /\
    neighbour_items (skipn 1 users) Example.self0 items Example.self0 /\
    [10; 10; 20]%Z = items ++ firstn (3 - length items)
                                (overall_top_purchases Example.self0) /\
    length items = length (similar_users mdl idx (3 + 1)) - 1 /\
    length (similar_users mdl idx (3 + 1)) <= 3 + 1 /\
    skipn (length (similar_users mdl idx (3 + 1)) - 1) [10; 10; 20]%Z
    = firstn (3 - (length (similar_users mdl idx (3 + 1)) - 1))
             (overall_top_purchases Example.self0).
Proof.
  apply (similar_users_one_item_per_neighbour 1 3 Example.self0 Example.self0
           [10; 10; 20]%Z).
  vm_compute. reflexivity.
Defined.

(** ** Where recommended ids come from *)

Lemma known_item_frame (s s' : MainRecommender) (x : Z) :
  same_frame s s' -> known_item s' x -> known_item s x.
Proof. intros (_ & E1 & _ & _ & E2 & _). unfold known_item. now rewrite E1, E2. Qed.

Lemma mapM_getitem_values {A : Type} (d : gmap Z Z) (g : A -> Z) (l : list A)
    (s s' : MainRecommender) (vals : list Z) (x : Z) :
  mapM (fun a => getitem d (g a)) l s = (s', Ok vals) -> In x vals ->
  exists a, In a l /\ d !! g a = Some x.
Proof.
  intros H Hx. apply mapM_read_only in H as [_ HF]; [| intros a; apply read_only_getitem].
  destruct (Forall2_In_right _ _ _ _ HF Hx) as (a & Ha & Hget).
  exists a. split; [exact Ha |]. unfold getitem in Hget.
  destruct (d !! g a); [now injection Hget as -> | discriminate Hget].
Qed.

Lemma get_recommendations_aux_known (user : Z) (mdl : option Model) (N : nat)
    (s s' : MainRecommender) (res : list Z) (x : Z) :
  _get_recommendations user mdl N s = (s', Ok res) -> In x res -> known_item s x.
Proof.
  intros Hrun Hx. unfold _get_recommendations in Hrun.
  apply bind_inv_ok in Hrun as (s1 & [] & Hupd & Hrun).
  pose proof (keeps_frame_update_dict user s) as F. rewrite Hupd in F. cbn in F.
  apply (known_item_frame s s1 x F).
  apply bind_inv_ok in Hrun as (? & self1 & [= <- <-] & Hrun).
  apply bind_inv_ok in Hrun as (s2 & mdl' & Hmdl & Hrun).
  destruct mdl as [m |]; [| discriminate Hmdl]. injection Hmdl as <- <-.
  apply bind_inv_ok in Hrun as (s2 & userid & Hu & Hrun).
  pose proof (read_only_getitem (userid_to_id s1) user s1) as R. rewrite Hu in R.
  cbn in R. subst s2.
  apply bind_inv_ok in Hrun as (s2 & ph & Hph & Hrun).
  pose proof (read_only_getitem (itemid_to_id s1) 999999%Z s1) as R. rewrite Hph in R.
  cbn in R. subst s2.
  apply bind_inv_ok in Hrun as (s2 & raw & Hraw & Hrun).
  pose proof (mapM_read_only _ _ _ _ _ (fun a => read_only_getitem _ _) Hraw) as [-> _].
  rewrite fallback_then_assert in Hrun.
  destruct (length (with_fallback s1 raw N) =? N); [| discriminate Hrun].
  injection Hrun as _ <-.
  apply with_fallback_In in Hx as [Hx | Hx]; [left | now right].
  destruct (mapM_getitem_values _ _ _ _ _ _ x Hraw Hx) as (k & _ & Hk). eauto.
Qed.

Lemma get_own_recommendations_known (user : Z) (N : nat) (s s' : MainRecommender)
    (res : list Z) (x : Z) :
  get_own_recommendations user N s = (s', Ok res) -> In x res -> known_item s x.
Proof.
  intros Hrun Hx. unfold get_own_recommendations in Hrun.
  apply bind_inv_ok in Hrun as (s1 & [] & Hupd & Hrun).
  pose proof (keeps_frame_update_dict user s) as F. rewrite Hupd in F. cbn in F.
  apply (known_item_frame s s1 x F).
  apply bind_inv_ok in Hrun as (? & self1 & [= <- <-] & Hrun).
  eapply get_recommendations_aux_known; eassumption.
Qed.

Lemma extend_own_recommendations_known (users acc : list Z) (s s' : MainRecommender)
    (res : list Z) (x : Z) :
  extend_own_recommendations acc users s = (s', Ok res) -> In x res ->
  In x acc \/ known_item s x.
Proof.
  revert acc s. induction users as [| u users IH]; intros acc s; cbn.
  - intros [= _ <-] Hx. now left.
  - intros H Hx. apply bind_inv_ok in H as (s1 & own & Hown & H).
    pose proof (keeps_frame_get_own_recommendations u 1 s) as F.
    rewrite Hown in F. cbn in F.
    destruct (IH _ _ H Hx) as [Hin | Hk].
    + apply in_app_or in Hin as [Hin | Hin]; [now left | right].
      eapply get_own_recommendations_known; eassumption.
    + right. eapply known_item_frame; eassumption.
Qed.

Lemma get_similar_item_known (item : Z) (s s' : MainRecommender) (r : Z) :
  _get_similar_item item s = (s', Ok r) -> exists i, id_to_itemid s !! i = Some r.
Proof.
  unfold _get_similar_item. intros H.
  apply bind_inv_ok in H as (? & self & [= <- <-] & H).
  apply bind_inv_ok in H as (s1 & mdl & _ & H).
  apply bind_inv_ok in H as (s2 & idx & _ & H).
  apply bind_inv_ok in H as (s3 & rec & _ & H).
  unfold getitem in H. destruct (id_to_itemid s !! rec.1) as [y |] eqn:E; [| discriminate H].
  injection H as _ <-. eauto.
Qed.

Lemma init_known_items
    (als bpr ii cosine tfidf_rec : Params -> DataFrame -> result Model)
    (bm25 tfidf : DataFrame -> DataFrame) (data : list Interaction)
    (weighting model_type own_type : string) (params own_params : option Params)
    (mode : string) (self : MainRecommender) (x : Z) :
  __init__ als bpr ii cosine tfidf_rec bm25 tfidf data weighting model_type own_type
           params own_params mode = Ok self ->
  known_item self x -> In x (map item_id data).
Proof.
  intros Hinit. destruct (init_fields _ _ _ _ _ _ _ _ _ _ _ _ _ _ _ Hinit)
    as (df & Hdf & Hd & _ & Htop & _).
  destruct (prepare_matrix_labels _ _ _ Hdf) as [_ Hcol].
  unfold _prepare_dicts in Hd. rewrite Hcol in Hd. injection Hd as Hi _ _ _.
  intros [[i Hx] | Hx].
  - rewrite Hi in Hx. apply py_dict_arange_lookup in Hx as (k & _ & Hk).
    apply nth_error_In in Hk. now rewrite sorted_unique_In in Hk.
  - rewrite Htop in Hx. apply in_map_iff in Hx as (p & <- & Hp).
    apply filter_In in Hp as [Hp _].
    apply (Permutation_in _ (sort_by_perm _ _)) in Hp.
    unfold count_by_item in Hp. apply in_map_iff in Hp as (i & <- & Hin).
    now rewrite sorted_unique_In in Hin.
Qed.

(** X10. Every id a strategy returns is a value of [id_to_itemid] or an
    entry of the popularity ranking of the object it was called on; for an
    object built by [__init__], also after any number of calls, every
    returned id is therefore an item id that occurs in the data. *)
Theorem strategies_recommend_known_items
    (als bpr ii cosine tfidf_rec : Params -> DataFrame -> result Model)
    (bm25 tfidf : DataFrame -> DataFrame) (data : list Interaction)
    (weighting model_type own_type : string) (params own_params : option Params)
    (mode : string) (self0 : MainRecommender)
    (st : Strategy) (user : Z) (N : nat) (s s' : MainRecommender) (res : list Z) :
  run_strategy st user N s = (s', Ok res) ->
  (forall x, In x res -> known_item s x) /\
  (__init__ als bpr ii cosine tfidf_rec bm25 tfidf data weighting model_type own_type
            params own_params mode = Ok self0 ->
   same_frame self0 s ->
   forall x, In x res -> In x (map item_id data)).
Proof.
  intros Hrun.
  assert (Hknown : forall x, In x res -> known_item s x).
  { intros x Hx. destruct st; cbn [run_strategy] in Hrun.
    - unfold get_recommendations in Hrun.
      apply bind_inv_ok in Hrun as (s1 & [] & Hupd & Hrun).
      pose proof (keeps_frame_update_dict user s) as F. rewrite Hupd in F. cbn in F.
      apply (known_item_frame s s1 x F).
      apply bind_inv_ok in Hrun as (? & self1 & [= <- <-] & Hrun).
      eapply get_recommendations_aux_known; eassumption.
    - eapply get_own_recommendations_known; eassumption.
    - apply (run_strategy_ok Itm) in Hrun as (raw & Hraw & -> & _).
      cbn [raw_output] in Hraw. unfold bind at 1, get_self in Hraw.
      pose proof (mapM_read_only _ _ _ _ _
                    (fun row => read_only_get_similar_item (tp_item_id row)) Hraw)
        as [-> HF].
      apply with_fallback_In in Hx as [Hx | Hx]; [left | now right].
      destruct (Forall2_In_right _ _ _ _ HF Hx) as (row & _ & Hitem).
      eapply get_similar_item_known, Hitem.
    - apply (run_strategy_ok Usr) in Hrun as (raw & Hraw & -> & _).
      pose proof (keeps_frame_raw_output Usr user N s) as F. rewrite Hraw in F. cbn in F.
      apply with_fallback_In in Hx as [Hx | Hx];
        [| eapply known_item_frame; [exact F | now right]].
      cbn [raw_output] in Hraw.
      apply bind_inv_ok in Hraw as (? & self & [= <- <-] & Hraw).
      apply bind_inv_ok in Hraw as (s1 & mdl & Hmdl & Hraw).
      destruct (model s) as [m |]; [| discriminate Hmdl]. injection Hmdl as <- <-.
      apply bind_inv_ok in Hraw as (s2 & idx & Hidx & Hraw).
      pose proof (read_only_getitem (userid_to_id s) user s) as R. rewrite Hidx in R.
      cbn in R. subst s2.
      apply bind_inv_ok in Hraw as (s2 & users & Hus & Hraw).
      pose proof (mapM_read_only _ _ _ _ _ (fun a => read_only_getitem _ _) Hus) as [-> _].
      destruct (extend_own_recommendations_known _ _ _ _ _ x Hraw Hx) as [[] | Hk].
      exact Hk. }
  split; [exact Hknown |].
  intros Hinit Hframe x Hx.
  eapply init_known_items; [exact Hinit |].
  eapply known_item_frame; [exact Hframe | now apply Hknown].
Qed.

Lemma strategies_recommend_known_items_witness :
  run_strategy Itm 1 3 Example.self0 = (Example.self0, Ok [20; 999999; 10]%Z) /\
  In 20%Z (map item_id Example.data).
Proof.
  assert (Hrun : run_strategy Itm 1 3 Example.self0
                 = (Example.self0, Ok [20; 999999; 10]%Z)) by (vm_compute; reflexivity).
  split; [exact Hrun |].
  apply (proj2 (strategies_recommend_known_items
                  (Example.trainer 5) (Example.trainer 5) (Example.trainer 1)
                  (Example.trainer 1) (Example.trainer 1) (fun m => m) (fun m => m)
                  Example.data "none" "als" "item-item" None None "binary"
                  Example.self0 Itm 1 3 Example.self0 Example.self0 [20; 999999; 10]%Z
                  Hrun)).
  - vm_compute. reflexivity.
  - apply same_frame_refl.
  - cbn. tauto.
Defined.

(** ** The evaluator on recognised tags *)

Lemma get_recommend_eval_dispatch (rows : list EvalRow) (target tag : string) (N : nat)
    (s : MainRecommender) :
  _get_recommend_eval rows target tag N s
  = match strategy_of_tag tag with
    | Some st =>
        (users <- eval_column rows target ;;
         col <- mapM (fun x => run_strategy st x N) users ;;
         ret (Some (set_result_col rows col))) s
    | None => (s, Ok None)
    end.
Proof.
  unfold _get_recommend_eval, strategy_of_tag.
  repeat match goal with |- context [String.eqb tag ?t] => destruct (String.eqb tag t) end;
    reflexivity.
Qed.

Lemma legacy_evalMetrics_dispatch (recall precision : list Z -> list Z -> nat -> Q)
    (metric : string) (df : list Interaction) (target tag : string) (N : nat)
    (s : MainRecommender) :
  Legacy.evalMetrics recall precision metric df target tag N s
  = match strategy_of_tag tag with
    | Some st =>
        (users <- eval_column (_get_result df) target ;;
         col <- mapM (fun x => run_strategy st x N) users ;;
         (if String.eqb metric "recall" then
            metric_column recall result_col (set_result_col (_get_result df) col) N
          else if String.eqb metric "precision" then
            metric_column precision result_col (set_result_col (_get_result df) col) N
          else ret (VStr Legacy.not_empty_message))) s
    | None => (s, Ok (VStr Legacy.not_empty_message))
    end.
Proof.
  unfold Legacy.evalMetrics, Legacy._get_result_matcher, strategy_of_tag.
  repeat match goal with |- context [String.eqb tag ?t] => destruct (String.eqb tag t) end;
    reflexivity.
Qed.

(** X11. On a recognised strategy tag and a recognised metric tag the
    current [evalMetrics] and the legacy one do the same: same returned
    value or raised error, same object afterwards. *)
Theorem evalMetrics_agrees_with_legacy (recall precision : list Z -> list Z -> nat -> Q)
    (metric : string) (df : list Interaction) (target tag : string) (N : nat)
    (s : MainRecommender) :
  known_strategy tag -> known_metric metric ->
  evalMetrics recall precision metric df target tag N s
  = Legacy.evalMetrics recall precision metric df target tag N s.
Proof.
  intros Ht Hm. rewrite legacy_evalMetrics_dispatch. unfold evalMetrics.
  assert (Hst : exists st, strategy_of_tag tag = Some st).
  { destruct Ht as [-> | [-> | [-> | ->]]]; eexists; reflexivity. }
  destruct Hst as [st Hst]. rewrite Hst.
  transitivity
    (bind (fun s0 => match strategy_of_tag tag with
                     | Some st0 =>
                         (users <- eval_column (_get_result df) target ;;
                          col <- mapM (fun x => run_strategy st0 x N) users ;;
                          ret (Some (set_result_col (_get_result df) col))) s0
                     | None => (s0, Ok None)
                     end)
          (fun result_eval =>
             if String.eqb metric "recall" then
               match result_eval with
               | None => raise AttributeError
               | Some result_eval => metric_column recall result_col result_eval N
               end
             else if String.eqb metric "precision" then
               match result_eval with
               | None => raise AttributeError
               | Some result_eval => metric_column precision result_col result_eval N
               end
             else ret VNone) s).
  { unfold bind at 1 3. now rewrite get_recommend_eval_dispatch. }
  rewrite Hst.
  repeat (rewrite bind_assoc; apply bind_ext; intros ? ?).
  destruct Hm as [-> | ->]; reflexivity.
Qed.

Lemma evalMetrics_agrees_with_legacy_witness :
  evalMetrics Example.recall0 Example.recall0 "precision" Example.data "user_id" "usr" 3
    Example.self0
  = Legacy.evalMetrics Example.recall0 Example.recall0 "precision" Example.data "user_id"
      "usr" 3 Example.self0.
Proof.
  apply evalMetrics_agrees_with_legacy.
  - unfold known_strategy. tauto.
  - unfold known_metric. tauto.
Defined.

Lemma set_result_col_In (rows : list EvalRow) (col : list (list Z)) (row : EvalRow) :
  In row (set_result_col rows col) ->
  exists row0 v, In (row0, v) (combine rows col) /\ actual row = actual row0 /\
                 result_col row = Some v.
Proof.
  unfold set_result_col. intros H. apply in_map_iff in H as ([row0 v] & <- & Hin).
  exists row0, v. repeat split. exact Hin.
Qed.

Lemma mean_nonempty (l : list Q) :
  l <> [] -> mean l = VFloat (Qsum l / inject_Z (Z.of_nat (length l))).
Proof. destruct l; [contradiction | reflexivity]. Qed.

(** X12. On a non-empty test table, when the strategy selected by the
    tag runs through for the users of the table, taken in ascending order
    of user id, each call starting from the object the previous one left,
    [evalMetrics] returns the plain mean over these users of the metric
    applied to the user's list, the user's distinct test items and
    k = N_PREDICT. *)
Theorem evalMetrics_is_mean (recall precision : list Z -> list Z -> nat -> Q)
    (df : list Interaction) (tag : string) (st : Strategy) (N : nat)
    (s s' : MainRecommender) (cols : list (list Z)) :
  df <> [] ->
  strategy_of_tag tag = Some st ->
  mapM (fun u => run_strategy st u N) (sorted_unique (map user_id df)) s = (s', Ok cols) ->
  let scores (metric : list Z -> list Z -> nat -> Q) :=
    map (fun '(row, recs) => metric recs (actual row) N) (combine (_get_result df) cols) in
  evalMetrics recall precision "recall" df "user_id" tag N s
  = (s', Ok (VFloat (Qsum (scores recall)
                     / inject_Z (Z.of_nat (length (sorted_unique (map user_id df))))))) /\
  evalMetrics recall precision "precision" df "user_id" tag N s
  = (s', Ok (VFloat (Qsum (scores precision)
                     / inject_Z (Z.of_nat (length (sorted_unique (map user_id df))))))).
Proof.
  intros Hne Hst Hcols scores.
  assert (Hbase : _get_recommend_eval (_get_result df) "user_id" tag N s
                  = (s', Ok (Some (set_result_col (_get_result df) cols)))).
  { rewrite get_recommend_eval_dispatch, Hst. unfold eval_column.
    cbn [String.eqb Ascii.eqb Bool.eqb]. unfold bind at 1. cbn [ret].
    rewrite get_result_user_ids. now rewrite (bind_ok _ _ _ _ _ Hcols). }
  assert (Hlen : forall metric,
             length (scores metric) = length (sorted_unique (map user_id df))).
  { intros metric. unfold scores. rewrite length_map, length_combine.
    apply mapM_length in Hcols. rewrite Hcols, <- get_result_user_ids, length_map. lia. }
  assert (Hpos : forall metric, scores metric <> []).
  { intros metric He. specialize (Hlen metric). rewrite He in Hlen. cbn in Hlen.
    destruct df as [| r df]; [contradiction |].
    assert (Hin : In (user_id r) (sorted_unique (map user_id (r :: df))))
      by (apply sorted_unique_In; now left).
    destruct (sorted_unique (map user_id (r :: df))); [destruct Hin | discriminate Hlen]. }
  assert (Hcol : forall metric,
             metric_column metric result_col (set_result_col (_get_result df) cols) N s'
             = (s', Ok (VFloat (Qsum (scores metric)
                  / inject_Z (Z.of_nat (length (sorted_unique (map user_id df)))))))).
  { intros metric. rewrite <- (Hlen metric), <- (mean_nonempty _ (Hpos metric)).
    unfold metric_column, bind at 1.
    rewrite (mapM_pure_in _ (fun row => metric (default [] (result_col row)) (actual row) N)).
    - unfold ret, set_result_col, scores. rewrite map_map. f_equal. f_equal. f_equal.
      apply map_ext. intros [row v]. reflexivity.
    - intros row Hrow s1. apply set_result_col_In in Hrow as (row0 & v & _ & _ & Hv).
      unfold bind, row_getitem. now rewrite Hv. }
  unfold evalMetrics. rewrite !(bind_ok _ _ _ _ _ Hbase).
  split; cbv beta; cbn [String.eqb Ascii.eqb Bool.eqb]; apply Hcol.
Qed.

Lemma evalMetrics_is_mean_witness :
  evalMetrics Example.recall0 Example.recall0 "recall" Example.data "user_id" "own" 3
    Example.self0
  = (Example.self0,
     Ok (VFloat (Qsum (map (fun '(row, recs) => Example.recall0 recs (actual row) 3)
                           (combine (_get_result Example.data)
                                    [[10; 10; 20]; [10; 10; 20]]%Z))
                 / inject_Z (Z.of_nat (length (sorted_unique (map user_id Example.data))))))).
Proof.
  apply (proj1 (evalMetrics_is_mean Example.recall0 Example.recall0 Example.data "own" Own 3
                  Example.self0 Example.self0 [[10; 10; 20]; [10; 10; 20]]%Z
                  ltac:(discriminate) eq_refl ltac:(vm_compute; reflexivity))).
Defined.

(** ** Ground truth *)

Lemma unique_In (l : list Z) (x : Z) : In x (unique l) <-> In x l.
Proof.
  induction l as [| y l IH]; cbn; [reflexivity |].
  rewrite filter_In, IH. destruct (Z.eqb_spec x y) as [-> | Hne]; cbn; intuition congruence.
Qed.

Lemma unique_NoDup (l : list Z) : NoDup (unique l).
Proof.
  induction l as [| y l IH]; cbn; [constructor |].
  apply NoDup_cons. split; [| now apply NoDup_list_filter].
  intros H. apply list_elem_of_In, filter_In in H as [_ H].
  rewrite Z.eqb_refl in H. discriminate H.
Qed.

(** X13. [_get_result] has one row per distinct user of the test table,
    in strictly ascending order of user id; the row's [actual] lists,
    without repetition, exactly the items of that user's records (the
    placeholder included when the user has it), so it is never empty. *)
Theorem get_result_ground_truth (df_result : list Interaction) :
  StronglySorted Z.lt (map ev_user_id (_get_result df_result)) /\
  (forall u, In u (map ev_user_id (_get_result df_result)) <-> In u (map user_id df_result)) /\
  (forall row, In row (_get_result df_result) ->
     NoDup (actual row) /\ actual row <> [] /\
     forall x, In x (actual row)
               <-> exists r, In r df_result /\ user_id r = ev_user_id row /\ item_id r = x).
Proof.
  rewrite get_result_user_ids. split; [apply sorted_unique_sorted |].
  split; [intros u; apply sorted_unique_In |].
  intros row Hrow. unfold _get_result in Hrow. apply in_map_iff in Hrow as (u & <- & Hu).
  cbn [actual ev_user_id]. rewrite sorted_unique_In in Hu.
  assert (Hin : forall x, In x (unique (map item_id
                            (List.filter (fun r => (user_id r =? u)%Z) df_result)))
                          <-> exists r, In r df_result /\ user_id r = u /\ item_id r = x).
  { intros x. rewrite unique_In, in_map_iff. split.
    - intros (r & <- & Hr). apply filter_In in Hr as [Hr Hru].
      exists r. repeat split; [exact Hr | now apply Z.eqb_eq].
    - intros (r & Hr & Hru & <-). exists r. split; [reflexivity |].
      apply filter_In. split; [exact Hr | now apply Z.eqb_eq]. }
  split; [apply unique_NoDup |]. split; [| exact Hin].
  apply in_map_iff in Hu as (r & <- & Hr). intros He.
  assert (Hx : In (item_id r) []); [| destruct Hx].
  rewrite <- He. apply Hin. exists r. auto.
Qed.

Lemma get_result_ground_truth_witness :
  NoDup [10; 30; 999999]%Z /\ [10; 30; 999999]%Z <> [] /\
  forall x, In x [10; 30; 999999]%Z
            <-> exists r, In r Example.data /\ user_id r = 1%Z /\ item_id r = x.
Proof.
  apply (proj2 (proj2 (get_result_ground_truth Example.data))
           (mkEvalRow 1 [10; 30; 999999]%Z None None)).
  vm_compute. tauto.
Defined.

(** ** Re-ranking and the order of the score table *)

Lemma HdRel_In {A : Type} (R : A -> A -> Prop) (a : A) (l : list A) :
  (forall x, In x l -> R a x) -> HdRel R a l.
Proof. destruct l; constructor. apply H. now left. Qed.

(** Two sorted lists with the same elements are equal when the order
    relation identifies only equal elements. *)
Lemma sorted_perm_unique {A : Type} (R : A -> A -> Prop) (l1 l2 : list A) :
  (forall a b, In a l1 -> In b l1 -> R a b -> R b a -> a = b) ->
  StronglySorted R l1 -> StronglySorted R l2 -> Permutation l1 l2 -> l1 = l2.
Proof.
  intros Hanti Hs1. revert l2. induction Hs1 as [| a l1 Hs1 IH Hall1]; intros l2 Hs2 Hperm.
  - now apply Permutation_nil in Hperm.
  - destruct Hs2 as [| b l2 Hs2 Hall2]; [now apply Permutation_sym, Permutation_nil in Hperm |].
    rewrite Forall_forall in Hall1. rewrite Forall_forall in Hall2.
    assert (Hab : a = b).
    { assert (Ha : In a (b :: l2)) by (eapply Permutation_in; [exact Hperm | now left]).
      assert (Hb : In b (a :: l1))
        by (eapply Permutation_in; [symmetry; exact Hperm | now left]).
      destruct Ha as [Ha | Ha]; [now symmetry |].
      destruct Hb as [Hb | Hb]; [exact Hb |].
      apply Hanti; [now left | now right | |].
      - now apply Hall1, list_elem_of_In.
      - now apply Hall2, list_elem_of_In. }
    subst b. f_equal. apply IH; [| exact Hs2 | now apply Permutation_cons_inv in Hperm].
    intros x y Hx Hy. apply Hanti; now right.
Qed.

Lemma filter_Permutation {A : Type} (f : A -> bool) (l1 l2 : list A) :
  Permutation l1 l2 -> Permutation (List.filter f l1) (List.filter f l2).
Proof.
  induction 1 as [| x l1 l2 _ IH | x y l | l1 l2 l3 _ IH1 _ IH2]; cbn.
  - reflexivity.
  - destruct (f x); [now apply perm_skip | exact IH].
  - destruct (f x), (f y); try reflexivity. apply perm_swap.
  - now transitivity (List.filter f l2).
Qed.

(** X14. When the scores of the rows selected for a user are pairwise
    different, the list [_rerank] returns does not depend on the order of
    the rows of the score table. *)
Theorem rerank_order_independent (user : Z) (df1 df2 : list ScoreRow) (target : string) :
  Permutation df1 df2 ->
  (forall col_eq r1 r2, score_col_eq target = Some col_eq ->
     In r1 df1 -> In r2 df1 -> col_eq r1 user = true -> col_eq r2 user = true ->
     (proba_item_purchase r1 == proba_item_purchase r2)%Q -> r1 = r2) ->
  _rerank user df1 target = _rerank user df2 target.
Proof.
  intros Hperm Hdistinct. unfold _rerank.
  destruct (score_col_eq target) as [col_eq |]; [| reflexivity].
  do 3 f_equal.
  set (f := fun row => col_eq row user).
  apply (sorted_perm_unique (fun a b => proba_geb a b = true)).
  - intros a b Ha Hb Hab Hba.
    apply (Permutation_in _ (sort_by_perm proba_geb _)), filter_In in Ha as [Ha Hfa].
    apply (Permutation_in _ (sort_by_perm proba_geb _)), filter_In in Hb as [Hb Hfb].
    apply (Hdistinct col_eq); try assumption; [reflexivity |].
    unfold proba_geb in *. apply Qle_bool_iff in Hab, Hba. now apply Qle_antisym.
  - apply sort_by_strongly_sorted; [apply proba_geb_total |].
    unfold proba_geb. intros x y z Hxy Hyz. apply Qle_bool_iff in Hxy, Hyz.
    apply Qle_bool_iff. eapply Qle_trans; eassumption.
  - apply sort_by_strongly_sorted; [apply proba_geb_total |].
    unfold proba_geb. intros x y z Hxy Hyz. apply Qle_bool_iff in Hxy, Hyz.
    apply Qle_bool_iff. eapply Qle_trans; eassumption.
  - rewrite !sort_by_perm. now apply filter_Permutation.
Qed.

Lemma rerank_order_independent_witness :
  _rerank 1 Example.df_predict "user_id" = _rerank 1 (rev Example.df_predict) "user_id".
Proof.
  apply rerank_order_independent.
  - apply Permutation_rev.
  - intros col_eq r1 r2 [= <-] H1 H2 Hu1 Hu2 Hq. cbn in H1, H2.
    destruct H1 as [<- | [<- | [<- | []]]], H2 as [<- | [<- | [<- | []]]];
      first [reflexivity | discriminate Hu1 | discriminate Hu2 | discriminate Hq].
Defined.

(** ** Latent factors *)

Lemma skipn_nth_error_cons {A : Type} (l : list A) (a : nat) (x : A) :
  nth_error l a = Some x -> skipn a l = x :: skipn (S a) l.
Proof.
  revert a. induction l as [| y l IH]; intros [| a]; cbn; try discriminate.
  - now intros [= ->].
  - intros H. now rewrite (IH a H).
Qed.

(** Reading positions [a, a+1, ..] of a list through its index map. *)
Lemma mapM_getitem_seq (d : gmap Z Z) (l : list Z) (a n : nat) (s : MainRecommender) :
  (forall k x, nth_error l k = Some x -> d !! Z.of_nat k = Some x) ->
  a + n <= length l ->
  mapM (fun k => getitem d k) (map Z.of_nat (seq a n)) s
  = (s, Ok (firstn n (skipn a l))).
Proof.
  intros Hd. revert a. induction n as [| n IH]; intros a Hle; cbn; [reflexivity |].
  destruct (nth_error l a) as [x |] eqn:Hx;
    [| apply nth_error_None in Hx; lia].
  unfold bind at 1, getitem at 1. rewrite (Hd a x Hx). cbn [ret].
  unfold bind at 1. rewrite IH by lia. cbn [ret].
  now rewrite (skipn_nth_error_cons l a x Hx).
Qed.

Lemma mapM_getitem_seq_raises (d : gmap Z Z) (l : list Z) (a n : nat) (s : MainRecommender) :
  (forall k x, nth_error l k = Some x -> d !! Z.of_nat k = Some x) ->
  d !! Z.of_nat (length l) = None ->
  a <= length l -> length l < a + n ->
  mapM (fun k => getitem d k) (map Z.of_nat (seq a n)) s = (s, Raise KeyError).
Proof.
  intros Hd Hnone. revert a. induction n as [| n IH]; intros a Ha Hlt; cbn; [lia |].
  destruct (nth_error l a) as [x |] eqn:Hx.
  - unfold bind at 1, getitem at 1. rewrite (Hd a x Hx). cbn [ret].
    assert (a < length l) by (apply nth_error_Some; congruence).
    unfold bind at 1. now rewrite IH by lia.
  - apply nth_error_None in Hx. assert (a = length l) as -> by lia.
    unfold bind at 1, getitem at 1. now rewrite Hnone.
Qed.

Lemma py_dict_arange_nth (l : list Z) (k : nat) :
  py_dict (combine (arange (length l)) l) !! Z.of_nat k = nth_error l k.
Proof.
  destruct (nth_error l k) as [x |] eqn:Hx.
  - apply py_dict_arange_lookup. eauto.
  - destruct (py_dict _ !! Z.of_nat k) as [y |] eqn:Hy; [| reflexivity].
    apply py_dict_arange_lookup in Hy as (k' & Hk & Hy).
    apply Nat2Z.inj in Hk. subst k'. congruence.
Qed.

(** X15. For an object built by [__init__] (also after later calls) whose
    factorization model has at least one row of item factors and at most
    one per matrix column, [get_item_factors] labels row k with the k-th smallest item
    id of the data and leaves the object untouched; with more factor rows
    than items it raises KeyError. *)
Theorem get_item_factors_rows
    (als bpr ii cosine tfidf_rec : Params -> DataFrame -> result Model)
    (bm25 tfidf : DataFrame -> DataFrame) (data : list Interaction)
    (weighting model_type own_type : string) (params own_params : option Params)
    (mode : string) (self0 s : MainRecommender)
    (item_factors : Model -> list (list Q)) (mdl : Model) :
  __init__ als bpr ii cosine tfidf_rec bm25 tfidf data weighting model_type own_type
           params own_params mode = Ok self0 ->
  same_frame self0 s ->
  model s = Some mdl ->
  item_factors mdl <> [] ->
  get_item_factors item_factors s
  = (s, if length (item_factors mdl) <=? length (sorted_unique (map item_id data))
        then Ok {| ff_columns :=
                     "item_id" :: factor_columns "item_factor_"
                                    (length (hd [] (item_factors mdl)));
                   ff_rows :=
                     combine (firstn (length (item_factors mdl))
                                     (sorted_unique (map item_id data)))
                             (item_factors mdl) |}
        else Raise KeyError).
Proof.
  intros Hinit (_ & Eid & _) Hmdl _.
  destruct (init_fields _ _ _ _ _ _ _ _ _ _ _ _ _ _ _ Hinit) as (df & Hdf & Hd & _).
  destruct (prepare_matrix_labels _ _ _ Hdf) as [_ Hcol].
  unfold _prepare_dicts in Hd. rewrite Hcol in Hd. injection Hd as Hi _ _ _.
  rewrite <- Eid in Hi.
  unfold get_item_factors, bind at 1, get_self. rewrite Hmdl.
  unfold bind at 1. cbn [getattr_model ret]. unfold bind, arange.
  destruct (Nat.leb_spec (length (item_factors mdl))
              (length (sorted_unique (map item_id data)))) as [Hle | Hlt].
  - rewrite (mapM_getitem_seq _ (sorted_unique (map item_id data))); [reflexivity | | lia].
    intros k x Hk. now rewrite Hi, py_dict_arange_nth.
  - rewrite (mapM_getitem_seq_raises _ (sorted_unique (map item_id data)));
      [reflexivity | | | lia | lia].
    + intros k x Hk. now rewrite Hi, py_dict_arange_nth.
    + rewrite Hi, py_dict_arange_nth. apply nth_error_None. lia.
Qed.

Lemma get_item_factors_rows_witness :
  get_item_factors Example2.item_factors Example.self0
  = (Example.self0,
     Ok {| ff_columns := ["item_id"; "item_factor_0"; "item_factor_1"];
           ff_rows := [(10%Z, [1; 2]%Q); (20%Z, [3; 4]%Q); (30%Z, [5; 6]%Q);
                       (999999%Z, [7; 8]%Q)] |}) /\
  get_item_factors (fun _ => [[]; []; []; []; []]) Example.self0
  = (Example.self0, Raise KeyError).
Proof.
  assert (Hinit : Example.build "binary" = Ok Example.self0) by (vm_compute; reflexivity).
  split.
  - apply (get_item_factors_rows _ _ _ _ _ _ _ _ _ _ _ _ _ _ _ _
             Example2.item_factors (Example.toy_model 4 2 5) Hinit
             (same_frame_refl _) ltac:(vm_compute; reflexivity) ltac:(discriminate)).
  - apply (get_item_factors_rows _ _ _ _ _ _ _ _ _ _ _ _ _ _ _ _
             (fun _ => [[]; []; []; []; []]) (Example.toy_model 4 2 5) Hinit
             (same_frame_refl _) ltac:(vm_compute; reflexivity) ltac:(discriminate)).
Defined.

(** X16. For an object built by [__init__] whose user map has since only
    been extended (users registered by later calls), [get_user_factors]
    with at least one row of user factors and at most one per user of the
    data, labels
    row k with the k-th smallest user id of the data: users registered
    after construction do not shift the labels. *)
Theorem get_user_factors_rows
    (als bpr ii cosine tfidf_rec : Params -> DataFrame -> result Model)
    (bm25 tfidf : DataFrame -> DataFrame) (data : list Interaction)
    (weighting model_type own_type : string) (params own_params : option Params)
    (mode : string) (self0 s : MainRecommender)
    (user_factors : Model -> list (list Q)) (mdl : Model) :
  __init__ als bpr ii cosine tfidf_rec bm25 tfidf data weighting model_type own_type
           params own_params mode = Ok self0 ->
  id_to_userid self0 ⊆ id_to_userid s ->
  model s = Some mdl ->
  user_factors mdl <> [] ->
  length (user_factors mdl) <= length (sorted_unique (map user_id data)) ->
  get_user_factors user_factors s
  = (s, Ok {| ff_columns :=
                "user_id" :: factor_columns "user_factor_"
                               (length (hd [] (user_factors mdl)));
              ff_rows :=
                combine (firstn (length (user_factors mdl))
                                (sorted_unique (map user_id data)))
                        (user_factors mdl) |}).
Proof.
  intros Hinit Hsub Hmdl _ Hle.
  destruct (init_fields _ _ _ _ _ _ _ _ _ _ _ _ _ _ _ Hinit) as (df & Hdf & Hd & _).
  destruct (prepare_matrix_labels _ _ _ Hdf) as [Hidx _].
  unfold _prepare_dicts in Hd. rewrite Hidx in Hd. injection Hd as _ Hu _ _.
  unfold get_user_factors, bind at 1, get_self. rewrite Hmdl.
  unfold bind at 1. cbn [getattr_model ret]. unfold bind, arange.
  rewrite (mapM_getitem_seq _ (sorted_unique (map user_id data))); [reflexivity | | lia].
  intros k x Hk. eapply lookup_weaken; [| exact Hsub].
  now rewrite Hu, py_dict_arange_nth.
Qed.

Lemma get_user_factors_rows_witness :
  get_user_factors Example2.user_factors (run_strategy Own 42 5 Example.self0).1
  = ((run_strategy Own 42 5 Example.self0).1,
     Ok {| ff_columns := ["user_id"; "user_factor_0"; "user_factor_1"];
           ff_rows := [(1%Z, [1; 0]%Q); (2%Z, [0; 1]%Q)] |}).
Proof.
  assert (Hinit : Example.build "binary" = Ok Example.self0) by (vm_compute; reflexivity).
  apply (get_user_factors_rows _ _ _ _ _ _ _ _ _ _ _ _ _ _ _ _
           Example2.user_factors (Example.toy_model 4 2 5) Hinit).
  - apply (respects_run_strategy user_step user_step_refl user_step_trans
             user_step_update_dict Own 42%Z 5 Example.self0).
    apply (init_user_maps_inverse _ _ _ _ _ _ _ _ _ _ _ _ _ _ _ Hinit).
  - vm_compute. reflexivity.
  - discriminate.
  - vm_compute. lia.
Defined.

(** ** Construction and use without a factorization model *)

(** X17. For an interaction table with the columns user_id, item_id,
    quantity and sales_value, [__init__] raises AttributeError for an
    unrecognised value mode.  With a recognised mode, an error raised
    while the factorization model is fitted is raised by [__init__]; when
    that fit goes through, [__init__] ends as [fit_own_recommender] does:
    with the error it raises, which is AttributeError for an unrecognised
    own-recommender type, or with an object.  An unrecognised weighting is
    accepted and leaves the matrix unweighted; an unrecognised model type
    is accepted, no trainer being called, and leaves the object without a
    factorization model. *)
Theorem init_error_behaviour
    (als bpr ii cosine tfidf_rec : Params -> DataFrame -> result Model)
    (bm25 tfidf : DataFrame -> DataFrame) (data : list Interaction)
    (weighting model_type own_type : string) (params own_params : option Params)
    (mode : string) :
  let built := __init__ als bpr ii cosine tfidf_rec bm25 tfidf data weighting model_type
                        own_type params own_params mode in
  let weighted (df : DataFrame) :=
    if String.eqb weighting "bm25" then bm25 df
    else if String.eqb weighting "tfidf" then tfidf df else df in
  (mode <> "binary" -> mode <> "quantity" -> mode <> "purchase_sum" ->
   built = Raise AttributeError) /\
  (forall df, _prepare_matrix data mode = Ok df ->
     (forall e, fit als bpr (weighted df) model_type params = Raise e -> built = Raise e) /\
     (forall mdl, fit als bpr (weighted df) model_type params = Ok mdl ->
        (forall e, fit_own_recommender ii cosine tfidf_rec (weighted df) own_type own_params
                   = Raise e -> built = Raise e) /\
        (own_type <> "item-item" -> own_type <> "cosine" -> own_type <> "tfidf" ->
         built = Raise AttributeError) /\
        (forall own, fit_own_recommender ii cosine tfidf_rec (weighted df) own_type
                       own_params = Ok own ->
           exists self, built = Ok self /\ model self = mdl /\ own_recommender self = own /\
                        user_item_matrix self = weighted df))) /\
  (forall df, model_type <> "als" -> model_type <> "bpr" ->
     fit als bpr df model_type params = Ok None) /\
  (forall self, built = Ok self ->
     (weighting <> "bm25" -> weighting <> "tfidf" ->
      _prepare_matrix data mode = Ok (user_item_matrix self)) /\
     (model_type <> "als" -> model_type <> "bpr" -> model self = None)).
Proof.
  intros built weighted.
  assert (Hfit_none : forall df, model_type <> "als" -> model_type <> "bpr" ->
                                 fit als bpr df model_type params = Ok None).
  { intros df Ha Hb. unfold fit.
    destruct (String.eqb_spec model_type "als"); [contradiction |].
    destruct (String.eqb_spec model_type "bpr"); [contradiction | reflexivity]. }
  assert (Hown_bad : forall m, own_type <> "item-item" -> own_type <> "cosine" ->
                               own_type <> "tfidf" ->
                               fit_own_recommender ii cosine tfidf_rec m own_type own_params
                               = Raise AttributeError).
  { intros m H1 H2 H3. unfold fit_own_recommender.
    destruct (String.eqb_spec own_type "item-item"); [contradiction |].
    destruct (String.eqb_spec own_type "cosine"); [contradiction |].
    destruct (String.eqb_spec own_type "tfidf"); [contradiction | reflexivity]. }
  assert (Hbuilt : forall df, _prepare_matrix data mode = Ok df ->
             built = match fit als bpr (weighted df) model_type params with
                     | Raise e => Raise e
                     | Ok mdl =>
                         match fit_own_recommender ii cosine tfidf_rec (weighted df)
                                 own_type own_params with
                         | Raise e => Raise e
                         | Ok own =>
                             Ok {| top_purchases :=
                                     List.filter (fun r => negb (tp_item_id r =? 999999)%Z)
                                       (sort_by
                                          (fun r1 r2 => (tp_quantity r2 <=? tp_quantity r1)%Z)
                                          (count_by_user_item data));
                                   overall_top_purchases :=
                                     map fst
                                       (List.filter (fun r => negb (r.1 =? 999999)%Z)
                                          (sort_by (fun r1 r2 => (r2.2 <=? r1.2)%Z)
                                             (count_by_item data)));
                                   user_item_matrix := weighted df;
                                   id_to_itemid := (_prepare_dicts df).1.1.1;
                                   id_to_userid := (_prepare_dicts df).1.1.2;
                                   itemid_to_id := (_prepare_dicts df).1.2;
                                   userid_to_id := (_prepare_dicts df).2;
                                   model := mdl;
                                   own_recommender := own |}
                         end
                     end).
  { intros df Hdf. subst built. unfold __init__. rewrite Hdf.
    destruct (_prepare_dicts df) as [[[d1 d2] d3] d4]. reflexivity. }
  split; [| split; [| split]].
  - intros H1 H2 H3. subst built. unfold __init__, _prepare_matrix.
    destruct (String.eqb_spec mode "binary"); [contradiction |].
    destruct (String.eqb_spec mode "quantity"); [contradiction |].
    destruct (String.eqb_spec mode "purchase_sum"); [contradiction | reflexivity].
  - intros df Hdf. rewrite (Hbuilt df Hdf). split.
    + intros e He. now rewrite He.
    + intros mdl Hmdl. rewrite Hmdl. split; [| split].
      * intros e He. now rewrite He.
      * intros H1 H2 H3. now rewrite Hown_bad.
      * intros own Hown. rewrite Hown. eexists. split; [reflexivity |]. now cbn.
  - exact Hfit_none.
  - intros self Hself.
    destruct (_prepare_matrix data mode) as [df | e] eqn:Hdf;
      [| subst built; unfold __init__ in Hself; rewrite Hdf in Hself; discriminate Hself].
    rewrite (Hbuilt df eq_refl) in Hself.
    destruct (fit als bpr (weighted df) model_type params) as [mdl |] eqn:Hfit;
      [| discriminate Hself].
    destruct (fit_own_recommender _ _ _ _ _ _) as [own |]; [| discriminate Hself].
    injection Hself as <-. cbn. split.
    + intros Hb Ht. unfold weighted.
      destruct (String.eqb_spec weighting "bm25"); [contradiction |].
      destruct (String.eqb_spec weighting "tfidf"); [contradiction | reflexivity].
    + intros Ha Hb. rewrite Hfit_none in Hfit by assumption. now injection Hfit as <-.
Qed.

Lemma first_mapM_raises {A B : Type} (f : A -> M B) (x : A) (l : list A)
    (s s' : MainRecommender) (e : PyError) :
  f x s = (s', Raise e) -> mapM f (x :: l) s = (s', Raise e).
Proof. intros H. cbn. now apply bind_raise. Qed.

(** X18. On an object without a factorization model (such as [__init__]
    builds for an unrecognised model type) the similar-users strategy and
    both factor tables raise AttributeError at once; so does
    [get_recommendations] for a registered user, and the similar-items
    strategy with N >= 1 for a user that has a top-purchases row.  None of
    these calls changes the object. *)
Theorem no_model_raises (item_factors user_factors : Model -> list (list Q))
    (user : Z) (N : nat) (s : MainRecommender) :
  model s = None ->
  get_similar_users_recommendation user N s = (s, Raise AttributeError) /\
  get_item_factors item_factors s = (s, Raise AttributeError) /\
  get_user_factors user_factors s = (s, Raise AttributeError) /\
  (is_Some (userid_to_id s !! user) ->
   get_recommendations user N s = (s, Raise AttributeError)) /\
  (1 <= N -> (exists row, In row (top_purchases s) /\ tp_user_id row = user) ->
   get_similar_items_recommendation user N s = (s, Raise AttributeError)).
Proof.
  intros Hm. split; [| split; [| split; [| split]]].
  - unfold get_similar_users_recommendation, bind, get_self. now rewrite Hm.
  - unfold get_item_factors, bind, get_self. now rewrite Hm.
  - unfold get_user_factors, bind, get_self. now rewrite Hm.
  - intros Hknown. unfold get_recommendations.
    rewrite (bind_ok _ _ _ _ _ (update_dict_known s user Hknown)).
    unfold bind at 1, get_self. unfold _get_recommendations.
    rewrite (bind_ok _ _ _ _ _ (update_dict_known s user Hknown)).
    unfold bind, get_self. now rewrite Hm.
  - intros HN (row & Hrow & Hu).
    unfold get_similar_items_recommendation. unfold bind at 1, get_self.
    apply bind_raise.
    assert (Hin : In row (List.filter (fun r => (tp_user_id r =? user)%Z) (top_purchases s)))
      by (apply filter_In; split; [exact Hrow | now apply Z.eqb_eq]).
    destruct (List.filter _ (top_purchases s)) as [| r0 rows]; [destruct Hin |].
    destruct N as [| N]; [lia |]. cbn [firstn].
    apply first_mapM_raises. unfold _get_similar_item, bind, get_self. now rewrite Hm.
Qed.

Lemma no_model_raises_witness :
  model Example2.self_nomodel = None /\
  get_recommendations 1 3 Example2.self_nomodel
  = (Example2.self_nomodel, Raise AttributeError) /\
  get_similar_items_recommendation 1 3 Example2.self_nomodel
  = (Example2.self_nomodel, Raise AttributeError).
Proof.
  assert (Hm : model Example2.self_nomodel = None) by (vm_compute; reflexivity).
  destruct (no_model_raises Example2.item_factors Example2.user_factors 1 3
              Example2.self_nomodel Hm) as (_ & _ & _ & Hrec & Hitm).
  split; [exact Hm |]. split.
  - apply Hrec. vm_compute. eauto.
  - apply Hitm; [lia |]. eexists. split; [vm_compute; left; reflexivity | reflexivity].
Defined.

Lemma init_error_behaviour_witness :
  Example.build "sum" = Raise AttributeError /\
  __init__ Example2.failing_trainer (Example.trainer 5) (Example.trainer 1)
    (Example.trainer 1) (Example.trainer 1) (fun m => m) (fun m => m)
    Example.data "none" "als" "item-item" None None "binary" = Raise TypeError /\
  __init__ (Example.trainer 5) (Example.trainer 5) (Example.trainer 1)
    (Example.trainer 1) (Example.trainer 1) (fun m => m) (fun m => m)
    Example.data "none" "als" "knn" None None "binary" = Raise AttributeError /\
  model Example2.self_nomodel = None.
Proof.
  split; [| split; [| split]].
  - destruct (init_error_behaviour (Example.trainer 5) (Example.trainer 5)
                (Example.trainer 1) (Example.trainer 1) (Example.trainer 1)
                (fun m => m) (fun m => m) Example.data "none" "als" "item-item"
                None None "sum") as (H & _).
    apply H; discriminate.
  - destruct (init_error_behaviour Example2.failing_trainer (Example.trainer 5)
                (Example.trainer 1) (Example.trainer 1) (Example.trainer 1)
                (fun m => m) (fun m => m) Example.data "none" "als" "item-item"
                None None "binary") as (_ & H & _).
    destruct (H _ eq_refl) as (Hfit & _). apply Hfit. reflexivity.
  - destruct (init_error_behaviour (Example.trainer 5) (Example.trainer 5)
                (Example.trainer 1) (Example.trainer 1) (Example.trainer 1)
                (fun m => m) (fun m => m) Example.data "none" "als" "knn"
                None None "binary") as (_ & H & _).
    destruct (H _ eq_refl) as (_ & Hown). destruct (Hown _ eq_refl) as (_ & Hbad & _).
    apply Hbad; discriminate.
  - destruct (init_error_behaviour (Example.trainer 5) (Example.trainer 5)
                (Example.trainer 1) (Example.trainer 1) (Example.trainer 1)
                (fun m => m) (fun m => m) Example.data "none" "lightfm" "item-item"
                None None "binary") as (_ & _ & _ & H).
    apply (H Example2.self_nomodel); [vm_compute; reflexivity | discriminate | discriminate].
Defined.
